(** * Purchase-order composition screen (po_populate.js, po_requests.js)

    A shallow embedding of the client-side state machine that assembles a
    purchase order's line items, together with the REST helpers it calls.

    The source file [po_populate.js] holds two revisions of the page
    controller and two copies of the request helpers.  The first revision
    (lines 1-486, keyed on sku and voucher value) is embedded in
    [Module PoPopulate], the earlier one (lines 488-885, keyed on sku only)
    in [Module PoPopulateOld], the request helpers in [Module PoRequests].
    The properties proved of them are in [Module RequestProofs] and
    [Module OrderProofs], and, by function, in [Module CookieProofs]
    (getCookie, getProductsBySupplier), [Module PageProofs] (the display,
    sessions of additions, quantity changes and deletions),
    [Module SaveProofs] (savePO, sendPO), [Module ImportProofs],
    [Module LoadProofs], [Module StartProofs] (suppliersOrder) and
    [Module OldProofs] (the earlier revision).

    JavaScript values are embedded in [Module JS].  Numbers are exact:
    a finite Number is a rational, kept in lowest terms, next to NaN and
    the two infinities.  Binary rounding error, overflow and the negative
    zero of IEEE doubles are outside the model. *)

From Stdlib Require Import ZArith QArith Qround Qabs String Ascii List Bool Lia Lqa.
From stdpp Require Import gmap strings list fin_maps pretty.

#[local] Open Scope string_scope.
#[local] Open Scope Z_scope.

(* ===================================================================== *)
(** ** JavaScript values *)
(* ===================================================================== *)

Module JS.

(** *** Numbers *)

Inductive num : Type :=
| NaN
| Inf (neg : bool)
| Fin (q : Q).

Definition Qis_neg (q : Q) : bool := Qnum q <? 0.
Definition Qis_zero (q : Q) : bool := Qnum q =? 0.

Definition num_of_Z (z : Z) : num := Fin (z # 1).

Definition num_add (x y : num) : num :=
  match x, y with
  | NaN, _ | _, NaN => NaN
  | Inf a, Inf b => if Bool.eqb a b then Inf a else NaN
  | Inf a, Fin _ | Fin _, Inf a => Inf a
  | Fin p, Fin q => Fin (Qred (p + q))
  end.

Definition num_sub (x y : num) : num :=
  match x, y with
  | NaN, _ | _, NaN => NaN
  | Inf a, Inf b => if Bool.eqb a b then NaN else Inf a
  | Inf a, Fin _ => Inf a
  | Fin _, Inf b => Inf (negb b)
  | Fin p, Fin q => Fin (Qred (p - q))
  end.

Definition num_mul (x y : num) : num :=
  match x, y with
  | NaN, _ | _, NaN => NaN
  | Inf a, Inf b => Inf (xorb a b)
  | Inf a, Fin q | Fin q, Inf a =>
      if Qis_zero q then NaN else Inf (xorb a (Qis_neg q))
  | Fin p, Fin q => Fin (Qred (p * q))
  end.

Definition num_div (x y : num) : num :=
  match x, y with
  | NaN, _ | _, NaN => NaN
  | Inf _, Inf _ => NaN
  | Inf a, Fin q => Inf (xorb a (Qis_neg q))
  | Fin _, Inf _ => Fin 0
  | Fin p, Fin q =>
      if Qis_zero q
      then (if Qis_zero p then NaN else Inf (Qis_neg p))
      else Fin (Qred (p / q))
  end.

(** [x < y] on numbers; any comparison with NaN is false. *)
Definition num_ltb (x y : num) : bool :=
  match x, y with
  | NaN, _ | _, NaN => false
  | Inf a, Inf b => a && negb b
  | Inf a, Fin _ => a
  | Fin _, Inf b => negb b
  | Fin p, Fin q =>
      match (p ?= q)%Q with Lt => true | _ => false end
  end.

(** [x === y] on numbers; NaN differs from itself. *)
Definition num_eqb (x y : num) : bool :=
  match x, y with
  | Inf a, Inf b => Bool.eqb a b
  | Fin p, Fin q => Qeq_bool p q
  | _, _ => false
  end.

(** [Math.floor] and [Math.round] (halves go towards plus infinity). *)
Definition num_floor (x : num) : num :=
  match x with
  | Fin q => Fin (Qfloor q # 1)
  | _ => x
  end.

Definition num_round (x : num) : num :=
  match x with
  | Fin q => Fin (Qfloor (q + (1 # 2)) # 1)
  | _ => x
  end.

Definition num_max (x y : num) : num :=
  match x, y with
  | NaN, _ | _, NaN => NaN
  | _, _ => if num_ltb x y then y else x
  end.

(** *** Numbers to strings *)

(** The decimal digits of [r / d] after the point, for [0 <= r < d]; the
    expansion stops when it terminates or after [fuel] digits. *)
Fixpoint frac_digits (fuel : nat) (r d : Z) : string :=
  match fuel with
  | O => ""
  | S fuel' =>
      if r =? 0 then ""
      else pretty (r * 10 / d) +:+ frac_digits fuel' (r * 10 mod d) d
  end.

(** [Number::toString] of a non-negative rational.  Integers and
    terminating decimals print exactly; an expansion that does not
    terminate is cut after sixteen fractional digits, and the exponent
    notation of very large or very small magnitudes is not produced. *)
Definition Qabs_to_string (q : Q) : string :=
  let n := Z.abs (Qnum q) in
  let d := Zpos (Qden q) in
  let r := n mod d in
  if r =? 0 then pretty (n / d)
  else pretty (n / d) +:+ "." +:+ frac_digits 16 r d.

Definition num_to_string (x : num) : string :=
  match x with
  | NaN => "NaN"
  | Inf false => "Infinity"
  | Inf true => "-Infinity"
  | Fin q =>
      let q := Qred q in
      if Qis_neg q then "-" +:+ Qabs_to_string q else Qabs_to_string q
  end.

(** [x.toFixed(1)]: the sign is split off, then [n] is the integer with
    [n / 10] closest to [|x|], the larger one on a tie. *)
Definition toFixed1 (x : num) : string :=
  match x with
  | Fin q =>
      let n := Qfloor (10 * Qabs q + (1 # 2)) in
      (if Qis_neg q then "-" else "")
        +:+ pretty (n / 10) +:+ "." +:+ pretty (n mod 10)
  | _ => num_to_string x
  end.

(** *** Strings to numbers *)

Definition digit_of (c : ascii) : option Z :=
  let n := Z.of_nat (nat_of_ascii c) in
  if (48 <=? n) && (n <=? 57) then Some (n - 48) else None.

Definition is_space (c : ascii) : bool :=
  let n := nat_of_ascii c in
  (n =? 32)%nat || ((9 <=? n)%nat && (n <=? 13)%nat).

(** Reads a run of digits: the value read so far, how many digits were
    read, and the rest of the input. *)
Fixpoint read_digits (acc : Z) (cnt : nat) (cs : list ascii)
  : Z * nat * list ascii :=
  match cs with
  | c :: cs' =>
      match digit_of c with
      | Some d => read_digits (acc * 10 + d) (S cnt) cs'
      | None => (acc, cnt, cs)
      end
  | [] => (acc, cnt, cs)
  end.

Definition pow10 (e : Z) : Q :=
  if e <? 0 then 1 # Z.to_pos (10 ^ (- e)) else (10 ^ e) # 1.

(** The exponent part of a decimal literal; [None] when malformed. *)
Definition read_exponent (cs : list ascii) : option Z :=
  match cs with
  | [] => Some 0
  | e :: cs' =>
      if (nat_of_ascii e =? 101)%nat || (nat_of_ascii e =? 69)%nat then
        let '(neg, ds) :=
          match cs' with
          | "-"%char :: r => (true, r)
          | "+"%char :: r => (false, r)
          | _ => (false, cs')
          end in
        match read_digits 0 0 ds with
        | (_, O, _) => None
        | (v, _, []) => Some (if neg then - v else v)
        | _ => None
        end
      else None
  end.

(** An unsigned decimal literal: digits, an optional fraction, an
    optional exponent. *)
Definition read_unsigned (cs : list ascii) : option Q :=
  let '(ip, ni, rest) := read_digits 0 0 cs in
  let '(fp, nf, rest') :=
    match rest with
    | "."%char :: r => read_digits 0 0 r
    | _ => (0, O, rest)
    end in
  let dotted := match rest with "."%char :: _ => true | _ => false end in
  if ((ni =? 0)%nat && (nf =? 0)%nat) then None
  else if (negb dotted && (ni =? 0)%nat) then None
  else
    match read_exponent rest' with
    | Some e =>
        Some (Qred (((ip # 1) + (fp # 1) * pow10 (- Z.of_nat nf)) * pow10 e))
    | None => None
    end.

Definition trim_spaces (cs : list ascii) : list ascii :=
  let drop := fix drop (l : list ascii) :=
    match l with
    | c :: l' => if is_space c then drop l' else l
    | [] => []
    end in
  rev (drop (rev (drop cs))).

(** [Number(s)] for a string: white space is trimmed, the empty string
    is 0, a signed decimal literal or [Infinity] is read, anything else is
    NaN.  Hexadecimal, octal and binary literals are not read. *)
Definition string_to_num (s : string) : num :=
  let cs := trim_spaces (list_ascii_of_string s) in
  match cs with
  | [] => Fin 0
  | _ =>
      let '(neg, body) :=
        match cs with
        | "-"%char :: r => (true, r)
        | "+"%char :: r => (false, r)
        | _ => (false, cs)
        end in
      if String.eqb (string_of_list_ascii body) "Infinity" then Inf neg
      else
        match read_unsigned body with
        | Some q => Fin (if neg then Qred (- q) else q)
        | None => NaN
        end
  end.

(** *** Values *)

(** A JavaScript value: the primitives, arrays and plain objects (the
    values JSON can carry, and [undefined]).  An object is a finite map
    from property names to values; a property that is absent reads as
    [undefined].  Object identity is not modelled: no comparison in the
    embedded code is applied to objects or arrays. *)
#[warnings="-register-all"]
Inductive jsval : Type :=
| JUndefined
| JNull
| JBool (b : bool)
| JNum (n : num)
| JStr (s : string)
| JArr (l : list jsval)
| JObj (o : gmap string jsval).

Abbreviation obj := (gmap string jsval).

Definition JZ (z : Z) : jsval := JNum (num_of_Z z).

(** [o.k] on an object. *)
Definition get (o : obj) (k : string) : jsval := default JUndefined (o !! k).

(** [o.k = v] on an object. *)
Definition assign (o : obj) (k : string) (v : jsval) : obj := <[k := v]> o.

(** [v.k] on any value: reading a property of [undefined] or [null]
    throws a TypeError ([None]); primitives and arrays have none of the
    properties read by the embedded code. *)
Definition prop (v : jsval) (k : string) : option jsval :=
  match v with
  | JUndefined | JNull => None
  | JObj o => Some (get o k)
  | _ => Some JUndefined
  end.

(** [v?.k] *)
Definition optprop (v : jsval) (k : string) : jsval :=
  default JUndefined (prop v k).

(** [String(v)]; an array joins its elements with commas, [null] and
    [undefined] elements giving the empty string. *)
Fixpoint ToString (v : jsval) : string :=
  match v with
  | JUndefined => "undefined"
  | JNull => "null"
  | JBool b => if b then "true" else "false"
  | JNum n => num_to_string n
  | JStr s => s
  | JArr l =>
      let elem := fun x =>
        match x with
        | JUndefined | JNull => ""
        | _ => ToString x
        end in
      (fix join (l : list jsval) : string :=
         match l with
         | [] => ""
         | [x] => elem x
         | x :: l' => elem x +:+ "," +:+ join l'
         end) l
  | JObj _ => "[object Object]"
  end.

(** [Number(v)] *)
Definition ToNumber (v : jsval) : num :=
  match v with
  | JUndefined => NaN
  | JNull => Fin 0
  | JBool b => if b then Fin 1 else Fin 0
  | JNum n => n
  | JStr s => string_to_num s
  | JArr _ | JObj _ => string_to_num (ToString v)
  end.

Definition truthy (v : jsval) : bool :=
  match v with
  | JUndefined | JNull => false
  | JBool b => b
  | JNum (Fin q) => negb (Qis_zero q)
  | JNum NaN => false
  | JNum (Inf _) => true
  | JStr s => negb (String.eqb s "")
  | JArr _ | JObj _ => true
  end.

(** [a || b] *)
Definition js_or (a b : jsval) : jsval := if truthy a then a else b.

(** [a === b] *)
Definition strict_eq (a b : jsval) : bool :=
  match a, b with
  | JUndefined, JUndefined => true
  | JNull, JNull => true
  | JBool x, JBool y => Bool.eqb x y
  | JNum x, JNum y => num_eqb x y
  | JStr s, JStr t => String.eqb s t
  | _, _ => false
  end.

(** Arrays and objects turn into their string before [+], [==] and [<]. *)
Definition is_primitive (v : jsval) : bool :=
  match v with JArr _ | JObj _ => false | _ => true end.

Definition ToPrimitive (v : jsval) : jsval :=
  if is_primitive v then v else JStr (ToString v).

(** [a == b] *)
Definition loose_eq (a b : jsval) : bool :=
  if negb (is_primitive a) && negb (is_primitive b) then false
  else
    match ToPrimitive a, ToPrimitive b with
    | (JUndefined | JNull), (JUndefined | JNull) => true
    | (JUndefined | JNull), _ | _, (JUndefined | JNull) => false
    | JStr s, JStr t => String.eqb s t
    | x, y => num_eqb (ToNumber x) (ToNumber y)
    end.

(** The key equality of a [Map] and of [Set.has] (SameValueZero). *)
Definition same_value_zero (a b : jsval) : bool :=
  match a, b with
  | JNum NaN, JNum NaN => true
  | _, _ => strict_eq a b
  end.

Definition is_string (v : jsval) : bool :=
  match v with JStr _ => true | _ => false end.

(** [a + b]: concatenation as soon as one side is a string, addition
    otherwise. *)
Definition js_add (a b : jsval) : jsval :=
  let a := ToPrimitive a in
  let b := ToPrimitive b in
  if is_string a || is_string b
  then JStr (ToString a +:+ ToString b)
  else JNum (num_add (ToNumber a) (ToNumber b)).

Definition js_sub (a b : jsval) : jsval := JNum (num_sub (ToNumber a) (ToNumber b)).
Definition js_mul (a b : jsval) : jsval := JNum (num_mul (ToNumber a) (ToNumber b)).
Definition js_div (a b : jsval) : jsval := JNum (num_div (ToNumber a) (ToNumber b)).

Definition string_ltb (s t : string) : bool :=
  match String.compare s t with Lt => true | _ => false end.

(** [a < b] and [a > b]: two strings compare by code units, everything
    else as numbers. *)
Definition js_lt (a b : jsval) : bool :=
  match ToPrimitive a, ToPrimitive b with
  | JStr s, JStr t => string_ltb s t
  | x, y => num_ltb (ToNumber x) (ToNumber y)
  end.

Definition js_gt (a b : jsval) : bool := js_lt b a.

(** [Math.floor(v)], [Math.round(v)], [Math.max(a, b)] and
    [Number(v).toFixed(1)] on values. *)
Definition Math_floor (v : jsval) : jsval := JNum (num_floor (ToNumber v)).
Definition Math_round (v : jsval) : jsval := JNum (num_round (ToNumber v)).
Definition Math_max (a b : jsval) : jsval := JNum (num_max (ToNumber a) (ToNumber b)).
Definition Number_toFixed1 (v : jsval) : string := toFixed1 (ToNumber v).

End JS.

(* ===================================================================== *)
(** ** The request helpers (po_populate.js, 886-972) *)
(* ===================================================================== *)

Module PoRequests.
Import JS.

Definition BASE_API_URL : string := "/".

(** The second argument of [fetch].  [body] holds the value handed to
    [JSON.stringify], when there is one. *)
Record config : Type := Config {
  method : string;
  headers : obj;
  body : option jsval
}.

(** What the code reads of a [Response]: [json] is [None] when the body
    does not parse as JSON, the parsed value otherwise. *)
Record response : Type := Response {
  ok : bool;
  status : jsval;
  json : option jsval
}.

(** What a promise rejects with: a value the code built, or an error
    raised by the runtime. *)
Inductive thrown : Type :=
| Reason (v : jsval)
| TypeError
| SyntaxError
| NetworkError.

Inductive promise (A : Type) : Type :=
| Fulfilled (a : A)
| Rejected (e : thrown).
Arguments Fulfilled {A} a.
Arguments Rejected {A} e.

(** [p.then(k)] and [p.catch(h)] on a settled promise. *)
Definition then_ {A B : Type} (p : promise A) (k : A → promise B) : promise B :=
  match p with
  | Fulfilled a => k a
  | Rejected e => Rejected e
  end.

Definition catch_ {A : Type} (p : promise A) (h : thrown → promise A) : promise A :=
  match p with
  | Fulfilled a => Fulfilled a
  | Rejected e => h e
  end.

(** A computation that talks to the server: it ends with a result, or
    issues one [fetch] and goes on with what the network answers. *)
Inductive api (A : Type) : Type :=
| Return (a : A)
| Fetch (url : string) (cfg : config) (k : promise response → api A).
Arguments Return {A} a.
Arguments Fetch {A} url cfg k.

Fixpoint api_bind {A B : Type} (m : api A) (f : A → api B) : api B :=
  match m with
  | Return a => f a
  | Fetch url cfg k => Fetch url cfg (fun r => api_bind (k r) f)
  end.

(** Runs a computation against a network. *)
Fixpoint run {A : Type} (net : string → config → promise response) (m : api A) : A :=
  match m with
  | Return a => a
  | Fetch url cfg k => run net (k (net url cfg))
  end.

(** The requests a computation issues against a network, in order:
    method and URL. *)
Fixpoint requests {A : Type} (net : string → config → promise response) (m : api A)
  : list (string * string) :=
  match m with
  | Return _ => []
  | Fetch url cfg k => (method cfg, url) :: requests net (k (net url cfg))
  end.

(** [response.json()] *)
Definition json_promise (r : response) : promise jsval :=
  match json r with
  | Some v => Fulfilled v
  | None => Rejected SyntaxError
  end.

Definition status_only (st : jsval) : jsval :=
  JObj {[ "status" := st ]}.

Definition status_and_data (st data : jsval) : jsval :=
  JObj (<[ "data" := data ]> {[ "status" := st ]}).

(** The two handlers chained on the promise of [fetch]. *)
Definition settle (fetched : promise response) : promise jsval :=
  then_
    (catch_ fetched (fun _err => Rejected (Reason (status_only (JZ (-1))))))
    (fun response =>
       then_
         (catch_ (json_promise response)
            (fun _err => Rejected (Reason (status_only (status response)))))
         (fun responseBody =>
            if ok response then
              match prop responseBody "data" with
              | Some data => Fulfilled data
              | None => Rejected TypeError
              end
            else Rejected (Reason (status_and_data (status response) responseBody)))).

(** [headers || {}] *)
Definition headers_or_empty (hdrs : jsval) : obj :=
  match hdrs with
  | JObj o => o
  | _ => ∅
  end.

(** The object [config] handed to [fetch]. *)
Definition fetch_config (method : string) (body hdrs : jsval) : config :=
  if truthy body
  then Config method
         (<[ "Content-Type" := JStr "application/json" ]> (headers_or_empty hdrs))
         (Some body)
  else Config method (headers_or_empty hdrs) None.

Definition _callAPI (endpoint method : string) (body hdrs : jsval) : api (promise jsval) :=
  Fetch (BASE_API_URL +:+ endpoint) (fetch_config method body hdrs)
    (fun fetched => Return (settle fetched)).

(** [{'X-CSRFToken': getCookie("csrftoken")}]; the cookie is an input. *)
Definition csrf_headers (csrftoken : jsval) : jsval :=
  JObj {[ "X-CSRFToken" := csrftoken ]}.

Definition getSuppliers : api (promise jsval) :=
  _callAPI "inventory/suppliers" "GET" JUndefined JUndefined.

Definition sendApprovedPO (csrftoken id : jsval) : api (promise jsval) :=
  _callAPI ("logistics/order-products-status/" +:+ ToString id) "PATCH"
    (JObj ∅) (csrf_headers csrftoken).

Definition sendProductsOrder (csrftoken order id : jsval) : api (promise jsval) :=
  if negb (strict_eq id (JStr "")) then
    _callAPI ("logistics/order-products/" +:+ ToString id) "PATCH" order
      (csrf_headers csrftoken)
  else
    _callAPI "logistics/order-products" "POST" order (csrf_headers csrftoken).

Definition getCatgoriesSuppliersTags : api (promise jsval) :=
  _callAPI "campaign/categories-suppliers-tags" "GET" JUndefined JUndefined.

(** *** getCookie *)

(** [s.split(sep)] for a separator that is not empty.  The string is read
    from left to right: [cur] is the piece read so far, and [skip] counts
    the characters of a separator just found that are still to pass.
    Strings are sequences of bytes (UTF-8); a separator is found at the
    same places as in the sequence of UTF-16 code units. *)
Fixpoint split_go (sep : string) (skip : nat) (cur s : string) : list string :=
  match s with
  | EmptyString => [cur]
  | String c s' =>
      match skip with
      | S skip' => split_go sep skip' cur s'
      | O =>
          if String.prefix sep s
          then cur :: split_go sep (String.length sep - 1) "" s'
          else split_go sep 0 (cur +:+ String c "") s'
      end
  end.

Definition split (sep s : string) : list string := split_go sep 0 "" s.

(** [cookie] is [document.cookie].  The function returns nothing
    ([undefined]) unless the split gives two parts. *)
Definition getCookie (cookie : string) (name : jsval) : jsval :=
  let value := "; " +:+ cookie in
  let parts := split ("; " +:+ ToString name +:+ "=") value in
  match parts with
  | [_; last] =>
      match split ";" last with
      | first :: _ => JStr first
      | [] => JUndefined
      end
  | _ => JUndefined
  end.

(** *** getProductsBySupplier *)

(** The characters [encodeURIComponent] leaves as they are: letters,
    digits and [- _ . ! ~ * ' ( )]. *)
Definition unreserved (c : ascii) : bool :=
  let n := nat_of_ascii c in
  ((48 <=? n) && (n <=? 57) || (65 <=? n) && (n <=? 90) || (97 <=? n) && (n <=? 122))%nat
  || existsb (Ascii.eqb c) (list_ascii_of_string "-_.!~*'()").

Definition hex_digit (n : nat) : ascii :=
  ascii_of_nat (if n <? 10 then 48 + n else 55 + n)%nat.

Definition percent_encode (c : ascii) : string :=
  let n := nat_of_ascii c in
  String "%" (String (hex_digit (n / 16)%nat) (String (hex_digit (n mod 16)%nat) "")).

(** [encodeURIComponent(s)]: every byte of the UTF-8 form of [s] that is
    not unreserved is written as a percent sign and two hexadecimal
    digits.  A string with a lone surrogate, for which the function throws,
    has no UTF-8 form and is outside the model. *)
Fixpoint encodeURIComponent (s : string) : string :=
  match s with
  | EmptyString => ""
  | String c s' =>
      (if unreserved c then String c "" else percent_encode c) +:+ encodeURIComponent s'
  end.

(** The argument is destructured ([{name}]): [undefined] and [null]
    raise a TypeError, which rejects the promise of the async function. *)
Definition getProductsBySupplier (supplier : jsval) : api (promise jsval) :=
  match prop supplier "name" with
  | Some name =>
      _callAPI ("inventory/supplier-products?name=" +:+ encodeURIComponent (ToString name))
        "GET" JUndefined JUndefined
  | None => Return (Rejected TypeError)
  end.

End PoRequests.

(* ===================================================================== *)
(** ** The page controller, current revision (po_populate.js, 1-486) *)
(* ===================================================================== *)

Module PoPopulate.
Import JS.

(** The shekel sign that follows the sub-total. *)
Definition shekel : string :=
  String (ascii_of_nat 226) (String (ascii_of_nat 130) (String (ascii_of_nat 170) "")).

(** The script's global variables and the parts of the document it
    writes.  [None] stands for a variable that is still [undefined].
    The rows of the table are rendered from [orderProducts] alone and are
    not kept.  The elements the script looks up by id are those of the
    page's template and of the rows it rendered, so a look-up by id always
    finds its element; only the option of [#suppliers] that
    [loadOrderFromInitData] selects may be missing. *)
Record page : Type := Page {
  products : option (list obj);
  selectedSupplier : jsval;
  selectedProduct : option obj;
  selectedProductQuantity : jsval;
  orderProducts : list obj;
  suppliers : option (list obj);
  selectedOrderStatus : jsval;
  (* the document *)
  supplierOptions : list string;   (* values of the options of #suppliers *)
  voucherHeaders : bool;   (* the two voucher columns are shown *)
  subTotal : string;   (* text of #sub-total *)
  note : jsval;   (* content of #note *)
  poNumberText : string;   (* text of #po-number *)
  saveDisabled : bool;   (* the save buttons are disabled *)
  location : option string;   (* where the window was sent *)
  alerts : list string   (* messages shown by alert(), oldest first *)
}.

Definition with_products (ps : option (list obj)) (p : page) : page :=
  Page ps (selectedSupplier p) (selectedProduct p)
    (selectedProductQuantity p) (orderProducts p) (suppliers p)
    (selectedOrderStatus p) (supplierOptions p) (voucherHeaders p)
    (subTotal p) (note p) (poNumberText p) (saveDisabled p) (location p)
    (alerts p).

Definition with_selectedSupplier (s : jsval) (p : page) : page :=
  Page (products p) s (selectedProduct p) (selectedProductQuantity p)
    (orderProducts p) (suppliers p) (selectedOrderStatus p)
    (supplierOptions p) (voucherHeaders p) (subTotal p) (note p)
    (poNumberText p) (saveDisabled p) (location p) (alerts p).

Definition with_selectedProduct (s : option obj) (p : page) : page :=
  Page (products p) (selectedSupplier p) s (selectedProductQuantity p)
    (orderProducts p) (suppliers p) (selectedOrderStatus p)
    (supplierOptions p) (voucherHeaders p) (subTotal p) (note p)
    (poNumberText p) (saveDisabled p) (location p) (alerts p).

Definition with_selectedProductQuantity (q : jsval) (p : page) : page :=
  Page (products p) (selectedSupplier p) (selectedProduct p) q
    (orderProducts p) (suppliers p) (selectedOrderStatus p)
    (supplierOptions p) (voucherHeaders p) (subTotal p) (note p)
    (poNumberText p) (saveDisabled p) (location p) (alerts p).

Definition with_orderProducts (ops : list obj) (p : page) : page :=
  Page (products p) (selectedSupplier p) (selectedProduct p)
    (selectedProductQuantity p) ops (suppliers p) (selectedOrderStatus p)
    (supplierOptions p) (voucherHeaders p) (subTotal p) (note p)
    (poNumberText p) (saveDisabled p) (location p) (alerts p).

Definition with_voucherHeaders (b : bool) (p : page) : page :=
  Page (products p) (selectedSupplier p) (selectedProduct p)
    (selectedProductQuantity p) (orderProducts p) (suppliers p)
    (selectedOrderStatus p) (supplierOptions p) b (subTotal p) (note p)
    (poNumberText p) (saveDisabled p) (location p) (alerts p).

Definition with_subTotal (s : string) (p : page) : page :=
  Page (products p) (selectedSupplier p) (selectedProduct p)
    (selectedProductQuantity p) (orderProducts p) (suppliers p)
    (selectedOrderStatus p) (supplierOptions p) (voucherHeaders p) s
    (note p) (poNumberText p) (saveDisabled p) (location p) (alerts p).

Definition with_note (n : jsval) (p : page) : page :=
  Page (products p) (selectedSupplier p) (selectedProduct p)
    (selectedProductQuantity p) (orderProducts p) (suppliers p)
    (selectedOrderStatus p) (supplierOptions p) (voucherHeaders p)
    (subTotal p) n (poNumberText p) (saveDisabled p) (location p)
    (alerts p).

Definition with_poNumberText (s : string) (p : page) : page :=
  Page (products p) (selectedSupplier p) (selectedProduct p)
    (selectedProductQuantity p) (orderProducts p) (suppliers p)
    (selectedOrderStatus p) (supplierOptions p) (voucherHeaders p)
    (subTotal p) (note p) s (saveDisabled p) (location p) (alerts p).

Definition with_saveDisabled (b : bool) (p : page) : page :=
  Page (products p) (selectedSupplier p) (selectedProduct p)
    (selectedProductQuantity p) (orderProducts p) (suppliers p)
    (selectedOrderStatus p) (supplierOptions p) (voucherHeaders p)
    (subTotal p) (note p) (poNumberText p) b (location p) (alerts p).

Definition navigate (url : string) (p : page) : page :=
  Page (products p) (selectedSupplier p) (selectedProduct p)
    (selectedProductQuantity p) (orderProducts p) (suppliers p)
    (selectedOrderStatus p) (supplierOptions p) (voucherHeaders p)
    (subTotal p) (note p) (poNumberText p) (saveDisabled p) (Some url)
    (alerts p).

Definition alert (msg : string) (p : page) : page :=
  Page (products p) (selectedSupplier p) (selectedProduct p)
    (selectedProductQuantity p) (orderProducts p) (suppliers p)
    (selectedOrderStatus p) (supplierOptions p) (voucherHeaders p)
    (subTotal p) (note p) (poNumberText p) (saveDisabled p) (location p)
    (alerts p ++ [msg]).

(** A function that may stop on an uncaught exception: the page as the
    exception left it. *)
Inductive completion : Type :=
| Done (p : page)
| Threw (p : page).

Definition page_of (c : completion) : page :=
  match c with Done p | Threw p => p end.

(** [roundValue = (value) => Math.round(value * 100) / 100] *)
Definition roundValue (value : jsval) : jsval :=
  js_div (Math_round (js_mul value (JZ 100))) (JZ 100).

(** [orderProducts.some(product => product.product_kind === "MONEY")] *)
Definition hasMoneyProducts (ops : list obj) : bool :=
  existsb (fun product => strict_eq (get product "product_kind") (JStr "MONEY")) ops.

(** [updateOrder]: shows or hides the voucher headers and renders the
    rows of the table. *)
Definition updateOrder (hasMoney : jsval) (p : page) : page :=
  with_voucherHeaders (truthy hasMoney) p.

(** The [reduce] of [updateSubtotal]. *)
Definition subtotal_reduce (ops : list obj) : jsval :=
  fold_left
    (fun x _product => js_add x (js_mul (get _product "quantity") (get _product "cost_price")))
    ops (JZ 0).

Definition updateSubtotal (p : page) : page :=
  match orderProducts p with
  | [] => with_subTotal ("0" +:+ shekel) p
  | _ :: _ =>
      with_subTotal (ToString (roundValue (subtotal_reduce (orderProducts p))) +:+ shekel) p
  end.

(** The tail shared by every handler: headers, rows, sub-total. *)
Definition refresh (p : page) : page :=
  updateSubtotal (updateOrder (JBool (hasMoneyProducts (orderProducts p))) p).

(** The test of [addProduct]'s [find]: same sku, and voucher values equal
    once printed with one decimal. *)
Definition same_sku_voucher (selected _product : obj) : bool :=
  strict_eq (get _product "sku") (get selected "sku")
  && String.eqb (Number_toFixed1 (get _product "voucher_value"))
                (Number_toFixed1 (get selected "voucher_value")).

(** [cost_price / ((100 + tax_percent) / 100)], rounded. *)
Definition taxExclusive (cost_price tax_percent : jsval) : jsval :=
  roundValue (js_div cost_price (js_div (js_add (JZ 100) tax_percent) (JZ 100))).

(** [Math.floor(voucher_value * (1 - (supplier_discount_rate / 100)))] *)
Definition discounted (voucher_value supplier_discount_rate : jsval) : jsval :=
  Math_floor (js_mul voucher_value (js_sub (JZ 1) (js_div supplier_discount_rate (JZ 100)))).

(** The object literal [newProduct] of [addProduct] and the changes made
    to it for a MONEY product. *)
Definition newProduct (p : page) (selected : obj) : obj :=
  let line : obj :=
    list_to_map
      [ ("id", get selected "id");
        ("main", get selected "main_image_link");
        ("name", get selected "name");
        ("category", get selected "category");
        ("brand", optprop (get selected "brand") "name");
        ("quantity", selectedProductQuantity p);
        ("quantity_received", JZ 0);
        ("sku", get selected "sku");
        ("barcode", get selected "reference");
        ("cost_price", taxExclusive (get selected "cost_price") (get selected "tax_percent"));
        ("product_kind", get selected "product_kind");
        ("status", selectedOrderStatus p);
        ("voucher_value", get selected "voucher_value") ] in
  if loose_eq (get selected "product_kind") (JStr "MONEY") then
    let line := assign line "voucher_value" (get selected "voucher_value") in
    let line := assign line "supplier_discount_rate" (get selected "supplier_discount_rate") in
    let line := assign line "cost_price"
                  (discounted (get selected "voucher_value") (get selected "supplier_discount_rate")) in
    assign line "voucher_value" (roundValue (get selected "voucher_value"))
  else line.

Definition addProduct (p : page) : page :=
  match selectedProduct p with
  | Some selected =>
      match List.find (same_sku_voucher selected) (orderProducts p) with
      | Some _ => p
      | None =>
          refresh (with_orderProducts (orderProducts p ++ [newProduct p selected]) p)
      end
  | None => p
  end.

(** The test of [updateQuantity]'s [find]: same id once both are turned
    into strings, and voucher values equal once printed with one decimal. *)
Definition same_id_voucher (idx voucher_value : jsval) (_product : obj) : bool :=
  String.eqb (ToString (get _product "id")) (ToString idx)
  && String.eqb (Number_toFixed1 (get _product "voucher_value"))
                (Number_toFixed1 voucher_value).

(** Applies [f] to the first element that satisfies [test]: what an
    assignment to a property of the object returned by [find] does to the
    array that holds the object.  The lines of the order are distinct
    objects (every handler builds the lines it adds), so the assignment
    shows in one place of the array only. *)
Fixpoint update_first {A : Type} (test : A → bool) (f : A → A) (l : list A) : list A :=
  match l with
  | [] => []
  | x :: l' => if test x then f x :: l' else x :: update_first test f l'
  end.

Definition updateQuantity (idx voucher_value quantity : jsval) (p : page) : page :=
  let p' :=
    match List.find (same_id_voucher idx voucher_value) (orderProducts p) with
    | Some orderProduct =>
        let newQuantity := js_add (get orderProduct "quantity") quantity in
        if js_gt newQuantity (JZ 0)
        then with_orderProducts
               (update_first (same_id_voucher idx voucher_value)
                  (fun o => assign o "quantity" newQuantity) (orderProducts p)) p
        else p
    | None => p
    end in
  refresh p'.

(** [id + "_" + voucher_value] *)
Definition delete_key (id voucher_value : jsval) : jsval :=
  js_add (js_add id (JStr "_")) voucher_value.

Definition deleteProduct (id voucher_value : jsval) (p : page) : page :=
  refresh
    (with_orderProducts
       (List.filter
          (fun _product =>
             negb (strict_eq (delete_key (get _product "id") (get _product "voucher_value"))
                             (delete_key id voucher_value)))
          (orderProducts p)) p).

(** *** populateProducts *)

(** The answer of [getProductsBySupplier] is an input: [None] when the
    request fails (the handler's [catch] then alerts and leaves [products]
    as it was). *)
Definition populateProducts (supplier : jsval) (fetched : option (list obj)) (p : page) : page :=
  if negb (truthy supplier) then
    updateOrder JUndefined
      (with_orderProducts [] (with_selectedProduct None (with_products (Some []) p)))
  else
    match fetched with
    | Some ps => with_products (Some ps) p
    | None => alert "Something went wrong!" p
    end.

(** *** importOrderProducts *)

(** A row of [XLSX.utils.sheet_to_json]: one property per non-empty cell
    of the row, holding a string, a number or a boolean.  An empty cell
    leaves no property, so it reads as [undefined].  Cells that hold a
    spreadsheet error are not modelled. *)
Inductive cell : Type :=
| CText (s : string)
| CNumber (n : num)
| CBoolean (b : bool).

Definition cell_value (c : cell) : jsval :=
  match c with
  | CText s => JStr s
  | CNumber n => JNum n
  | CBoolean b => JBool b
  end.

Abbreviation row := (gmap string cell).

Definition row_object (r : row) : obj := cell_value <$> r.

(** The loop that reads the supplier of each row: the final
    [supplier_name] and [find_duplicate_supplier]. *)
Fixpoint scan_suppliers (supplier_name : jsval) (data : list obj) : jsval * bool :=
  match data with
  | [] => (supplier_name, false)
  | _prod_data :: rest =>
      if strict_eq supplier_name JNull then
        scan_suppliers (get _prod_data "supplier") rest
      else if truthy (get _prod_data "supplier")
              && negb (strict_eq supplier_name (get _prod_data "supplier"))
      then (supplier_name, true)
      else scan_suppliers supplier_name rest
  end.

(** A [Map]: its entries in insertion order.  Setting a key that is
    present replaces the value and keeps the entry's place. *)
Fixpoint map_set (k : jsval) (v : obj) (m : list (jsval * obj)) : list (jsval * obj) :=
  match m with
  | [] => [(k, v)]
  | (k', v') :: m' =>
      if same_value_zero k' k then (k', v) :: m' else (k', v') :: map_set k v m'
  end.

Definition map_get (k : jsval) (m : list (jsval * obj)) : option obj :=
  snd <$> List.find (fun e => same_value_zero (fst e) k) m.

(** [skusSet.has(prod.sku)] *)
Definition in_skus (prods : list obj) (prod : obj) : bool :=
  existsb (fun sku => same_value_zero sku (get prod "sku"))
    (List.map (fun prod => get prod "sku") prods).

(** The body of the [forEach] over the rows kept. *)
Definition merge_row (m : list (jsval * obj)) (newProd : obj) : list (jsval * obj) :=
  match map_get (get newProd "sku") m with
  | Some existingProd =>
      map_set (get newProd "sku")
        (assign existingProd "quantity" (get newProd "quantity")) m
  | None => map_set (get newProd "sku") newProd m
  end.

(** The callback run once the supplier's products are loaded: the new
    [orderProducts]. *)
Definition import_merge (prods ops data : list obj) : list obj :=
  let products_data := List.filter (in_skus prods) data in
  let orderProductsMap :=
    fold_left (fun m prod => map_set (get prod "sku") prod m) ops [] in
  List.map snd (fold_left merge_row products_data orderProductsMap).

(** [sheet] is the first sheet of the file as rows, [fetched] the answer
    to the request for the supplier's products.  The file is read and the
    products are loaded asynchronously; the handler is taken to run to its
    end with no other handler in between. *)
Definition importOrderProducts (sheet : list row) (fetched : option (list obj)) (p : page) : page :=
  let data := row_object <$> sheet in
  match last data with
  | None => p
  | Some lastRow =>
      let p := if truthy (get lastRow "id") then with_note (get lastRow "id") p else p in
      let '(supplier_name, find_duplicate_supplier) := scan_suppliers JNull data in
      if find_duplicate_supplier then
        alert "Multiple suppliers are not allowed to enter" p
      else
        match suppliers p with
        | None => alert "an error occurred while importing the order" p
        | Some sups =>
            match List.find (fun supplier => strict_eq (get supplier "name") supplier_name) sups with
            | None => alert "supplier doesn't exist!" p
            | Some selectedSupplierImport =>
                let p := with_selectedSupplier (JObj selectedSupplierImport) p in
                let p := populateProducts (JObj selectedSupplierImport) fetched p in
                match products p with
                | None => p
                | Some prods =>
                    refresh (with_orderProducts (import_merge prods (orderProducts p) data) p)
                end
            end
        end
  end.

(** *** loadOrderFromInitData *)

(** An object built key by key, its properties in creation order. *)
Definition obj_put {A : Type} (k : string) (v : A) (o : list (string * A)) : list (string * A) :=
  if existsb (fun e => String.eqb (fst e) k) o
  then List.map (fun e => if String.eqb (fst e) k then (k, v) else e) o
  else (o ++ [(k, v)])%list.

Definition obj_get {A : Type} (k : string) (o : list (string * A)) : option A :=
  snd <$> List.find (fun e => String.eqb (fst e) k) o.

(** A property name that is an array index: the canonical decimal form
    of an integer below [2^32 - 1]. *)
Definition array_index (k : string) : option Z :=
  match read_digits 0 0 (list_ascii_of_string k) with
  | (v, S _, []) =>
      if String.eqb (pretty v) k && (v <? 4294967295) then Some v else None
  | _ => None
  end.

Fixpoint insert_index (e : Z * string) (l : list (Z * string)) : list (Z * string) :=
  match l with
  | [] => [e]
  | x :: l' => if fst e <? fst x then e :: l else x :: insert_index e l'
  end.

(** [Object.keys]: the array indices in ascending order, then the other
    names in creation order. *)
Definition Object_keys {A : Type} (o : list (string * A)) : list string :=
  let names := List.map fst o in
  let indexed :=
    omap (fun k => match array_index k with Some v => Some (v, k) | None => None end) names in
  (List.map snd (foldr insert_index [] indexed)
     ++ List.filter (fun k => match array_index k with Some _ => false | None => true end) names)%list.

(** The three objects filled by the [reduce] over [initialPOData]. *)
Record init_data : Type := InitData {
  vouchers : gmap string jsval;
  sku_variations : gmap string (list obj);
  initProducts : list (string * obj)
}.

Definition init_step (acc : init_data) (initProduct : obj) : init_data :=
  let sku := get initProduct "sku" in
  let pk := get initProduct "pk" in
  let orders := get initProduct "orders" in
  let quantity := Math_max (JZ 1) (get initProduct "quantity") in
  let variation := get initProduct "variation" in
  let voucherValue := get initProduct "voucher_value" in
  let key := ToString pk in
  let included :=
    match pk with
    | JStr name => bool_decide (is_Some (sku_variations acc !! name))
    | _ => false
    end in
  let variations := if included then sku_variations acc else <[key := []]> (sku_variations acc) in
  let entry : obj :=
    list_to_map
      [ ("quantity", quantity); ("variation", variation); ("order", pk);
        ("variations_json", get initProduct "variations_json") ] in
  InitData
    (<[key := voucherValue]> (vouchers acc))
    (<[key := (default [] (variations !! key) ++ [entry])%list]> variations)
    (obj_put key (list_to_map [("sku", sku); ("quantity", quantity); ("orders", orders)])
       (initProducts acc)).

Definition read_init (initialPOData : list obj) : init_data :=
  fold_left init_step initialPOData (InitData ∅ ∅ []).

(** The object [productData] built for one key; [None] when building it
    raises a TypeError. *)
Definition productData (p : page) (acc : init_data) (productPk : string) (selected : obj)
  : option obj :=
  match prop (get selected "brand") "name", sku_variations acc !! productPk with
  | Some brand, Some (first :: _) =>
      let line : obj :=
        list_to_map
          [ ("pk", JStr productPk);
            ("id", get selected "id");
            ("main", get selected "main_image_link");
            ("name", get selected "name");
            ("category", get selected "category");
            ("brand", brand);
            ("quantity", JZ 0);
            ("quantity_received", JZ 0);
            ("sku", get selected "sku");
            ("barcode", get selected "reference");
            ("cost_price", taxExclusive (get selected "cost_price") (get selected "tax_percent"));
            ("product_kind", get selected "product_kind");
            ("status", selectedOrderStatus p);
            ("orders", get (default ∅ (obj_get productPk (initProducts acc))) "orders");
            ("variations_json", get first "variations_json") ] in
      Some
        (if strict_eq (get selected "product_kind") (JStr "MONEY") then
           let line := assign line "voucher_value"
                         (js_or (default JUndefined (vouchers acc !! productPk)) (JZ 0)) in
           let line := assign line "supplier_discount_rate"
                         (js_or (get selected "supplier_discount_rate") (JZ 0)) in
           let line := assign line "cost_price"
                         (discounted (get line "voucher_value") (get line "supplier_discount_rate")) in
           assign line "voucher_value" (roundValue (get line "voucher_value"))
         else line)
  | _, _ => None
  end.

(** The [forEach] over the keys: the lines pushed, and whether the loop
    stopped on a TypeError. *)
Fixpoint push_lines (p : page) (acc : init_data) (prods : list obj)
    (keys : list string) (lines : list obj) : list obj * bool :=
  match keys with
  | [] => (lines, false)
  | productPk :: rest =>
      let wanted := get (default ∅ (obj_get productPk (initProducts acc))) "sku" in
      match List.find (fun pr => strict_eq (get pr "sku") wanted) prods with
      | None => (lines, true)
      | Some selected =>
          match productData p acc productPk selected with
          | None => (lines, true)
          | Some line => push_lines p acc prods rest (lines ++ [line])%list
          end
      end
  end.

(** The callback of the [map] that gives each line its variation. *)
Definition with_variation (acc : init_data) (product : obj) : option obj :=
  let variations := default [] (sku_variations acc !! ToString (get product "pk")) in
  let matchingVariation :=
    List.find (fun variation => strict_eq (get variation "variation") (get product "sku"))
      variations in
  match matchingVariation, variations with
  | Some variation, _ | None, variation :: _ =>
      Some (assign (assign (assign product "quantity" (get variation "quantity"))
                      "sku" (get variation "variation"))
              "order" (get variation "order"))
  | None, [] => None
  end.

(** [orderProducts.sort((a, b) => a.sku < b.sku ? -1 : 1)] as a stable
    insertion sort.  The comparator never answers 0, so the place of lines
    with equal skus is left to the engine; nothing below depends on it. *)
Fixpoint insert_by_sku (a : obj) (l : list obj) : list obj :=
  match l with
  | [] => [a]
  | b :: l' => if js_lt (get a "sku") (get b "sku") then a :: l else b :: insert_by_sku a l'
  end.

Definition sort_by_sku (l : list obj) : list obj :=
  fold_left (fun sorted a => insert_by_sku a sorted) l [].

(** [urlSupplierName] is the decoded [supplierName] parameter of the
    page's URL ([null] when absent), [initialPOData] the array the
    template defines. *)
Definition loadOrderFromInitData (urlSupplierName : jsval) (initialPOData : list obj)
    (fetched : option (list obj)) (p : page) : completion :=
  let acc := read_init initialPOData in
  let keys := Object_keys (initProducts acc) in
  if negb (strict_eq urlSupplierName (JStr "null")) && negb (Nat.eqb (length keys) 0) then
    match suppliers p with
    | None => Threw p
    | Some sups =>
        let chosen :=
          match List.filter (fun x => loose_eq (get x "name") urlSupplierName) sups with
          | x :: _ =>
              JObj (list_to_map
                      [("id", get x "id"); ("name", get x "name"); ("email", get x "email")])
          | [] => selectedSupplier p
          end in
        let p := with_selectedSupplier chosen p in
        match prop chosen "name" with
        | None => Threw p
        | Some name =>
            if negb (existsb (String.eqb (ToString name)) (supplierOptions p)) then Threw p
            else
              let p := populateProducts (JObj {[ "name" := name ]}) fetched p in
              let p := with_orderProducts [] p in
              match products p with
              | None => Threw p
              | Some prods =>
                  let '(lines, threw) := push_lines p acc prods keys [] in
                  let p := with_orderProducts lines p in
                  if threw then Threw p
                  else
                    match mapM (with_variation acc) lines with
                    | None => Threw p
                    | Some lines' =>
                        Done (refresh (with_orderProducts (sort_by_sku lines') p))
                    end
              end
        end
    end
  else Done p.

(** *** savePO *)

Import PoRequests.

(** The object [data] built from the page; [changelistFilters] is the URL
    parameter of that name, and the note is read from [#note] and trimmed. *)
Definition order_payload (changelistFilters status : jsval) (p : page) : jsval :=
  JObj
    (list_to_map
       [ ("supplier", optprop (selectedSupplier p) "id");
         ("notes", JStr (string_of_list_ascii (trim_spaces (list_ascii_of_string (ToString (note p))))));
         ("status", status);
         ("products",
           JArr (List.map
                   (fun product =>
                      JObj (list_to_map
                              [ ("product_id", get product "id");
                                ("quantity_ordered", get product "quantity");
                                ("quantity_sent_to_logistics_center", JZ 0);
                                ("order", get product "order");
                                ("voucher_value", get product "voucher_value");
                                ("orders", get product "orders");
                                ("variations", get product "variations_json") ]))
                   (orderProducts p)));
         ("changelist_filters", changelistFilters) ]).

(** [approveError?.data?.message] and [ex.data?.message] *)
Definition error_message (e : thrown) : jsval :=
  match e with
  | Reason v => optprop (optprop v "data") "message"
  | _ => JUndefined
  end.

Definition error_status (e : thrown) : jsval :=
  match e with
  | Reason v => optprop v "status"
  | _ => JUndefined
  end.

Definition po_list : string := "/admin/logistics/poorder/".

(** [csrftoken] is the cookie of that name.  The page returned is the one
    left when the request, if any, has been answered. *)
Definition savePO (csrftoken changelistFilters : jsval) (status id keepEdit : jsval)
    (p : page) : api page :=
  if strict_eq status (JStr "APPROVED") && truthy id then
    let p := with_saveDisabled true p in
    api_bind (sendApprovedPO csrftoken id)
      (fun response =>
         Return
           match response with
           | Fulfilled _ =>
               if negb (truthy keepEdit) then navigate po_list p
               else navigate (po_list +:+ ToString id +:+ "/change/") p
           | Rejected approveError =>
               with_saveDisabled false
                 (if truthy (error_message approveError)
                  then alert ("Error approving PO: " +:+ ToString (error_message approveError)) p
                  else alert "Error approving the PO. Please try again or contact support." p)
           end)
  else if negb (Nat.eqb (length (orderProducts p)) 0) && truthy (selectedSupplier p) then
    let p := with_saveDisabled true p in
    api_bind (sendProductsOrder csrftoken (order_payload changelistFilters status p) id)
      (fun response =>
         Return
           match response with
           | Fulfilled answer =>
               if strict_eq status (JStr "SENT_TO_SUPPLIER") then
                 navigate po_list
                   (updateSubtotal
                      (updateOrder JUndefined
                         (with_orderProducts []
                            (with_poNumberText ("PO NUMBER " +:+ ToString id) p))))
               else if negb (truthy keepEdit) then navigate po_list p
               else
                 match prop answer "id" with
                 | Some answer_id => navigate (po_list +:+ ToString answer_id +:+ "/change/") p
                 | None => with_saveDisabled false (alert "Something went wrong!" p)
                 end
           | Rejected ex =>
               with_saveDisabled false
                 (if strict_eq (error_status ex) (JZ 400) && truthy (error_message ex)
                  then alert ("Error: " +:+ ToString (error_message ex)) p
                  else alert "Something went wrong!" p)
           end)
  else if Nat.eqb (length (orderProducts p)) 0 && negb (strict_eq status (JStr "APPROVED")) then
    Return (alert "Please add at least one product to the order." p)
  else if negb (truthy (selectedSupplier p)) && negb (strict_eq status (JStr "APPROVED")) then
    Return (alert "Please select a supplier for the order." p)
  else Return p.

(** *** sendPO *)

(** [savePO] is started and not awaited; the page returned is the one
    left when it has finished. *)
Definition sendPO (csrftoken changelistFilters id : jsval) (p : page) : api page :=
  if negb (truthy (optprop (selectedSupplier p) "email")) then
    Return (alert "PO cannot be sent since the supplier does not have an email address set" p)
  else savePO csrftoken changelistFilters (JStr "SENT_TO_SUPPLIER") id (JBool true) p.

(** *** suppliersOrder *)

Definition with_suppliers (s : option (list obj)) (p : page) : page :=
  Page (products p) (selectedSupplier p) (selectedProduct p)
    (selectedProductQuantity p) (orderProducts p) s (selectedOrderStatus p)
    (supplierOptions p) (voucherHeaders p) (subTotal p) (note p)
    (poNumberText p) (saveDisabled p) (location p) (alerts p).

Definition with_selectedOrderStatus (s : jsval) (p : page) : page :=
  Page (products p) (selectedSupplier p) (selectedProduct p)
    (selectedProductQuantity p) (orderProducts p) (suppliers p) s
    (supplierOptions p) (voucherHeaders p) (subTotal p) (note p)
    (poNumberText p) (saveDisabled p) (location p) (alerts p).

Definition with_supplierOptions (o : list string) (p : page) : page :=
  Page (products p) (selectedSupplier p) (selectedProduct p)
    (selectedProductQuantity p) (orderProducts p) (suppliers p)
    (selectedOrderStatus p) o (voucherHeaders p) (subTotal p) (note p)
    (poNumberText p) (saveDisabled p) (location p) (alerts p).

(** [suppliers.sort((a, b) => a.name < b.name ? -1 : 1)], as the sort of
    the lines by sku above. *)
Fixpoint insert_by_name (a : obj) (l : list obj) : list obj :=
  match l with
  | [] => [a]
  | b :: l' => if js_lt (get a "name") (get b "name") then a :: l else b :: insert_by_name a l'
  end.

Definition sort_by_name (l : list obj) : list obj :=
  fold_left (fun sorted a => insert_by_name a sorted) l [].

(** [a[i]] on an array. *)
Definition index (a : list jsval) (i : nat) : jsval := default JUndefined (a !! i).

(** The test of the [find] over [products] for one entry of
    [selected_product_ids]. *)
Definition ordered_product (_prod_data : list jsval) (product : obj) : bool :=
  if negb (strict_eq (get product "product_kind") (JStr "MONEY"))
  then strict_eq (get product "id") (index _prod_data 0)
  else strict_eq (get product "id") (index _prod_data 0)
       && String.eqb (Number_toFixed1 (get product "voucher_value"))
                     (Number_toFixed1 (index _prod_data 3)).

(** The body of the [forEach] over [selected_product_ids].  The spread of
    the product found gives a copy of it, or an object with no property
    when none is found. *)
Definition add_ordered (variations_mapping : obj) (prods : list obj)
    (p : page) (_prod_data : list jsval) : page :=
  let selected : obj := default ∅ (List.find (ordered_product _prod_data) prods) in
  let suffix := get variations_mapping (ToString (index _prod_data 2)) in
  let selected :=
    assign selected "sku"
      (if truthy suffix
       then JStr (ToString (get selected "sku") +:+ ToString suffix)
       else get selected "sku") in
  let p := with_selectedProduct (Some selected) p in
  let p := with_selectedProductQuantity (index _prod_data 1) p in
  let p := addProduct p in
  with_selectedProductQuantity (JZ 1) p.

(** The listener of the [change] event of [#suppliers]; [value] is the
    value of the option chosen, [fetched] the answer to the request for the
    products. *)
Definition suppliers_change (value : string) (fetched : option (list obj)) (p : page)
  : completion :=
  match suppliers p with
  | None => Threw p
  | Some sups =>
      let found := List.find (fun supplier => strict_eq (get supplier "name") (JStr value)) sups in
      let p := with_selectedSupplier (from_option JObj JUndefined found) p in
      Done (populateProducts (selectedSupplier p) fetched p)
  end.

(** The listener of the [change] event of [#products]. *)
Definition products_change (value : string) (p : page) : completion :=
  match products p with
  | None => Threw p
  | Some prods =>
      Done (with_selectedProduct
              (List.find
                 (fun product => strict_eq (get product "id") (JNum (string_to_num value)))
                 prods)
              p)
  end.

(** The part of [suppliersOrder] inside [try], once the suppliers are
    there; [fetched] is the answer to the request for the products of the
    supplier named. *)
Definition show_suppliers (supplier_name : jsval) (selected_product_ids : list (list jsval))
    (note_ : jsval) (variations_mapping : obj) (sups : list obj)
    (fetched : option (list obj)) (p : page) : page :=
  let sups := sort_by_name sups in
  let p := with_suppliers (Some sups) p in
  let p := with_supplierOptions
             ("active" :: List.map (fun supplier => ToString (get supplier "name")) sups) p in
  let p := with_selectedProductQuantity (JZ 1) p in
  if negb (strict_eq supplier_name (JStr "")) then
    let found := List.find (fun supplier => strict_eq (get supplier "name") supplier_name) sups in
    let p := with_selectedSupplier (from_option JObj JUndefined found) p in
    let p := populateProducts (selectedSupplier p) fetched p in
    match products p, selected_product_ids with
    | None, _ :: _ => alert "Something went wrong!" p
    | None, [] => with_note note_ p
    | Some prods, _ =>
        with_note note_ (fold_left (add_ordered variations_mapping prods) selected_product_ids p)
    end
  else p.

(** [variations_mapping] is what [JSON.parse] makes of the last argument,
    [None] when it does not parse (the function then stops before it has
    done anything); when it parses, it is taken to give an object.
    [fetchedSuppliers] is the answer of [getSuppliers], [None] when the
    request fails.  The remaining arguments are those of
    [loadOrderFromInitData], which runs last. *)
Definition suppliersOrder (supplier_name : jsval) (selected_product_ids : list (list jsval))
    (note_ poNumber orderStatus : jsval) (variations_mapping : option obj)
    (fetchedSuppliers : option (list obj)) (fetched : option (list obj))
    (urlSupplierName : jsval) (initialPOData : list obj) (fetchedAgain : option (list obj))
    (p : page) : completion :=
  match variations_mapping with
  | None => Threw p
  | Some variations_mapping =>
      let p := with_selectedOrderStatus orderStatus p in
      let p := with_poNumberText
                 (if truthy poNumber then "PO NUMBER " +:+ ToString poNumber else "NEW PO") p in
      let p :=
        match fetchedSuppliers with
        | Some sups =>
            show_suppliers supplier_name selected_product_ids note_ variations_mapping
              sups fetched p
        | None => alert "Something went wrong!" p
        end in
      loadOrderFromInitData urlSupplierName initialPOData fetchedAgain p
  end.

End PoPopulate.

(* ===================================================================== *)
(** ** The page controller, earlier revision (po_populate.js, 488-885) *)
(* ===================================================================== *)

(** The earlier revision keeps the same variables and the same
    [roundValue], [updateOrder] and [updateSubtotal]; its [addProduct]
    keys lines on the sku alone and removes tax by multiplication. *)
Module PoPopulateOld.
Import JS.
Import PoPopulate.

(** [cost_price * (1 - tax_percent / 100)], rounded. *)
Definition taxExclusive (cost_price tax_percent : jsval) : jsval :=
  roundValue (js_mul cost_price (js_sub (JZ 1) (js_div tax_percent (JZ 100)))).

Definition same_sku (selected _product : obj) : bool :=
  strict_eq (get _product "sku") (get selected "sku").

(** The object literal [newProduct]; [None] when reading
    [selectedProduct.brand.name] raises a TypeError. *)
Definition newProduct (p : page) (selected : obj) : option obj :=
  match prop (get selected "brand") "name" with
  | Some brand =>
      let line : obj :=
        list_to_map
          [ ("id", get selected "id");
            ("main", get selected "main_image_link");
            ("name", get selected "name");
            ("category", get selected "category");
            ("brand", brand);
            ("quantity", selectedProductQuantity p);
            ("quantity_received", JZ 0);
            ("sku", get selected "sku");
            ("barcode", get selected "reference");
            ("cost_price", taxExclusive (get selected "cost_price") (get selected "tax_percent"));
            ("product_kind", get selected "product_kind");
            ("status", selectedOrderStatus p) ] in
      Some
        (if loose_eq (get selected "product_kind") (JStr "MONEY") then
           assign (assign line "voucher_value" (get selected "client_discount_rate"))
             "supplier_discount_rate" (get selected "supplier_discount_rate")
         else line)
  | None => None
  end.

Definition addProduct (p : page) : completion :=
  match selectedProduct p with
  | Some selected =>
      match List.find (same_sku selected) (orderProducts p) with
      | Some _ => Done p
      | None =>
          match newProduct p selected with
          | Some line => Done (refresh (with_orderProducts (orderProducts p ++ [line]) p))
          | None => Threw p
          end
      end
  | None => Done p
  end.

(** [deleteProduct(sku)]: the lines of another sku are kept. *)
Definition deleteProduct (sku : jsval) (p : page) : page :=
  refresh
    (with_orderProducts
       (List.filter (fun _product => negb (strict_eq (get _product "sku") sku))
          (orderProducts p)) p).

Import PoRequests.

(** The object [data]; the status of an approval is replaced by the
    status the order has. *)
Definition order_payload (status : jsval) (p : page) : jsval :=
  JObj
    (list_to_map
       [ ("supplier", optprop (selectedSupplier p) "id");
         ("notes", JStr (string_of_list_ascii (trim_spaces (list_ascii_of_string (ToString (note p))))));
         ("status", if strict_eq status (JStr "APPROVED") then selectedOrderStatus p else status);
         ("products",
           JArr (List.map
                   (fun product =>
                      JObj (list_to_map
                              [ ("product_id", get product "id");
                                ("quantity_ordered", get product "quantity");
                                ("quantity_sent_to_logistics_center", JZ 0);
                                ("order", get product "order") ]))
                   (orderProducts p))) ]).

(** The [catch] of [savePO]. *)
Definition save_failed (ex : thrown) (p : page) : page :=
  if strict_eq (error_status ex) (JZ 400) && truthy (error_message ex)
  then alert ("Error: " +:+ ToString (error_message ex)) p
  else alert "something went wrong!" p.

(** The end of [savePO] when the order is not sent to the supplier. *)
Definition save_done (answer keepEdit : jsval) (p : page) : page :=
  if negb (truthy keepEdit) then navigate po_list p
  else
    match prop answer "id" with
    | Some answer_id => navigate (po_list +:+ ToString answer_id +:+ "/change/") p
    | None => save_failed TypeError p
    end.

(** The earlier [savePO]: the order is saved first, and an approval is
    requested once the order is saved. *)
Definition savePO (csrftoken : jsval) (status id keepEdit : jsval) (p : page) : api page :=
  if negb (Nat.eqb (length (orderProducts p)) 0) && truthy (selectedSupplier p) then
    api_bind (sendProductsOrder csrftoken (order_payload status p) id)
      (fun response =>
         match response with
         | Fulfilled answer =>
             if strict_eq status (JStr "SENT_TO_SUPPLIER") then
               Return
                 (navigate po_list
                    (updateSubtotal
                       (updateOrder JUndefined
                          (with_orderProducts []
                             (with_poNumberText ("PO NUMBER " +:+ ToString id) p)))))
             else if strict_eq status (JStr "APPROVED") then
               api_bind (sendApprovedPO csrftoken id)
                 (fun approved =>
                    Return
                      match approved with
                      | Fulfilled _ => save_done answer keepEdit p
                      | Rejected ex => save_failed ex p
                      end)
             else Return (save_done answer keepEdit p)
         | Rejected ex => Return (save_failed ex p)
         end)
  else Return p.

End PoPopulateOld.

(* ===================================================================== *)
(** ** Properties of the request helpers *)
(* ===================================================================== *)

Module RequestProofs.
Import JS PoRequests.

Lemma strict_eq_str (v : jsval) (s : string) : strict_eq v (JStr s) = true ↔ v = JStr s.
Proof.
  destruct v as [| | b | n | t | l | o]; simpl;
    try (split; [discriminate | intros H; discriminate H]).
  rewrite String.eqb_eq. split; [intros -> | intros [= ->]]; reflexivity.
Qed.

Lemma method_fetch_config (m : string) (body hdrs : jsval) :
  method (fetch_config m body hdrs) = m.
Proof. unfold fetch_config. destruct (truthy body); reflexivity. Qed.

Lemma requests_callAPI net (endpoint m : string) (body hdrs : jsval) :
  requests net (_callAPI endpoint m body hdrs) = [(m, "/" +:+ endpoint)].
Proof. simpl. rewrite method_fetch_config. reflexivity. Qed.

Lemma requests_bind {A B : Type} net (m : api A) (f : A → api B) :
  requests net (api_bind m f) = (requests net m ++ requests net (f (run net m)))%list.
Proof.
  induction m as [a | url cfg k IH]; simpl.
  - reflexivity.
  - f_equal. apply IH.
Qed.

(** Reading a property succeeds on everything but [null] and
    [undefined]. *)
Lemma prop_None (v : jsval) (k : string) : prop v k = None ↔ v = JNull ∨ v = JUndefined.
Proof.
  destruct v; simpl; split; try discriminate; try tauto; intros [H | H]; discriminate H.
Qed.

Lemma settle_fulfilled (fetched : promise response) (v : jsval) :
  settle fetched = Fulfilled v ↔
  ∃ r b, fetched = Fulfilled r ∧ ok r = true ∧ json r = Some b ∧ prop b "data" = Some v.
Proof.
  split.
  - unfold settle, json_promise.
    destruct fetched as [r | e]; simpl; [| discriminate].
    destruct (json r) as [b |] eqn:Hjson; simpl; [| discriminate].
    destruct (ok r) eqn:Hok; [| discriminate].
    destruct (prop b "data") as [d |] eqn:Hdata; [| discriminate].
    intros Hv. injection Hv as <-. exists r, b. auto.
  - intros (r & b & -> & Hok & Hjson & Hdata).
    unfold settle, json_promise. simpl. rewrite Hjson. simpl.
    rewrite Hok, Hdata. reflexivity.
Qed.

(** A network that answers every request with [200 OK] and the JSON
    body [null]. *)
Definition null_body : response := Response true (JZ 200) (Some JNull).
Definition net_null_body (url : string) (cfg : config) : promise response :=
  Fulfilled null_body.

(** A network that answers with [200 OK] and the body
    [{"data": "done"}], and one on which every request fails. *)
Definition net_done (url : string) (cfg : config) : promise response :=
  Fulfilled (Response true (JZ 200) (Some (JObj {[ "data" := JStr "done" ]}))).
Definition net_down (url : string) (cfg : config) : promise response :=
  Rejected NetworkError.

(** C4, as stated, fails: the response is ok and its body parses as JSON
    (to [null]), yet [_callAPI] does not resolve; reading [data] of [null]
    raises a TypeError and the promise rejects with it. *)
Lemma callAPI_null_body_rejects :
  ok null_body = true
  ∧ json null_body = Some JNull
  ∧ run net_null_body (_callAPI "inventory/suppliers" "GET" JUndefined JUndefined)
    = Rejected TypeError.
Proof. repeat split. Qed.

(** C4, amended.  [_callAPI] resolves with the [data] property of the
    parsed body exactly when the response is ok and its body parses as JSON
    to a value whose properties can be read (anything but [null]).  When
    [fetch] fails it rejects with [{status: -1}]; when the body does not
    parse it rejects with [{status}] alone, ok or not; when the body parses
    and the response is not ok it rejects with [{status, data: body}]; when
    the response is ok and the body is [null] it rejects with a TypeError. *)
Theorem callAPI_contract net (endpoint m : string) (body hdrs : jsval) :
  let fetched := net (BASE_API_URL +:+ endpoint) (fetch_config m body hdrs) in
  let answer := run net (_callAPI endpoint m body hdrs) in
  (∀ v, answer = Fulfilled v ↔
        ∃ r b, fetched = Fulfilled r ∧ ok r = true ∧ json r = Some b
               ∧ b ≠ JNull ∧ b ≠ JUndefined ∧ v = optprop b "data")
  ∧ (∀ e, fetched = Rejected e →
          answer = Rejected (Reason (status_only (JZ (-1)))))
  ∧ (∀ r, fetched = Fulfilled r → json r = None →
          answer = Rejected (Reason (status_only (status r))))
  ∧ (∀ r b, fetched = Fulfilled r → json r = Some b → ok r = false →
            answer = Rejected (Reason (status_and_data (status r) b)))
  ∧ (∀ r, fetched = Fulfilled r → json r = Some JNull → ok r = true →
          answer = Rejected TypeError).
Proof.
  intros fetched answer.
  assert (Hanswer : answer = settle fetched) by reflexivity.
  rewrite Hanswer. clear Hanswer answer.
  split; [| split; [| split; [| split]]].
  - intros v. rewrite settle_fulfilled. split.
    + intros (r & b & Hf & Hok & Hjson & Hdata).
      exists r, b. repeat split; try assumption.
      * intros ->. discriminate Hdata.
      * intros ->. discriminate Hdata.
      * unfold optprop. rewrite Hdata. reflexivity.
    + intros (r & b & Hf & Hok & Hjson & Hnull & Hundef & ->).
      exists r, b. repeat split; try assumption.
      unfold optprop. destruct (prop b "data") as [d |] eqn:Hdata; [reflexivity |].
      apply prop_None in Hdata. tauto.
  - intros e ->. reflexivity.
  - intros r -> Hjson. unfold settle, json_promise. simpl.
    rewrite Hjson. reflexivity.
  - intros r b -> Hjson Hok. unfold settle, json_promise. simpl.
    rewrite Hjson. simpl. rewrite Hok. reflexivity.
  - intros r -> Hjson Hok. unfold settle, json_promise. simpl.
    rewrite Hjson. simpl. rewrite Hok. reflexivity.
Qed.

Lemma callAPI_contract_witness :
  run net_done (_callAPI "inventory/suppliers" "GET" JUndefined JUndefined)
    = Fulfilled (JStr "done")
  ∧ run net_down (_callAPI "inventory/suppliers" "GET" JUndefined JUndefined)
    = Rejected (Reason (status_only (JZ (-1)))).
Proof.
  split.
  - apply (proj1 (callAPI_contract net_done "inventory/suppliers" "GET" JUndefined JUndefined)).
    eexists _, _. repeat split; discriminate.
  - apply (proj1 (proj2 (callAPI_contract net_down "inventory/suppliers" "GET"
                          JUndefined JUndefined)) NetworkError).
    reflexivity.
Defined.

(** What [sendProductsOrder] puts on the wire: one request, a [POST] to
    the collection when [id] is the empty string, a [PATCH] to the order's
    own URL otherwise. *)
Lemma sendProductsOrder_requests net (csrftoken order id : jsval) :
  (id = JStr ""
   ∧ requests net (sendProductsOrder csrftoken order id)
     = [("POST", "/logistics/order-products")])
  ∨ (id ≠ JStr ""
     ∧ requests net (sendProductsOrder csrftoken order id)
       = [("PATCH", "/logistics/order-products/" +:+ ToString id)]).
Proof.
  unfold sendProductsOrder.
  destruct (strict_eq id (JStr "")) eqn:Hid; simpl negb; cbv iota.
  - left. apply strict_eq_str in Hid. split; [assumption |].
    apply requests_callAPI.
  - right. split.
    + intros Heq. apply strict_eq_str in Heq. congruence.
    + apply requests_callAPI.
Qed.

End RequestProofs.

(* ===================================================================== *)
(** ** Properties of the page controller *)
(* ===================================================================== *)

Module OrderProofs.
Import JS PoRequests PoPopulate.

(** *** Objects and pages *)

Lemma get_assign_eq (o : obj) (k : string) (v : jsval) : get (assign o k v) k = v.
Proof. unfold get, assign. rewrite lookup_insert_eq. reflexivity. Qed.

Lemma get_assign_ne (o : obj) (k k' : string) (v : jsval) :
  k ≠ k' → get (assign o k v) k' = get o k'.
Proof. intros Hne. unfold get, assign. rewrite lookup_insert_ne by assumption. reflexivity. Qed.

Lemma lookup_assign_ne (o : obj) (k k' : string) (v : jsval) :
  k ≠ k' → assign o k v !! k' = o !! k'.
Proof. intros Hne. unfold assign. apply lookup_insert_ne. assumption. Qed.

Lemma orderProducts_updateSubtotal (p : page) :
  orderProducts (updateSubtotal p) = orderProducts p.
Proof. unfold updateSubtotal. destruct (orderProducts p) eqn:H; exact H. Qed.

Lemma orderProducts_refresh (p : page) : orderProducts (refresh p) = orderProducts p.
Proof. unfold refresh. rewrite orderProducts_updateSubtotal. reflexivity. Qed.

(** *** Exact numbers *)






(** *** The sub-total *)







(** *** deleteProduct *)

(** The claim's key: the strings of the id and of the voucher value,
    joined by an underscore. *)
Definition line_key (id voucher_value : jsval) : string :=
  (ToString id +:+ "_") +:+ ToString voucher_value.

Lemma ToString_ToPrimitive (v : jsval) : ToString (ToPrimitive v) = ToString v.
Proof. destruct v; reflexivity. Qed.

Lemma js_add_string_r (a : jsval) (s : string) :
  js_add a (JStr s) = JStr (ToString a +:+ s).
Proof.
  unfold js_add. change (ToPrimitive (JStr s)) with (JStr s).
  change (is_string (JStr s)) with true. rewrite orb_true_r.
  rewrite ToString_ToPrimitive. reflexivity.
Qed.

Lemma js_add_string_l (s : string) (b : jsval) :
  js_add (JStr s) b = JStr (s +:+ ToString b).
Proof.
  unfold js_add. change (ToPrimitive (JStr s)) with (JStr s).
  change (is_string (JStr s)) with true. simpl orb. cbv iota.
  rewrite ToString_ToPrimitive. reflexivity.
Qed.

Lemma delete_key_string (a b : jsval) : delete_key a b = JStr (line_key a b).
Proof.
  unfold delete_key, line_key. rewrite js_add_string_r, js_add_string_l. reflexivity.
Qed.

Lemma sublist_List_filter {A : Type} (f : A → bool) (l : list A) :
  sublist (List.filter f l) l.
Proof.
  induction l as [| x l IH]; simpl.
  - constructor.
  - destruct (f x); [apply sublist_skip | apply sublist_cons]; exact IH.
Qed.

(** C9.  [deleteProduct] keeps exactly the lines whose key differs from
    the key of the arguments: the new list is the old one filtered on the
    key, so the lines kept are unchanged and in their old order, and a line
    is in the new list exactly when it was in the old one with another
    key. *)
Theorem deleteProduct_removes_key (id voucher_value : jsval) (p : page) :
  let key := fun l : obj => line_key (get l "id") (get l "voucher_value") in
  let removed := line_key id voucher_value in
  let kept := orderProducts (deleteProduct id voucher_value p) in
  kept = List.filter (fun l => negb (String.eqb (key l) removed)) (orderProducts p)
  ∧ sublist kept (orderProducts p)
  ∧ (∀ l, l ∈ kept ↔ l ∈ orderProducts p ∧ key l ≠ removed).
Proof.
  intros key removed kept.
  assert (Hkept :
    kept = List.filter (fun l => negb (String.eqb (key l) removed)) (orderProducts p)).
  { unfold kept, deleteProduct. rewrite orderProducts_refresh. simpl.
    apply List.filter_ext. intros l.
    rewrite !delete_key_string. reflexivity. }
  split; [exact Hkept |]. rewrite Hkept. split.
  - apply sublist_List_filter.
  - intros l. rewrite !list_elem_of_In, List.filter_In, negb_true_iff.
    rewrite <- not_true_iff_false, String.eqb_eq. reflexivity.
Qed.

(** *** updateQuantity *)

Section FirstMatch.
Context {A : Type} (test : A → bool) (f : A → A).


Lemma find_first_app (before after : list A) (x : A) :
  Forall (fun y => test y = false) before → test x = true →
  List.find test (before ++ x :: after) = Some x.
Proof.
  intros Hbefore Hx. induction Hbefore as [| y before Hy _ IH]; simpl.
  - rewrite Hx. reflexivity.
  - rewrite Hy. exact IH.
Qed.

Lemma find_first_none (l : list A) :
  Forall (fun y => test y = false) l → List.find test l = None.
Proof.
  intros Hl. induction Hl as [| y l Hy _ IH]; simpl; [reflexivity |].
  rewrite Hy. exact IH.
Qed.

End FirstMatch.

(** The lines after [updateQuantity], read off the handler. *)
Lemma updateQuantity_lines (idx voucher_value quantity : jsval) (p : page) :
  orderProducts (updateQuantity idx voucher_value quantity p)
  = match List.find (same_id_voucher idx voucher_value) (orderProducts p) with
    | Some l =>
        if js_gt (js_add (get l "quantity") quantity) (JZ 0)
        then update_first (same_id_voucher idx voucher_value)
               (fun o => assign o "quantity" (js_add (get l "quantity") quantity))
               (orderProducts p)
        else orderProducts p
    | None => orderProducts p
    end.
Proof.
  unfold updateQuantity. rewrite orderProducts_refresh.
  destruct (List.find _ (orderProducts p)) as [l |]; [| reflexivity].
  destruct (js_gt _ _); reflexivity.
Qed.

(** An empty page, and a page with two lines of one product, a red and
    a blue variation: same id, same (absent) voucher value, different
    skus. *)
Definition blank : page :=
  Page None JUndefined None (JZ 1) [] None (JStr "PENDING") [] false "" JUndefined ""
    false None [].

Definition red_mug : obj :=
  list_to_map [("id", JZ 7); ("sku", JStr "MUG-red"); ("quantity", JZ 1);
               ("cost_price", JZ 10); ("product_kind", JStr "PHYSICAL")].

Definition blue_mug : obj :=
  list_to_map [("id", JZ 7); ("sku", JStr "MUG-blue"); ("quantity", JZ 5);
               ("cost_price", JZ 10); ("product_kind", JStr "PHYSICAL")].




Definition sku_quantity (l : obj) : jsval * jsval := (get l "sku", get l "quantity").




(** *** Tax exclusion *)

(** Rounding a rational to two decimals, halves upwards. *)
Definition round2 (x : Q) : Q :=
  Qred ((Qfloor (Qred (x * 100) + (1 # 2)) # 1) / 100).

Lemma roundValue_Fin (x : Q) : roundValue (JNum (Fin x)) = JNum (Fin (round2 x)).
Proof. reflexivity. Qed.










(** *** MONEY lines *)


Lemma addProduct_appends (p : page) (selected : obj) :
  selectedProduct p = Some selected →
  List.find (same_sku_voucher selected) (orderProducts p) = None →
  orderProducts (addProduct p) = (orderProducts p ++ [newProduct p selected])%list.
Proof.
  intros Hsel Hfind. unfold addProduct. rewrite Hsel, Hfind.
  apply orderProducts_refresh.
Qed.






Lemma insert_by_sku_Forall (P : obj → Prop) (a : obj) (l : list obj) :
  P a → Forall P l → Forall P (insert_by_sku a l).
Proof.
  intros Ha Hl. induction Hl as [| b l Hb Hl IH]; simpl.
  - constructor; [exact Ha | constructor].
  - destruct (js_lt _ _).
    + constructor; [exact Ha |]. constructor; assumption.
    + constructor; assumption.
Qed.

Lemma sort_by_sku_Forall (P : obj → Prop) (l : list obj) :
  Forall P l → Forall P (sort_by_sku l).
Proof.
  unfold sort_by_sku.
  assert (H : ∀ sorted, Forall P sorted → Forall P l →
              Forall P (fold_left (fun sorted a => insert_by_sku a sorted) l sorted)).
  { induction l as [| a l IH]; intros sorted Hs Hl; simpl; [exact Hs |].
    apply Forall_cons in Hl as [Ha Hl].
    apply IH; [| exact Hl]. apply insert_by_sku_Forall; assumption. }
  intros Hl. apply H; [constructor | exact Hl].
Qed.


(** A MONEY product of voucher value 99.99 with a supplier discount of 10
    per cent, the page on which it is selected, and the template data of
    one order line of it. *)
Definition gift_card : obj :=
  list_to_map
    [ ("id", JZ 3); ("sku", JStr "GIFT"); ("name", JStr "Gift card");
      ("product_kind", JStr "MONEY"); ("cost_price", JZ 100); ("tax_percent", JZ 17);
      ("voucher_value", JNum (Fin (9999 # 100))); ("supplier_discount_rate", JZ 10);
      ("brand", JObj {[ "name" := JStr "Acme" ]}) ].

Definition acme : obj := list_to_map [("id", JZ 1); ("name", JStr "Acme")].

Definition acme_page : page :=
  Page (Some [gift_card]) (JObj acme) (Some gift_card) (JZ 1) [] (Some [acme])
    (JStr "PENDING") ["Acme"] false "" JUndefined "" false None [].

Definition gift_line : obj :=
  list_to_map
    [ ("pk", JZ 12); ("sku", JStr "GIFT"); ("quantity", JZ 2);
      ("variation", JStr "GIFT"); ("voucher_value", JNum (Fin (9999 # 100))) ].



(** *** importOrderProducts: the supplier guard *)

Lemma get_row_object (r : row) (k : string) :
  get (row_object r) k = match r !! k with Some c => cell_value c | None => JUndefined end.
Proof.
  unfold get, row_object. rewrite lookup_fmap. destruct (r !! k); reflexivity.
Qed.

Lemma row_cell_not_null (r : row) (k : string) :
  strict_eq (get (row_object r) k) JNull = false.
Proof.
  rewrite get_row_object. destruct (r !! k) as [[s | n | b] |]; reflexivity.
Qed.

Lemma num_eqb_refl (n : num) : n ≠ NaN → num_eqb n n = true.
Proof.
  destruct n as [| a | q]; simpl; intros Hn.
  - congruence.
  - destruct a; reflexivity.
  - apply Qeq_bool_iff. reflexivity.
Qed.

Lemma row_cell_truthy_refl (r : row) (k : string) :
  truthy (get (row_object r) k) = true →
  strict_eq (get (row_object r) k) (get (row_object r) k) = true.
Proof.
  rewrite get_row_object. destruct (r !! k) as [[s | n | b] |]; simpl.
  - intros _. apply String.eqb_refl.
  - intros Hn. apply num_eqb_refl. intros ->. discriminate Hn.
  - intros _. destruct b; reflexivity.
  - discriminate.
Qed.

(** Whether some row names a supplier other than [named]. *)
Definition names_another (named : jsval) (data : list obj) : bool :=
  existsb
    (fun r => truthy (get r "supplier") && negb (strict_eq named (get r "supplier")))
    data.

Lemma scan_suppliers_named (named : jsval) (data : list obj) :
  strict_eq named JNull = false →
  scan_suppliers named data = (named, names_another named data).
Proof.
  intros Hnamed. induction data as [| r data IH]; simpl.
  - reflexivity.
  - rewrite Hnamed.
    destruct (truthy (get r "supplier") && negb (strict_eq named (get r "supplier")));
      [reflexivity | exact IH].
Qed.

(** The handler, once the sheet is known to have a first row. *)
Lemma importOrderProducts_first (first : row) (rest : list row)
    (fetched : option (list obj)) (p : page) :
  let data := row_object <$> (first :: rest) in
  let named := get (row_object first) "supplier" in
  ∃ p1 : page,
    orderProducts p1 = orderProducts p ∧ alerts p1 = alerts p
    ∧ suppliers p1 = suppliers p
    ∧ importOrderProducts (first :: rest) fetched p
      = if names_another named (row_object <$> rest) then
          alert "Multiple suppliers are not allowed to enter" p1
        else
          match suppliers p with
          | None => alert "an error occurred while importing the order" p1
          | Some sups =>
              match List.find (fun supplier => strict_eq (get supplier "name") named) sups with
              | None => alert "supplier doesn't exist!" p1
              | Some sel =>
                  let p2 := populateProducts (JObj sel) fetched
                              (with_selectedSupplier (JObj sel) p1) in
                  match products p2 with
                  | None => p2
                  | Some prods =>
                      refresh (with_orderProducts
                                 (import_merge prods (orderProducts p2) data) p2)
                  end
              end
          end.
Proof.
  intros data named. unfold importOrderProducts. fold data.
  destruct (last data) as [lastRow |] eqn:Hlast.
  2: { apply last_None in Hlast. discriminate Hlast. }
  set (p1 := if truthy (get lastRow "id") then with_note (get lastRow "id") p else p).
  exists p1.
  assert (Hops : orderProducts p1 = orderProducts p)
    by (unfold p1; destruct (truthy _); reflexivity).
  assert (Hal : alerts p1 = alerts p)
    by (unfold p1; destruct (truthy _); reflexivity).
  assert (Hsup : suppliers p1 = suppliers p)
    by (unfold p1; destruct (truthy _); reflexivity).
  split; [exact Hops |]. split; [exact Hal |]. split; [exact Hsup |].
  unfold data at 1. rewrite fmap_cons. simpl scan_suppliers.
  fold named.
  rewrite scan_suppliers_named by apply row_cell_not_null.
  destruct (names_another named (row_object <$> rest)); [reflexivity |].
  rewrite Hsup. reflexivity.
Qed.

Lemma names_another_rows (named : jsval) (rows : list row) :
  names_another named (row_object <$> rows) = true ↔
  ∃ r, r ∈ rows ∧ truthy (get (row_object r) "supplier") = true
       ∧ strict_eq named (get (row_object r) "supplier") = false.
Proof.
  unfold names_another. induction rows as [| r rows IH].
  - simpl. split; [discriminate |]. intros (r & Hr & _). inversion Hr.
  - rewrite fmap_cons. simpl existsb. rewrite orb_true_iff, IH.
    rewrite andb_true_iff, negb_true_iff. split.
    + intros [[Ht Hne] | (r' & Hin & H)].
      * exists r. split; [left | auto].
      * exists r'. split; [right; exact Hin | exact H].
    + intros (r' & Hin & Ht & Hne).
      apply elem_of_cons in Hin as [-> | Hin]; [left; auto |].
      right. exists r'. auto.
Qed.

(** Two rows that name different suppliers, and the page they are
    imported into. *)
Definition acme_row : row :=
  list_to_map [("sku", CText "GIFT"); ("quantity", CNumber (Fin 3)); ("supplier", CText "Acme")].
Definition other_row : row :=
  list_to_map [("sku", CText "MUG"); ("quantity", CNumber (Fin 1)); ("supplier", CText "Other")].

(** C5.  [importOrderProducts] changes [orderProducts] only when every
    row that names a supplier names the supplier of the first row and a
    supplier of that name is loaded.  If some row names a supplier other
    than the first row's, the import stops with the alert about multiple
    suppliers; if no loaded supplier has the first row's name, it stops
    with an alert; in both cases [orderProducts] is left as it was.  A row
    names a supplier when its supplier cell is not empty (truthy). *)
Theorem import_supplier_guard (sheet : list row) (fetched : option (list obj)) (p : page) :
  let after := importOrderProducts sheet fetched p in
  let supplier_of := fun r : row => get (row_object r) "supplier" in
  (sheet = [] → after = p)
  ∧ (∀ first rest,
        sheet = first :: rest →
        let known :=
          ∃ sups s, suppliers p = Some sups ∧ s ∈ sups
                    ∧ strict_eq (get s "name") (supplier_of first) = true in
        ((∃ r, r ∈ sheet ∧ truthy (supplier_of r) = true
               ∧ strict_eq (supplier_of first) (supplier_of r) = false) →
         orderProducts after = orderProducts p
         ∧ alerts after = (alerts p ++ ["Multiple suppliers are not allowed to enter"])%list)
        ∧ (¬ known →
           orderProducts after = orderProducts p
           ∧ ∃ msg, alerts after = (alerts p ++ [msg])%list)
        ∧ (orderProducts after ≠ orderProducts p →
           (∀ r, r ∈ sheet → truthy (supplier_of r) = true →
                 strict_eq (supplier_of first) (supplier_of r) = true)
           ∧ known)).
Proof.
  intros after supplier_of. split.
  { intros ->. reflexivity. }
  intros first rest Hsheet known.
  destruct (importOrderProducts_first first rest fetched p)
    as (p1 & Hops & Hal & _ & Himport).
  fold (supplier_of first) in Himport.
  assert (Hafter : after = importOrderProducts (first :: rest) fetched p)
    by (unfold after; rewrite Hsheet; reflexivity).
  rewrite <- Hafter in Himport. clear Hafter. clearbody after.
  assert (Hdup : (∃ r, r ∈ sheet ∧ truthy (supplier_of r) = true
                       ∧ strict_eq (supplier_of first) (supplier_of r) = false)
                 ↔ names_another (supplier_of first) (row_object <$> rest) = true).
  { rewrite names_another_rows, Hsheet. split.
    - intros (r & Hin & Ht & Hne).
      apply elem_of_cons in Hin as [-> | Hin]; [| exists r; auto].
      unfold supplier_of in Ht, Hne. rewrite row_cell_truthy_refl in Hne by exact Ht.
      discriminate Hne.
    - intros (r & Hin & H). exists r. split; [right; exact Hin | exact H]. }
  assert (Hknown : known ↔
            ∃ sups sel, suppliers p = Some sups
              ∧ List.find (fun supplier => strict_eq (get supplier "name") (supplier_of first))
                  sups = Some sel).
  { unfold known. split.
    - intros (sups & s & Hsups & Hin & Hs). exists sups.
      destruct (List.find _ sups) as [sel |] eqn:Hfind; [eauto |].
      apply list_elem_of_In in Hin.
      pose proof (List.find_none _ _ Hfind s Hin) as Hno. simpl in Hno. congruence.
    - intros (sups & sel & Hsups & Hfind). exists sups, sel.
      apply List.find_some in Hfind as [Hin Hsel].
      split; [exact Hsups |]. split; [apply list_elem_of_In; exact Hin | exact Hsel]. }
  destruct (names_another (supplier_of first) (row_object <$> rest)) eqn:Hanother.
  { (* another supplier is named *)
    assert (Hstop : orderProducts after = orderProducts p
              ∧ alerts after
                = (alerts p ++ ["Multiple suppliers are not allowed to enter"])%list).
    { rewrite Himport. simpl. rewrite Hops, Hal. auto. }
    split; [intros _; exact Hstop |]. split.
    - intros _. split; [apply Hstop | eexists; apply Hstop].
    - intros Hchanged. destruct (Hchanged (proj1 Hstop)). }
  split; [intros Hex; apply Hdup in Hex; discriminate Hex |].
  assert (Hsame : ∀ r, r ∈ sheet → truthy (supplier_of r) = true →
                       strict_eq (supplier_of first) (supplier_of r) = true).
  { intros r Hin Ht.
    destruct (strict_eq (supplier_of first) (supplier_of r)) eqn:Hr; [reflexivity |].
    assert (Hex : false = true) by (apply Hdup; eauto).
    discriminate Hex. }
  destruct (suppliers p) as [sups |] eqn:Hsups.
  2: { assert (Hstop : orderProducts after = orderProducts p
                 ∧ ∃ msg, alerts after = (alerts p ++ [msg])%list).
       { rewrite Himport. simpl. rewrite Hops, Hal. eauto. }
       split; [intros _; exact Hstop |].
       intros Hchanged. destruct (Hchanged (proj1 Hstop)). }
  destruct (List.find _ sups) as [sel |] eqn:Hfind.
  - assert (Hk : known) by (apply Hknown; eauto).
    split; [intros Hnot; destruct (Hnot Hk) |].
    intros _. split; [exact Hsame | exact Hk].
  - assert (Hstop : orderProducts after = orderProducts p
              ∧ ∃ msg, alerts after = (alerts p ++ [msg])%list).
    { rewrite Himport. simpl. rewrite Hops, Hal. eauto. }
    split; [intros _; exact Hstop |].
    intros Hchanged. destruct (Hchanged (proj1 Hstop)).
Qed.

Lemma import_supplier_guard_witness :
  orderProducts (importOrderProducts [acme_row; other_row] (Some [gift_card]) acme_page)
    = orderProducts acme_page
  ∧ alerts (importOrderProducts [acme_row; other_row] (Some [gift_card]) acme_page)
    = (alerts acme_page ++ ["Multiple suppliers are not allowed to enter"])%list.
Proof.
  apply (proj1 (proj2 (import_supplier_guard [acme_row; other_row] (Some [gift_card])
                         acme_page) acme_row [other_row] eq_refl)).
  exists other_row. split; [| split].
  - apply elem_of_cons. right. apply elem_of_cons. left. reflexivity.
  - reflexivity.
  - reflexivity.
Defined.

(** *** savePO and sendProductsOrder *)

Import RequestProofs.

Lemma savePO_requests net (csrftoken changelistFilters status id keepEdit : jsval)
    (p : page) :
  orderProducts p ≠ [] → truthy (selectedSupplier p) = true →
  strict_eq status (JStr "APPROVED") && truthy id = false →
  requests net (savePO csrftoken changelistFilters status id keepEdit p)
  = requests net
      (sendProductsOrder csrftoken (order_payload changelistFilters status p) id).
Proof.
  intros Hlines Hsupplier Happroved. unfold savePO.
  rewrite Happroved, Hsupplier.
  destruct (orderProducts p) as [| l ops] eqn:Hops; [congruence |].
  simpl length. simpl negb. simpl andb. cbv iota.
  rewrite requests_bind. simpl. rewrite app_nil_r.
  unfold order_payload. simpl. rewrite Hops. reflexivity.
Qed.

(** A page with a supplier and one line, ready to be saved. *)
Definition one_mug : page := with_orderProducts [red_mug] acme_page.

(** C7.  [sendProductsOrder] issues exactly one request: a [POST] to
    [logistics/order-products] when the id is the empty string, and a
    [PATCH] to [logistics/order-products/{id}] when it is anything else.
    When [savePO] saves an order (there are lines and a supplier, and the
    call is not the approval of an existing order) the requests it issues
    are those of [sendProductsOrder] for the payload built from the page,
    so a new order (empty id) is posted and an existing one is patched. *)
Theorem save_posts_new_patches_existing net (csrftoken : jsval) :
  (∀ order id : jsval,
      (id = JStr ""
       ∧ requests net (sendProductsOrder csrftoken order id)
         = [("POST", "/logistics/order-products")])
      ∨ (id ≠ JStr ""
         ∧ requests net (sendProductsOrder csrftoken order id)
           = [("PATCH", "/logistics/order-products/" +:+ ToString id)]))
  ∧ (∀ (changelistFilters status id keepEdit : jsval) (p : page),
        orderProducts p ≠ [] → truthy (selectedSupplier p) = true →
        strict_eq status (JStr "APPROVED") && truthy id = false →
        requests net (savePO csrftoken changelistFilters status id keepEdit p)
        = requests net
            (sendProductsOrder csrftoken (order_payload changelistFilters status p) id)).
Proof.
  split.
  - intros order id. apply sendProductsOrder_requests.
  - intros changelistFilters status id keepEdit p. apply savePO_requests.
Qed.

Lemma save_posts_new_patches_existing_witness :
  requests net_done (savePO (JStr "token") JNull (JStr "PENDING") (JStr "") (JBool false) one_mug)
    = requests net_done
        (sendProductsOrder (JStr "token") (order_payload JNull (JStr "PENDING") one_mug)
           (JStr ""))
  ∧ requests net_done (savePO (JStr "token") JNull (JStr "PENDING") (JStr "41") (JBool false) one_mug)
    = requests net_done
        (sendProductsOrder (JStr "token") (order_payload JNull (JStr "PENDING") one_mug)
           (JStr "41")).
Proof.
  split.
  - apply (proj2 (save_posts_new_patches_existing net_done (JStr "token"))).
    + discriminate.
    + reflexivity.
    + reflexivity.
  - apply (proj2 (save_posts_new_patches_existing net_done (JStr "token"))).
    + discriminate.
    + reflexivity.
    + reflexivity.
Defined.

Example save_new_order_posts :
  requests net_done (savePO (JStr "token") JNull (JStr "PENDING") (JStr "") (JBool false) one_mug)
  = [("POST", "/logistics/order-products")].
Proof. reflexivity. Qed.

Example save_existing_order_patches :
  requests net_done (savePO (JStr "token") JNull (JStr "PENDING") (JStr "41") (JBool false) one_mug)
  = [("PATCH", "/logistics/order-products/41")].
Proof. reflexivity. Qed.

(** *** Lines that share a sku *)

Definition money_product (sku : string) (voucher_value : Q) : obj :=
  list_to_map
    [ ("id", JZ 3); ("sku", JStr sku); ("name", JStr "Gift card");
      ("product_kind", JStr "MONEY"); ("cost_price", JZ 0); ("tax_percent", JZ 17);
      ("voucher_value", JNum (Fin voucher_value)); ("supplier_discount_rate", JZ 10);
      ("brand", JObj {[ "name" := JStr "Acme" ]}) ].

Definition mug : obj :=
  list_to_map
    [ ("id", JZ 7); ("sku", JStr "MUG"); ("name", JStr "Mug");
      ("product_kind", JStr "PHYSICAL"); ("cost_price", JZ 117); ("tax_percent", JZ 17);
      ("brand", JObj {[ "name" := JStr "Acme" ]}) ].

Definition select (product : obj) (p : page) : page := with_selectedProduct (Some product) p.

(** What is shown of a line below: sku, voucher value, quantity. *)
Definition line_view (l : obj) : jsval * jsval * jsval :=
  (get l "sku", get l "voucher_value", get l "quantity").

(** The order after adding a gift card of 50 and one of 100: two lines of
    the same sku, told apart by their voucher values. *)
Definition two_gift_cards : page :=
  addProduct (select (money_product "GIFT" 100)
                (addProduct (select (money_product "GIFT" 50) acme_page))).

Definition mug_row : row :=
  list_to_map [("sku", CText "MUG"); ("quantity", CNumber (Fin 3)); ("supplier", CText "Acme")].

(** C2: the import merges on the sku alone.  The order holds a gift card
    of 50 and one of 100, both of sku GIFT; the imported file has a single
    row, for MUG.  After the import the line of 50 is gone, although no row
    of the file names GIFT: the [Map] keyed by sku kept one line per sku. *)
Lemma import_drops_line_sharing_sku :
  List.map line_view (orderProducts two_gift_cards)
    = [(JStr "GIFT", JZ 50, JZ 1); (JStr "GIFT", JZ 100, JZ 1)]
  ∧ List.map line_view
      (orderProducts
         (importOrderProducts [mug_row]
            (Some [money_product "GIFT" 50; money_product "GIFT" 100; mug])
            two_gift_cards))
    = [(JStr "GIFT", JZ 100, JZ 1); (JStr "MUG", JUndefined, JZ 3)].
Proof. vm_compute. split; reflexivity. Qed.

(** C6: [addProduct] compares the voucher value of the selected product
    as it is, but stores it rounded to two decimals.  A card of 10.1 is
    added, then a card of 10.046 of the same sku: 10.046 prints as 10.0, so
    no line matches and the card is added, stored as 10.05, which prints as
    10.1.  The order now holds two lines of the same sku whose voucher
    values agree to one decimal. *)
Lemma addProduct_stores_rounded_voucher :
  List.map
    (fun l => (get l "sku", get l "voucher_value", Number_toFixed1 (get l "voucher_value")))
    (orderProducts
       (addProduct (select (money_product "CARD" (5023 # 500))
                      (addProduct (select (money_product "CARD" (101 # 10)) acme_page)))))
  = [ (JStr "CARD", JNum (Fin (101 # 10)), "10.1");
      (JStr "CARD", JNum (Fin (201 # 20)), "10.1") ].
Proof. vm_compute. reflexivity. Qed.

(** *** The key invariant of addProduct *)

(** Two lines share a key: same sku, and voucher values that print alike
    with one decimal. *)
Definition same_line_key (l l' : obj) : bool :=
  strict_eq (get l "sku") (get l' "sku")
  && String.eqb (Number_toFixed1 (get l "voucher_value"))
                (Number_toFixed1 (get l' "voucher_value")).

(** No line shares its key with a later line. *)
Definition distinct_keys (ops : list obj) : Prop :=
  ∀ (i j : nat) (l l' : obj),
    (i < j)%nat → ops !! i = Some l → ops !! j = Some l' → same_line_key l l' = false.

Lemma distinct_keys_snoc (ops : list obj) (new : obj) :
  distinct_keys ops →
  Forall (fun l => same_line_key l new = false) ops →
  distinct_keys (ops ++ [new]).
Proof.
  intros Hops Hnew i j l l' Hij Hi Hj.
  assert (Hjlen : (j < length (ops ++ [new]))%nat) by (eapply lookup_lt_Some; exact Hj).
  rewrite length_app in Hjlen. simpl in Hjlen.
  destruct (decide (j < length ops)%nat) as [Hlt | Hge].
  - rewrite lookup_app_l in Hi by lia. rewrite lookup_app_l in Hj by lia.
    exact (Hops i j l l' Hij Hi Hj).
  - assert (j = length ops) as -> by lia.
    rewrite lookup_app_l in Hi by lia.
    rewrite list_lookup_middle in Hj by reflexivity. injection Hj as <-.
    rewrite Forall_forall in Hnew. apply Hnew.
    apply list_elem_of_lookup. exists i. exact Hi.
Qed.

Lemma newProduct_sku (p : page) (selected : obj) :
  get (newProduct p selected) "sku" = get selected "sku".
Proof.
  unfold newProduct. destruct (loose_eq _ _).
  - rewrite !get_assign_ne by discriminate. reflexivity.
  - reflexivity.
Qed.

Lemma newProduct_voucher (p : page) (selected : obj) :
  get (newProduct p selected) "voucher_value"
  = if loose_eq (get selected "product_kind") (JStr "MONEY")
    then roundValue (get selected "voucher_value")
    else get selected "voucher_value".
Proof.
  unfold newProduct. destruct (loose_eq _ _).
  - apply get_assign_eq.
  - reflexivity.
Qed.

(** The selected product keeps its one-decimal print when it is stored:
    it is not a MONEY product, or rounding its voucher value to two
    decimals does not move the print. *)
Definition print_stable (selected : obj) : Prop :=
  loose_eq (get selected "product_kind") (JStr "MONEY") = true →
  Number_toFixed1 (roundValue (get selected "voucher_value"))
  = Number_toFixed1 (get selected "voucher_value").

(** [addProduct] appends only when no line matches the selected product
    on both keys, and otherwise leaves the lines as they are. *)
Lemma addProduct_appends_unmatched (p : page) :
  orderProducts (addProduct p) = orderProducts p
  ∨ ∃ selected,
      selectedProduct p = Some selected
      ∧ Forall (fun l => same_sku_voucher selected l = false) (orderProducts p)
      ∧ orderProducts (addProduct p) = (orderProducts p ++ [newProduct p selected])%list.
Proof.
  unfold addProduct.
  destruct (selectedProduct p) as [selected |]; [| left; reflexivity].
  destruct (List.find _ (orderProducts p)) eqn:Hfind; [left; reflexivity |].
  right. exists selected. split; [reflexivity |]. split.
  - apply Forall_forall. intros l Hin.
    apply list_elem_of_In in Hin. exact (List.find_none _ _ Hfind l Hin).
  - apply orderProducts_refresh.
Qed.

(** The invariant holds along [addProduct] as long as the products added
    keep their print. *)
Lemma addProduct_distinct_keys (p : page) :
  (∀ selected, selectedProduct p = Some selected → print_stable selected) →
  distinct_keys (orderProducts p) → distinct_keys (orderProducts (addProduct p)).
Proof.
  intros Hstable Hinv.
  destruct (addProduct_appends_unmatched p)
    as [-> | (selected & Hsel & Hnone & ->)]; [exact Hinv |].
  apply distinct_keys_snoc; [exact Hinv |].
  eapply Forall_impl; [exact Hnone |].
  intros l Hl. unfold same_line_key.
  rewrite newProduct_sku, newProduct_voucher.
  unfold same_sku_voucher in Hl.
  specialize (Hstable selected Hsel). unfold print_stable in Hstable.
  destruct (loose_eq _ _); [rewrite Hstable by reflexivity |]; exact Hl.
Qed.

(** Any sequence of additions, each of a product chosen beforehand. *)
Definition add_each (selection : list obj) (p : page) : page :=
  fold_left (fun p selected => addProduct (select selected p)) selection p.

Lemma add_each_distinct_keys (selection : list obj) (p : page) :
  Forall print_stable selection →
  distinct_keys (orderProducts p) → distinct_keys (orderProducts (add_each selection p)).
Proof.
  unfold add_each. revert p.
  induction selection as [| selected rest IH]; intros p Hstable Hinv; simpl.
  - exact Hinv.
  - apply Forall_cons in Hstable as [Hs Hrest].
    apply IH; [exact Hrest |].
    apply addProduct_distinct_keys; [| exact Hinv].
    intros selected' [= <-]. exact Hs.
Qed.

(** The earlier revision keys lines on the sku alone: it never holds two
    lines of the same sku, whatever their voucher values. *)
Definition distinct_skus (ops : list obj) : Prop :=
  ∀ (i j : nat) (l l' : obj),
    (i < j)%nat → ops !! i = Some l → ops !! j = Some l' →
    strict_eq (get l "sku") (get l' "sku") = false.

Lemma distinct_skus_keys (ops : list obj) : distinct_skus ops → distinct_keys ops.
Proof.
  intros Hops i j l l' Hij Hi Hj. unfold same_line_key.
  rewrite (Hops i j l l' Hij Hi Hj). reflexivity.
Qed.

Lemma newProduct_old_sku (p : page) (selected line : obj) :
  PoPopulateOld.newProduct p selected = Some line →
  get line "sku" = get selected "sku".
Proof.
  unfold PoPopulateOld.newProduct.
  destruct (prop (get selected "brand") "name") as [brand |]; [| discriminate].
  intros [= <-]. destruct (loose_eq _ _).
  - rewrite !get_assign_ne by discriminate. reflexivity.
  - reflexivity.
Qed.

Lemma addProduct_old_distinct_skus (p : page) :
  distinct_skus (orderProducts p) →
  distinct_skus (orderProducts (page_of (PoPopulateOld.addProduct p))).
Proof.
  intros Hinv. unfold PoPopulateOld.addProduct.
  destruct (selectedProduct p) as [selected |]; [| exact Hinv].
  destruct (List.find _ (orderProducts p)) eqn:Hfind; [exact Hinv |].
  destruct (PoPopulateOld.newProduct p selected) as [line |] eqn:Hline; [| exact Hinv].
  simpl page_of. rewrite orderProducts_refresh. simpl orderProducts.
  intros i j l l' Hij Hi Hj.
  assert (Hjlen : (j < length (orderProducts p ++ [line]))%nat)
    by (eapply lookup_lt_Some; exact Hj).
  rewrite length_app in Hjlen. simpl in Hjlen.
  destruct (decide (j < length (orderProducts p))%nat) as [Hlt | Hge].
  - rewrite lookup_app_l in Hi by lia. rewrite lookup_app_l in Hj by lia.
    exact (Hinv i j l l' Hij Hi Hj).
  - assert (j = length (orderProducts p)) as -> by lia.
    rewrite lookup_app_l in Hi by lia.
    rewrite list_lookup_middle in Hj by reflexivity. injection Hj as <-.
    rewrite (newProduct_old_sku _ _ _ Hline).
    assert (Hin : In l (orderProducts p)).
    { apply list_elem_of_In, list_elem_of_lookup. exists i. exact Hi. }
    exact (List.find_none _ _ Hfind l Hin).
Qed.

(** Printing with one decimal and rounding to two decimals look at the
    value of a number only. *)
Lemma Qis_neg_comp (p q : Q) : Qeq p q → Qis_neg p = Qis_neg q.
Proof.
  intros Hpq. unfold Qis_neg, Qeq in *.
  destruct (Qnum p <? 0) eqn:Hp, (Qnum q <? 0) eqn:Hq; try reflexivity.
  - apply Z.ltb_lt in Hp. apply Z.ltb_ge in Hq. nia.
  - apply Z.ltb_ge in Hp. apply Z.ltb_lt in Hq. nia.
Qed.

Lemma toFixed1_comp (p q : Q) : Qeq p q → toFixed1 (Fin p) = toFixed1 (Fin q).
Proof.
  intros Hpq. unfold toFixed1.
  rewrite (Qis_neg_comp p q Hpq).
  assert (Hfloor : Qfloor (10 * Qabs p + (1 # 2)) = Qfloor (10 * Qabs q + (1 # 2))).
  { apply Qfloor_comp. rewrite (Qabs_wd p q Hpq). reflexivity. }
  rewrite Hfloor. reflexivity.
Qed.

Lemma round2_hundredths (n : Z) : Qeq (round2 (n # 100)) (n # 100).
Proof.
  unfold round2. rewrite Qred_correct.
  assert (Hfloor : Qfloor (Qred ((n # 100) * 100) + (1 # 2)) = n).
  { rewrite (Qfloor_comp _ ((2 * n + 1) # 2)).
    - unfold Qfloor. symmetry. apply Z.div_unique with (r := 1); lia.
    - rewrite Qred_correct. unfold Qeq. simpl. lia. }
  rewrite Hfloor. unfold Qeq. simpl. lia.
Qed.

(** A voucher value with at most two decimals keeps its print. *)
Lemma hundredths_print_stable (selected : obj) (n : Z) :
  get selected "voucher_value" = JNum (Fin (n # 100)) → print_stable selected.
Proof.
  intros Hvoucher _. rewrite Hvoucher, roundValue_Fin.
  apply toFixed1_comp, round2_hundredths.
Qed.

(** With vouchers of at most two decimals, any sequence of additions to
    an empty order leaves no two lines of the same sku and one-decimal
    voucher. *)
Lemma add_each_hundredths (selection : list obj) (p : page) :
  orderProducts p = [] →
  Forall (fun selected => ∃ n : Z, get selected "voucher_value" = JNum (Fin (n # 100)))
    selection →
  distinct_keys (orderProducts (add_each selection p)).
Proof.
  intros Hempty Hselection. apply add_each_distinct_keys.
  - eapply Forall_impl; [exact Hselection |].
    intros selected [n Hn]. exact (hundredths_print_stable selected n Hn).
  - rewrite Hempty. intros i j l l' _ Hi. rewrite lookup_nil in Hi. discriminate Hi.
Qed.

(** *** importOrderProducts: the merge, when no two lines share a sku *)

Lemma same_value_zero_cancel (a b c : jsval) :
  same_value_zero a c = true → same_value_zero b c = true → same_value_zero a b = true.
Proof.
  destruct a as [| | x | x | x | x | x], c as [| | z | z | z | z | z];
    try (destruct x; discriminate); try discriminate;
    destruct b as [| | y | y | y | y | y];
    try (destruct y; discriminate); try discriminate;
    try (destruct z; discriminate); try reflexivity.
  - simpl. destruct x, y, z; reflexivity || discriminate.
  - destruct x as [| xa | xq], z as [| za | zq]; try discriminate;
      destruct y as [| ya | yq]; try discriminate; try reflexivity; simpl.
    + destruct xa, ya, za; reflexivity || discriminate.
    + rewrite !Qeq_bool_iff. intros Hxz Hyz. rewrite Hxz, Hyz. reflexivity.
  - simpl. rewrite !String.eqb_eq. congruence.
Qed.

(** No entry of the [Map] has the key of a later entry. *)
Definition keys_distinct (m : list (jsval * obj)) : Prop :=
  ∀ (i j : nat) (e e' : jsval * obj),
    (i < j)%nat → m !! i = Some e → m !! j = Some e' →
    same_value_zero (fst e) (fst e') = false.

Lemma keys_distinct_tail (e : jsval * obj) (m : list (jsval * obj)) :
  keys_distinct (e :: m) → keys_distinct m.
Proof. intros H i j a b Hij Hi Hj. apply (H (S i) (S j) a b); [lia | exact Hi | exact Hj]. Qed.

Lemma keys_distinct_head (e : jsval * obj) (m : list (jsval * obj)) :
  keys_distinct (e :: m) → Forall (fun e' => same_value_zero (fst e) (fst e') = false) m.
Proof.
  intros H. apply Forall_forall. intros e' Hin.
  apply list_elem_of_lookup in Hin as [j Hj].
  apply (H 0%nat (S j) e e'); [lia | reflexivity | exact Hj].
Qed.

(** One step of the merge: the row updates the quantity of the entry
    that has its sku, or is added at the end. *)
Definition update_entry (newProd : obj) (e : jsval * obj) : jsval * obj :=
  if same_value_zero (fst e) (get newProd "sku")
  then (fst e, assign (snd e) "quantity" (get newProd "quantity"))
  else e.

Lemma merge_row_cons_other (e : jsval * obj) (m : list (jsval * obj)) (newProd : obj) :
  same_value_zero (fst e) (get newProd "sku") = false →
  merge_row (e :: m) newProd = e :: merge_row m newProd.
Proof.
  intros He. unfold merge_row, map_get. destruct e as [k v].
  cbn [List.find fst snd] in *. rewrite He.
  destruct (List.find _ m) as [[k' v'] |];
    cbn [fmap option_fmap option_map snd map_set]; rewrite He; reflexivity.
Qed.

Lemma merge_row_spec (m : list (jsval * obj)) (newProd : obj) :
  keys_distinct m →
  merge_row m newProd
  = if existsb (fun e => same_value_zero (fst e) (get newProd "sku")) m
    then update_entry newProd <$> m
    else (m ++ [(get newProd "sku", newProd)])%list.
Proof.
  induction m as [| [k v] m IH]; intros Hm.
  - reflexivity.
  - destruct (same_value_zero k (get newProd "sku")) eqn:Hk.
    + simpl existsb. rewrite Hk. simpl orb. cbv iota.
      unfold merge_row, map_get. cbn [List.find fst snd]. rewrite Hk.
      cbn [fmap option_fmap option_map snd map_set]. rewrite Hk.
      rewrite fmap_cons. unfold update_entry at 1. cbn [fst snd]. rewrite Hk. f_equal.
      symmetry. transitivity (id <$> m); [| apply list_fmap_id].
      apply list_fmap_ext. intros i e Hi. unfold update_entry.
      destruct (same_value_zero (fst e) (get newProd "sku")) eqn:He; [| reflexivity].
      pose proof (keys_distinct_head _ _ Hm) as Hhead.
      rewrite Forall_forall in Hhead.
      assert (Hin : e ∈ m) by (apply list_elem_of_lookup; eauto).
      specialize (Hhead e Hin). simpl in Hhead.
      rewrite (same_value_zero_cancel k (fst e) _ Hk He) in Hhead. discriminate Hhead.
    + rewrite merge_row_cons_other by exact Hk.
      rewrite (IH (keys_distinct_tail _ _ Hm)).
      simpl existsb. rewrite Hk. simpl orb.
      destruct (existsb _ m).
      * rewrite fmap_cons. unfold update_entry at 2. cbn [fst snd]. rewrite Hk. reflexivity.
      * reflexivity.
Qed.

Lemma merge_row_keys_distinct (m : list (jsval * obj)) (newProd : obj) :
  keys_distinct m → keys_distinct (merge_row m newProd).
Proof.
  intros Hm. rewrite merge_row_spec by exact Hm.
  destruct (existsb _ m) eqn:Hex.
  - intros i j e e' Hij Hi Hj.
    rewrite list_lookup_fmap in Hi, Hj.
    destruct (m !! i) as [a |] eqn:Ha; [| discriminate].
    destruct (m !! j) as [b |] eqn:Hb; [| discriminate].
    injection Hi as <-. injection Hj as <-.
    assert (Hfst : ∀ x, fst (update_entry newProd x) = fst x).
    { intros x. unfold update_entry. destruct (same_value_zero _ _); reflexivity. }
    rewrite !Hfst. exact (Hm i j a b Hij Ha Hb).
  - intros i j e e' Hij Hi Hj.
    assert (Hjlen : (j < length (m ++ [(get newProd "sku", newProd)]))%nat)
      by (eapply lookup_lt_Some; exact Hj).
    rewrite length_app in Hjlen. simpl in Hjlen.
    destruct (decide (j < length m)%nat) as [Hlt | Hge].
    + rewrite lookup_app_l in Hi by lia. rewrite lookup_app_l in Hj by lia.
      exact (Hm i j e e' Hij Hi Hj).
    + assert (j = length m) as -> by lia.
      rewrite lookup_app_l in Hi by lia.
      rewrite list_lookup_middle in Hj by reflexivity. injection Hj as <-. simpl.
      destruct (same_value_zero (fst e) (get newProd "sku")) eqn:He; [| reflexivity].
      assert (Hin : In e m) by (apply list_elem_of_In, list_elem_of_lookup; eauto).
      assert (Hex' : existsb (fun e => same_value_zero (fst e) (get newProd "sku")) m = true)
        by (apply List.existsb_exists; eauto).
      congruence.
Qed.

(** What the rows of a sku do, one after the other, to a line of that
    sku. *)
Definition requantify (rows : list obj) (l : obj) : obj :=
  fold_left
    (fun l newProd =>
       if same_value_zero (get l "sku") (get newProd "sku")
       then assign l "quantity" (get newProd "quantity")
       else l)
    rows l.

(** Every entry is filed under the sku of its line. *)
Definition keyed (m : list (jsval * obj)) : Prop :=
  Forall (fun e => fst e = get (snd e) "sku") m.

Lemma merge_row_keyed (m : list (jsval * obj)) (newProd : obj) :
  keys_distinct m → keyed m → keyed (merge_row m newProd).
Proof.
  intros Hm Hkeyed. rewrite merge_row_spec by exact Hm. unfold keyed.
  destruct (existsb _ m).
  - apply Forall_fmap. eapply Forall_impl; [exact Hkeyed |].
    intros [k v] He. unfold update_entry. simpl in *.
    destruct (same_value_zero _ _); simpl; [| exact He].
    rewrite get_assign_ne by discriminate. exact He.
  - apply Forall_app. split; [exact Hkeyed |].
    constructor; [reflexivity | constructor].
Qed.

Lemma fold_merge_lookup (rows : list obj) (m : list (jsval * obj)) (i : nat) (l : obj) :
  keys_distinct m → keyed m →
  m !! i = Some (get l "sku", l) →
  fold_left merge_row rows m !! i = Some (get l "sku", requantify rows l).
Proof.
  revert m l. induction rows as [| r rows IH]; intros m l Hm Hkeyed Hi.
  - exact Hi.
  - simpl fold_left. unfold requantify. simpl fold_left.
    set (l' := if same_value_zero (get l "sku") (get r "sku")
               then assign l "quantity" (get r "quantity") else l).
    assert (Hsku : get l' "sku" = get l "sku").
    { unfold l'. destruct (same_value_zero _ _); [| reflexivity].
      apply get_assign_ne. discriminate. }
    rewrite <- Hsku. apply IH.
    + apply merge_row_keys_distinct. exact Hm.
    + apply merge_row_keyed; assumption.
    + rewrite merge_row_spec by exact Hm.
      destruct (existsb _ m) eqn:Hex.
      * rewrite list_lookup_fmap, Hi. simpl. unfold update_entry. cbn [fst snd].
        fold l'. unfold l' at 2.
        destruct (same_value_zero (get l "sku") (get r "sku")) eqn:Hr.
        -- rewrite Hsku. reflexivity.
        -- rewrite Hsku. reflexivity.
      * rewrite lookup_app_l by (eapply lookup_lt_Some; exact Hi).
        assert (Hno : same_value_zero (get l "sku") (get r "sku") = false).
        { destruct (same_value_zero (get l "sku") (get r "sku")) eqn:Hr; [| reflexivity].
          assert (Hex' : existsb (fun e => same_value_zero (fst e) (get r "sku")) m = true).
          { apply List.existsb_exists. exists (get l "sku", l). split; [| exact Hr].
            apply list_elem_of_In, list_elem_of_lookup. eauto. }
          congruence. }
        unfold l' in *. rewrite Hno in *. exact Hi.
Qed.

(** No line has the sku of a later line. *)
Definition no_shared_sku (ops : list obj) : Prop :=
  ∀ (i j : nat) (l l' : obj),
    (i < j)%nat → ops !! i = Some l → ops !! j = Some l' →
    same_value_zero (get l "sku") (get l' "sku") = false.

Definition entry_of (l : obj) : jsval * obj := (get l "sku", l).

Lemma map_set_fresh (k : jsval) (v : obj) (m : list (jsval * obj)) :
  Forall (fun e => same_value_zero (fst e) k = false) m →
  map_set k v m = (m ++ [(k, v)])%list.
Proof.
  intros Hm. induction Hm as [| [k' v'] m He _ IH]; simpl.
  - reflexivity.
  - simpl in He. rewrite He, IH. reflexivity.
Qed.

Lemma fill_map (ops : list obj) (acc : list (jsval * obj)) :
  keys_distinct (acc ++ (entry_of <$> ops)) →
  fold_left (fun m prod => map_set (get prod "sku") prod m) ops acc
  = (acc ++ (entry_of <$> ops))%list.
Proof.
  revert acc. induction ops as [| l ops IH]; intros acc Hdistinct; simpl.
  - rewrite app_nil_r. reflexivity.
  - rewrite fmap_cons in Hdistinct.
    rewrite map_set_fresh.
    + rewrite IH; rewrite <- app_assoc; [reflexivity | exact Hdistinct].
    + apply Forall_forall. intros e Hin.
      apply list_elem_of_lookup in Hin as [i Hi].
      assert (Hlen : (i < length acc)%nat) by (eapply lookup_lt_Some; exact Hi).
      apply (Hdistinct i (length acc) e (entry_of l)).
      * exact Hlen.
      * rewrite lookup_app_l by exact Hlen. exact Hi.
      * apply list_lookup_middle. reflexivity.
Qed.

Lemma no_shared_sku_entries (ops : list obj) :
  no_shared_sku ops → keys_distinct (entry_of <$> ops).
Proof.
  intros Hops i j e e' Hij Hi Hj.
  rewrite list_lookup_fmap in Hi, Hj.
  destruct (ops !! i) as [l |] eqn:Hl; [| discriminate].
  destruct (ops !! j) as [l' |] eqn:Hl'; [| discriminate].
  injection Hi as <-. injection Hj as <-.
  exact (Hops i j l l' Hij Hl Hl').
Qed.

(** When no two lines of the order share a sku, the import does what C2
    says of the existing lines: each keeps its place, and is what the rows
    bearing its sku (among those of the supplier's products) make of it,
    one after the other. *)
Lemma import_merge_no_shared_sku (prods ops data : list obj) (i : nat) (l : obj) :
  no_shared_sku ops → ops !! i = Some l →
  import_merge prods ops data !! i
  = Some (requantify (List.filter (in_skus prods) data) l).
Proof.
  intros Hops Hi. unfold import_merge.
  rewrite (fill_map ops []) by (apply no_shared_sku_entries; exact Hops).
  simpl app.
  change (List.map snd ?m) with (snd <$> m).
  rewrite list_lookup_fmap.
  rewrite (fold_merge_lookup _ _ i l).
  - reflexivity.
  - apply no_shared_sku_entries. exact Hops.
  - apply Forall_fmap, Forall_forall. intros x _. reflexivity.
  - rewrite list_lookup_fmap, Hi. reflexivity.
Qed.

(** A line whose sku no row bears is kept as it is. *)
Lemma requantify_unnamed (rows : list obj) (l : obj) :
  Forall (fun r => same_value_zero (get l "sku") (get r "sku") = false) rows →
  requantify rows l = l.
Proof.
  intros Hrows. unfold requantify.
  induction Hrows as [| r rows Hr _ IH]; simpl; [reflexivity |].
  rewrite Hr. exact IH.
Qed.

(** Only the quantity of a line is ever replaced. *)
Lemma requantify_other_fields (rows : list obj) (l : obj) (k : string) :
  k ≠ "quantity" → requantify rows l !! k = l !! k.
Proof.
  intros Hk. unfold requantify. revert l.
  induction rows as [| r rows IH]; intros l; simpl; [reflexivity |].
  rewrite IH. destruct (same_value_zero _ _); [| reflexivity].
  apply lookup_assign_ne. congruence.
Qed.

(** The last row bearing the sku of a line gives the line its quantity. *)
Lemma requantify_last (rows : list obj) (r l : obj) :
  same_value_zero (get l "sku") (get r "sku") = true →
  get (requantify (rows ++ [r]) l) "quantity" = get r "quantity".
Proof.
  intros Hr. unfold requantify. rewrite fold_left_app. simpl.
  fold (requantify rows l).
  assert (Hsku : get (requantify rows l) "sku" = get l "sku").
  { unfold get. rewrite requantify_other_fields by discriminate. reflexivity. }
  rewrite Hsku, Hr. apply get_assign_eq.
Qed.

End OrderProofs.

(* ===================================================================== *)
(** ** Properties of the cookie and query helpers *)
(* ===================================================================== *)

Module CookieProofs.
Import JS PoRequests RequestProofs.

(** *** getCookie *)

(** What [document.cookie] reads for a list of cookies, each a name and
    a value: the pairs [name=value], joined by a semicolon and a space. *)
Definition cookie_pair (c : string * string) : string := fst c +:+ "=" +:+ snd c.

Fixpoint cookie_string (cookies : list (string * string)) : string :=
  match cookies with
  | [] => ""
  | [c] => cookie_pair c
  | c :: rest => cookie_pair c +:+ "; " +:+ cookie_string rest
  end.

(** The character [c] occurs in [s]. *)
Fixpoint has_char (c : ascii) (s : string) : bool :=
  match s with
  | EmptyString => false
  | String d s' => Ascii.eqb d c || has_char c s'
  end.

Lemma append_cons (x : ascii) (a b : string) : String x a +:+ b = String x (a +:+ b).
Proof. reflexivity. Qed.

Lemma append_nil_l (a : string) : "" +:+ a = a.
Proof. reflexivity. Qed.

Lemma append_assoc (a b c : string) : (a +:+ b) +:+ c = a +:+ (b +:+ c).
Proof.
  induction a as [| x a IH]; [reflexivity |].
  rewrite !append_cons, IH. reflexivity.
Qed.

Lemma append_nil_r (a : string) : a +:+ "" = a.
Proof.
  induction a as [| x a IH]; [reflexivity |].
  rewrite append_cons, IH. reflexivity.
Qed.

Lemma has_char_app (c : ascii) (a b : string) :
  has_char c (a +:+ b) = has_char c a || has_char c b.
Proof.
  induction a as [| x a IH]; [reflexivity |].
  rewrite append_cons. cbn [has_char]. rewrite IH, orb_assoc. reflexivity.
Qed.

Lemma prefix_app (a b c : string) : String.prefix (a +:+ b) (a +:+ c) = String.prefix b c.
Proof.
  induction a as [| x a IH]; [reflexivity |].
  rewrite !append_cons. cbn [String.prefix].
  destruct (ascii_dec x x) as [_ | Hne]; [exact IH | congruence].
Qed.

Lemma prefix_refl_app (a c : string) : String.prefix a (a +:+ c) = true.
Proof.
  rewrite <- (append_nil_r a) at 1. rewrite prefix_app. destruct c; reflexivity.
Qed.

(** Characters still to pass are passed. *)
Lemma split_go_skip (sep u cur t : string) :
  split_go sep (String.length u) cur (u +:+ t) = split_go sep 0 cur t.
Proof.
  induction u as [| x u IH].
  - reflexivity.
  - rewrite append_cons. exact IH.
Qed.

Lemma split_go_sep (sep cur t : string) :
  sep ≠ "" → split_go sep 0 cur (sep +:+ t) = cur :: split_go sep 0 "" t.
Proof.
  intros Hsep. destruct sep as [| x sep']; [congruence |].
  change (String x sep' +:+ t) with (String x (sep' +:+ t)).
  cbn [split_go].
  change (String x (sep' +:+ t)) with (String x sep' +:+ t).
  rewrite prefix_refl_app. f_equal.
  replace (String.length (String x sep') - 1)%nat with (String.length sep')
    by (cbn [String.length]; lia).
  apply split_go_skip.
Qed.

Lemma split_go_other (x : ascii) (sep' v cur t : string) :
  has_char x v = false →
  split_go (String x sep') 0 cur (v +:+ t) = split_go (String x sep') 0 (cur +:+ v) t.
Proof.
  revert cur. induction v as [| d v IH]; intros cur Hv.
  - rewrite append_nil_r. reflexivity.
  - cbn [has_char] in Hv. apply orb_false_iff in Hv as [Hd Hv].
    rewrite append_cons. cbn [split_go String.prefix].
    destruct (ascii_dec x d) as [-> | Hne].
    + rewrite Ascii.eqb_refl in Hd. discriminate Hd.
    + rewrite IH by exact Hv. rewrite append_assoc. reflexivity.
Qed.

Lemma prefix_name (name n rest : string) :
  has_char "=" name = false → has_char "=" n = false →
  String.prefix (name +:+ "=") (n +:+ "=" +:+ rest) = String.eqb n name.
Proof.
  revert n. induction name as [| a name IH]; intros n Hname Hn.
  - destruct n as [| d n]; [destruct rest; reflexivity |].
    cbn [has_char] in Hn. apply orb_false_iff in Hn as [Hd _].
    rewrite append_nil_l, append_cons. cbn [String.prefix String.eqb].
    destruct (ascii_dec "=" d) as [<- | Hne]; [discriminate Hd | reflexivity].
  - cbn [has_char] in Hname. apply orb_false_iff in Hname as [Ha Hname].
    destruct n as [| d n].
    + rewrite append_nil_l, append_cons.
      change ("=" +:+ rest) with (String "=" rest). cbn [String.prefix String.eqb].
      destruct (ascii_dec a "=") as [-> | Hne]; [discriminate Ha | reflexivity].
    + cbn [has_char] in Hn. apply orb_false_iff in Hn as [_ Hn].
      rewrite !append_cons. cbn [String.prefix String.eqb].
      destruct (ascii_dec a d) as [-> | Hne].
      * rewrite Ascii.eqb_refl. apply IH; assumption.
      * destruct (Ascii.eqb_spec d a) as [-> | _]; [congruence | reflexivity].
Qed.

(** The string [getCookie] splits, when there is a cookie: every pair
    preceded by a semicolon and a space. *)
Definition item (c : string * string) : string := "; " +:+ cookie_pair c.

Fixpoint text (cookies : list (string * string)) : string :=
  match cookies with
  | [] => ""
  | c :: rest => item c +:+ text rest
  end.

Lemma value_text (c : string * string) (rest : list (string * string)) :
  "; " +:+ cookie_string (c :: rest) = text (c :: rest).
Proof.
  revert c. induction rest as [| c' rest IH]; intros c.
  - cbn [cookie_string text]. unfold item. rewrite append_nil_r. reflexivity.
  - change (cookie_string (c :: c' :: rest))
      with (cookie_pair c +:+ "; " +:+ cookie_string (c' :: rest)).
    cbn [text] in *. rewrite <- IH. unfold item.
    rewrite !append_assoc. reflexivity.
Qed.

Definition named (name : string) (c : string * string) : bool := String.eqb (fst c) name.

(** The parts the split gives: a new part starts after each pair of the
    name looked for. *)
Fixpoint pieces (name cur : string) (cookies : list (string * string)) : list string :=
  match cookies with
  | [] => [cur]
  | c :: rest =>
      if named name c then cur :: pieces name (snd c) rest
      else pieces name (cur +:+ item c) rest
  end.

(** A cookie as a browser lists it: no semicolon in its name or value,
    no equals sign in its name. *)
Definition well_formed (c : string * string) : Prop :=
  has_char ";" (fst c) = false ∧ has_char "=" (fst c) = false
  ∧ has_char ";" (snd c) = false.

Lemma split_text (name cur : string) (cookies : list (string * string)) :
  has_char "=" name = false → Forall well_formed cookies →
  split_go ("; " +:+ name +:+ "=") 0 cur (text cookies) = pieces name cur cookies.
Proof.
  intros Hname Hall. revert cur.
  induction Hall as [| [n v] rest (Hn1 & Hn2 & Hv) _ IH]; intros cur; [reflexivity |].
  cbn [text pieces]. unfold named, item, cookie_pair. cbn [fst snd] in *.
  destruct (String.eqb n name) eqn:Heq.
  - apply String.eqb_eq in Heq. subst n.
    replace (("; " +:+ name +:+ "=" +:+ v) +:+ text rest)
      with (("; " +:+ name +:+ "=") +:+ (v +:+ text rest))
      by (rewrite !append_assoc; reflexivity).
    rewrite split_go_sep by discriminate. f_equal.
    change ("; " +:+ name +:+ "=") with (String ";" (" " +:+ name +:+ "=")).
    rewrite split_go_other by exact Hv.
    apply IH.
  - change (("; " +:+ n +:+ "=" +:+ v) +:+ text rest)
      with (String ";" ((" " +:+ n +:+ "=" +:+ v) +:+ text rest)).
    cbn [split_go].
    assert (Hpre : String.prefix ("; " +:+ name +:+ "=")
                     (String ";" ((" " +:+ n +:+ "=" +:+ v) +:+ text rest)) = false).
    { change (String ";" ((" " +:+ n +:+ "=" +:+ v) +:+ text rest))
        with ("; " +:+ (n +:+ "=" +:+ v) +:+ text rest).
      rewrite append_assoc.
      rewrite (prefix_app "; "). rewrite append_assoc.
      rewrite prefix_name by assumption. exact Heq. }
    rewrite Hpre.
    change ("; " +:+ name +:+ "=") with (String ";" (" " +:+ name +:+ "=")).
    rewrite split_go_other.
    + rewrite <- IH. f_equal. rewrite !append_assoc. reflexivity.
    + rewrite !has_char_app. rewrite Hn1, Hv. reflexivity.
Qed.

Lemma pieces_length (name cur : string) (cookies : list (string * string)) :
  length (pieces name cur cookies) = S (length (List.filter (named name) cookies)).
Proof.
  revert cur. induction cookies as [| c rest IH]; intros cur; [reflexivity |].
  cbn [pieces List.filter]. destruct (named name c); cbn [length]; rewrite IH; reflexivity.
Qed.

Lemma pieces_absent (name cur : string) (cookies : list (string * string)) :
  List.filter (named name) cookies = [] → pieces name cur cookies = [cur +:+ text cookies].
Proof.
  revert cur. induction cookies as [| c rest IH]; intros cur Hnone.
  - cbn [pieces text]. rewrite append_nil_r. reflexivity.
  - cbn [pieces List.filter text] in *. destruct (named name c); [discriminate Hnone |].
    rewrite IH by exact Hnone. rewrite append_assoc. reflexivity.
Qed.

Lemma split_first (v : string) (cookies : list (string * string)) :
  has_char ";" v = false → ∃ more, split ";" (v +:+ text cookies) = v :: more.
Proof.
  intros Hv. unfold split. rewrite split_go_other by exact Hv. rewrite append_nil_l.
  destruct cookies as [| c rest].
  - exists []. reflexivity.
  - eexists. cbn [text]. unfold item. reflexivity.
Qed.

(** What [getCookie] makes of the parts. *)
Definition first_value (parts : list string) : jsval :=
  match parts with
  | [_; last] =>
      match split ";" last with
      | first :: _ => JStr first
      | [] => JUndefined
      end
  | _ => JUndefined
  end.

Lemma first_value_pieces (name cur : string) (cookies : list (string * string)) :
  Forall well_formed cookies →
  first_value (pieces name cur cookies)
  = match List.filter (named name) cookies with
    | [c] => JStr (snd c)
    | _ => JUndefined
    end.
Proof.
  intros Hall. revert cur.
  induction Hall as [| c rest (_ & _ & Hv) _ IH]; intros cur; [reflexivity |].
  cbn [pieces List.filter]. destruct (named name c); [| apply IH].
  destruct (List.filter (named name) rest) as [| c' more] eqn:Hrest.
  - rewrite pieces_absent by exact Hrest. unfold first_value.
    destruct (split_first (snd c) rest Hv) as [more ->]. reflexivity.
  - pose proof (pieces_length name (snd c) rest) as Hlen. rewrite Hrest in Hlen.
    destruct (pieces name (snd c) rest) as [| a [| b l]]; try discriminate Hlen.
    reflexivity.
Qed.

(** X1.  [getCookie] finds a cookie that is set once.  For a cookie
    string of [name=value] pairs joined by [; ], whose names hold neither
    [;] nor [=] and whose values hold no [;], the function returns the value
    of the pair of the given name when exactly one pair has it, and
    [undefined] when none has it or when several have it. *)
Theorem getCookie_lookup (cookies : list (string * string)) (name : string) :
  has_char "=" name = false → Forall well_formed cookies →
  getCookie (cookie_string cookies) (JStr name)
  = match List.filter (named name) cookies with
    | [c] => JStr (snd c)
    | _ => JUndefined
    end.
Proof.
  intros Hname Hall. unfold getCookie. fold (first_value). cbn [ToString].
  destruct cookies as [| c rest].
  - destruct name; reflexivity.
  - unfold split. rewrite value_text, split_text by assumption.
    apply first_value_pieces. exact Hall.
Qed.

(** Three cookies; the value of the second holds an equals sign. *)
Definition some_cookies : list (string * string) :=
  [("sessionid", "abc123"); ("csrftoken", "tok=en"); ("theme", "dark")].

Lemma getCookie_lookup_witness :
  cookie_string some_cookies = "sessionid=abc123; csrftoken=tok=en; theme=dark"
  ∧ getCookie (cookie_string some_cookies) (JStr "csrftoken") = JStr "tok=en"
  ∧ getCookie (cookie_string (("csrftoken", "old") :: some_cookies)) (JStr "csrftoken")
    = JUndefined
  ∧ getCookie (cookie_string some_cookies) (JStr "token") = JUndefined.
Proof.
  split; [reflexivity |]. split; [| split].
  - apply (getCookie_lookup some_cookies "csrftoken"); [reflexivity | repeat constructor].
  - apply (getCookie_lookup (("csrftoken", "old") :: some_cookies) "csrftoken");
      [reflexivity | repeat constructor].
  - apply (getCookie_lookup some_cookies "token"); [reflexivity | repeat constructor].
Defined.

(** *** getProductsBySupplier *)

Lemma percent_encode_chars (c d : ascii) :
  has_char d (percent_encode c) = true → unreserved d = true ∨ d = "%"%char.
Proof.
  unfold percent_encode. cbn [has_char]. rewrite !orb_true_iff, !Ascii.eqb_eq.
  intros [<- | [<- | [<- | H]]]; [right; reflexivity | left | left | discriminate H].
  - destruct c as [[] [] [] [] [] [] [] []]; reflexivity.
  - destruct c as [[] [] [] [] [] [] [] []]; reflexivity.
Qed.

Lemma encodeURIComponent_chars (s : string) (d : ascii) :
  has_char d (encodeURIComponent s) = true → unreserved d = true ∨ d = "%"%char.
Proof.
  induction s as [| c s IH]; [discriminate |].
  cbn [encodeURIComponent]. rewrite has_char_app, orb_true_iff.
  intros [H | H]; [| exact (IH H)].
  destruct (unreserved c) eqn:Hc.
  - cbn [has_char] in H. rewrite orb_false_r in H. apply Ascii.eqb_eq in H. subst d.
    left. exact Hc.
  - exact (percent_encode_chars c d H).
Qed.

(** X2.  The supplier's name cannot change the query.  The request for
    a supplier's products is one [GET] of
    [inventory/supplier-products?name=] followed by the encoded name, in
    which every character is unreserved or a percent sign: no [&], [=],
    [#], [?], [/], [+] or space of the name reaches the URL.  Without a
    supplier object ([undefined] or [null]) no request is made and the
    promise is rejected. *)
Theorem supplier_products_query_is_encoded net (supplier : obj) :
  (∃ q, requests net (getProductsBySupplier (JObj supplier))
        = [("GET", "/inventory/supplier-products?name=" +:+ q)]
        ∧ (∀ c, has_char c q = true → unreserved c = true ∨ c = "%"%char)
        ∧ has_char "&" q = false ∧ has_char "=" q = false ∧ has_char "#" q = false
        ∧ has_char "?" q = false ∧ has_char "/" q = false ∧ has_char "+" q = false
        ∧ has_char " " q = false)
  ∧ requests net (getProductsBySupplier JUndefined) = []
  ∧ run net (getProductsBySupplier JUndefined) = Rejected TypeError
  ∧ requests net (getProductsBySupplier JNull) = []
  ∧ run net (getProductsBySupplier JNull) = Rejected TypeError.
Proof.
  split; [| repeat split; reflexivity].
  exists (encodeURIComponent (ToString (get supplier "name"))).
  split; [apply requests_callAPI |].
  pose proof (encodeURIComponent_chars (ToString (get supplier "name"))) as Hchars.
  split; [exact Hchars |].
  assert (Habsent : ∀ c, unreserved c = false → c ≠ "%"%char →
            has_char c (encodeURIComponent (ToString (get supplier "name"))) = false).
  { intros c Hc Hne.
    destruct (has_char c _) eqn:H; [| reflexivity].
    destruct (Hchars c H) as [H' | H']; congruence. }
  repeat split; apply Habsent; (reflexivity || discriminate).
Qed.

End CookieProofs.

(* ===================================================================== *)
(** ** Properties of the page as a whole *)
(* ===================================================================== *)

Module PageProofs.
Import JS PoRequests PoPopulate RequestProofs OrderProofs.

(** *** The display follows the lines *)

(** The text [updateSubtotal] writes for an order. *)
Definition sub_total_of (ops : list obj) : string :=
  match ops with
  | [] => "0" +:+ shekel
  | _ :: _ => ToString (roundValue (subtotal_reduce ops)) +:+ shekel
  end.

(** The sub-total shown is the sub-total of the lines, and the voucher
    columns are shown exactly when a line is a MONEY line. *)
Definition in_step (p : page) : Prop :=
  subTotal p = sub_total_of (orderProducts p)
  ∧ voucherHeaders p = hasMoneyProducts (orderProducts p).

Lemma refresh_in_step (p : page) : in_step (refresh p).
Proof.
  unfold in_step, refresh, updateSubtotal, updateOrder, sub_total_of.
  destruct p as [ps ss sp sq ops sups st so vh sub nt po sd loc al]. simpl.
  destruct ops; split; reflexivity.
Qed.

(** Two pages that show the same lines the same way. *)
Definition same_order (p q : page) : Prop :=
  orderProducts q = orderProducts p ∧ subTotal q = subTotal p
  ∧ voucherHeaders q = voucherHeaders p.

Lemma in_step_same_order (p q : page) : same_order p q → in_step p → in_step q.
Proof. intros (Ho & Hs & Hv) [H1 H2]. unfold in_step. rewrite Ho, Hs, Hv. split; assumption. Qed.

Lemma refresh_twice (l l' : list obj) (p : page) :
  refresh (with_orderProducts l (refresh (with_orderProducts l' p)))
  = refresh (with_orderProducts l p).
Proof. destruct l, l'; reflexivity. Qed.

Lemma refresh_in_step_id (p : page) : in_step p → refresh p = p.
Proof.
  destruct p as [ps ss sp sq ops sups st so vh sub nt po sd loc al].
  unfold in_step. simpl. intros [-> ->].
  destruct ops; reflexivity.
Qed.

Lemma run_bind {A B : Type} net (m : api A) (f : A → api B) :
  run net (api_bind m f) = run net (f (run net m)).
Proof. induction m as [a | url cfg k IH]; simpl; [reflexivity | apply IH]. Qed.

Lemma addProduct_in_step (p : page) : in_step p → in_step (addProduct p).
Proof.
  intros Hp. unfold addProduct.
  destruct (selectedProduct p); [| exact Hp].
  destruct (List.find _ _); [exact Hp | apply refresh_in_step].
Qed.

Lemma populateProducts_same_order (s : obj) (fetched : option (list obj)) (p : page) :
  same_order p (populateProducts (JObj s) fetched p).
Proof. unfold populateProducts. simpl. destruct fetched; repeat split. Qed.

Lemma importOrderProducts_in_step (sheet : list row) (fetched : option (list obj)) (p : page) :
  in_step p → in_step (importOrderProducts sheet fetched p).
Proof.
  intros Hp. unfold importOrderProducts.
  destruct (last (row_object <$> sheet)) as [lastRow |]; [| exact Hp].
  set (q := if truthy (get lastRow "id") then with_note (get lastRow "id") p else p).
  assert (Hq : in_step q).
  { unfold q. destruct (truthy _); [| exact Hp].
    apply (in_step_same_order p); [repeat split | exact Hp]. }
  clearbody q.
  destruct (scan_suppliers JNull (row_object <$> sheet)) as [supplier_name dup].
  destruct dup.
  { apply (in_step_same_order q); [repeat split | exact Hq]. }
  destruct (suppliers q) as [sups |] eqn:Hsups.
  2: { apply (in_step_same_order q); [repeat split | exact Hq]. }
  destruct (List.find _ sups) as [s |].
  2: { apply (in_step_same_order q); [repeat split | exact Hq]. }
  set (r := populateProducts (JObj s) fetched (with_selectedSupplier (JObj s) q)).
  assert (Hr : in_step r).
  { apply (in_step_same_order (with_selectedSupplier (JObj s) q)).
    - apply populateProducts_same_order.
    - apply (in_step_same_order q); [repeat split | exact Hq]. }
  clearbody r.
  destruct (products r); [apply refresh_in_step | exact Hr].
Qed.

Lemma loadOrderFromInitData_in_step (u : jsval) (data : list obj)
    (fetched : option (list obj)) (p p' : page) :
  in_step p → loadOrderFromInitData u data fetched p = Done p' → in_step p'.
Proof.
  intros Hp. unfold loadOrderFromInitData.
  destruct (_ && _); [| intros [= <-]; exact Hp].
  destruct (suppliers p); [| discriminate].
  match goal with |- context [prop ?c "name"] => destruct (prop c "name") end; [| discriminate].
  destruct (negb (existsb _ _)); [discriminate |].
  match goal with |- context [products ?q] => destruct (products q) end; [| discriminate].
  match goal with |- context [push_lines ?a ?b ?c ?d ?e] =>
    destruct (push_lines a b c d e) as [lines threw] end.
  destruct threw; [discriminate |].
  destruct (mapM _ lines); [| discriminate].
  intros [= <-]. apply refresh_in_step.
Qed.

Lemma savePO_in_step net (csrftoken changelistFilters status id keepEdit : jsval) (p : page) :
  in_step p → in_step (run net (savePO csrftoken changelistFilters status id keepEdit p)).
Proof.
  intros Hp. unfold savePO.
  destruct (strict_eq status (JStr "APPROVED") && truthy id).
  { rewrite run_bind.
    destruct (run net (sendApprovedPO csrftoken id)) as [answer | ex]; cbn [run].
    - destruct (negb (truthy keepEdit));
        (apply (in_step_same_order p); [repeat split | exact Hp]).
    - destruct (truthy (error_message ex));
        (apply (in_step_same_order p); [repeat split | exact Hp]). }
  destruct (negb (length (orderProducts p) =? 0)%nat && truthy (selectedSupplier p)).
  { rewrite run_bind.
    destruct (run net (sendProductsOrder _ _ _)) as [answer | ex]; cbn [run].
    - destruct (strict_eq status (JStr "SENT_TO_SUPPLIER")); [split; reflexivity |].
      destruct (negb (truthy keepEdit)).
      + apply (in_step_same_order p); [repeat split | exact Hp].
      + destruct (prop answer "id");
          (apply (in_step_same_order p); [repeat split | exact Hp]).
    - destruct (_ && _);
        (apply (in_step_same_order p); [repeat split | exact Hp]). }
  destruct (_ && _).
  { apply (in_step_same_order p); [repeat split | exact Hp]. }
  destruct (_ && _).
  { apply (in_step_same_order p); [repeat split | exact Hp]. }
  exact Hp.
Qed.

(** X7.  The sub-total and the voucher columns follow the lines: on a
    page where the sub-total shown is the sub-total of the lines and the
    voucher columns are shown exactly when some line is a MONEY line, this
    is still so after [addProduct], [updateQuantity], [deleteProduct],
    [importOrderProducts], [savePO], [sendPO], and after
    [loadOrderFromInitData] when it runs to its end. *)
Theorem handlers_keep_display_in_step (p : page) :
  in_step p →
  in_step (addProduct p)
  ∧ (∀ idx voucher_value quantity, in_step (updateQuantity idx voucher_value quantity p))
  ∧ (∀ id voucher_value, in_step (deleteProduct id voucher_value p))
  ∧ (∀ sheet fetched, in_step (importOrderProducts sheet fetched p))
  ∧ (∀ urlSupplierName initialPOData fetched p',
        loadOrderFromInitData urlSupplierName initialPOData fetched p = Done p' → in_step p')
  ∧ (∀ net csrftoken changelistFilters status id keepEdit,
        in_step (run net (savePO csrftoken changelistFilters status id keepEdit p)))
  ∧ (∀ net csrftoken changelistFilters id,
        in_step (run net (sendPO csrftoken changelistFilters id p))).
Proof.
  intros Hp.
  split; [apply addProduct_in_step, Hp |].
  split; [intros; apply refresh_in_step |].
  split; [intros; apply refresh_in_step |].
  split; [intros; apply importOrderProducts_in_step, Hp |].
  split; [intros; eapply loadOrderFromInitData_in_step; eassumption |].
  split; [intros; apply savePO_in_step, Hp |].
  intros. unfold sendPO. destruct (negb _); [apply Hp | apply savePO_in_step, Hp].
Qed.

Lemma handlers_keep_display_in_step_witness :
  in_step (refresh one_mug) ∧ in_step (addProduct (refresh one_mug)).
Proof.
  split; [split; reflexivity |].
  apply (proj1 (handlers_keep_display_in_step (refresh one_mug) (conj eq_refl eq_refl))).
Defined.

(** X8.  Choosing an option of [#suppliers] that names no supplier (the
    placeholder) empties the order, the product list and the selection and
    hides the voucher columns, but does not touch the sub-total: the text
    shown keeps the amount of the order that was dropped, so the display
    follows the lines afterwards only if it already read [0] before. *)
Theorem deselecting_supplier_keeps_sub_total (value : string) (fetched : option (list obj))
    (sups : list obj) (p : page) :
  suppliers p = Some sups →
  Forall (fun supplier => strict_eq (get supplier "name") (JStr value) = false) sups →
  ∃ p', suppliers_change value fetched p = Done p'
        ∧ orderProducts p' = [] ∧ products p' = Some [] ∧ selectedProduct p' = None
        ∧ selectedSupplier p' = JUndefined ∧ voucherHeaders p' = false
        ∧ subTotal p' = subTotal p ∧ alerts p' = alerts p
        ∧ (in_step p' ↔ subTotal p = "0" +:+ shekel).
Proof.
  intros Hsups Hnone. unfold suppliers_change. rewrite Hsups.
  assert (Hfind : List.find (fun supplier => strict_eq (get supplier "name") (JStr value)) sups
                  = None).
  { clear Hsups. induction Hnone as [| s l Hs _ IH]; simpl; [reflexivity |].
    rewrite Hs. exact IH. }
  rewrite Hfind. eexists. split; [reflexivity |].
  repeat (split; [reflexivity |]).
  unfold in_step. simpl. split; [intros [H _]; exact H | intros H; split; [exact H | reflexivity]].
Qed.

Lemma deselecting_supplier_keeps_sub_total_witness :
  ∃ p', suppliers_change "active" None (refresh one_mug) = Done p'
        ∧ orderProducts p' = []
        ∧ subTotal (refresh one_mug) = "10" +:+ shekel ∧ subTotal p' = "10" +:+ shekel.
Proof.
  destruct (deselecting_supplier_keeps_sub_total "active" None [acme] (refresh one_mug))
    as (p' & Hdone & Hlines & _ & _ & _ & _ & Hsub & _).
  - reflexivity.
  - repeat constructor.
  - exists p'. split; [exact Hdone |]. split; [exact Hlines |].
    split; [reflexivity |]. rewrite Hsub. reflexivity.
Defined.

(** *** Sessions: picking, adding, changing quantities, deleting *)

(** What the user does on the order, the product list being loaded. *)
Inductive action : Type :=
| PickProduct (value : string)
| AddProduct
| UpdateQuantity (idx voucher_value quantity : jsval)
| DeleteProduct (id voucher_value : jsval).

Definition act (p : page) (a : action) : page :=
  match a with
  | PickProduct value => page_of (products_change value p)
  | AddProduct => addProduct p
  | UpdateQuantity idx voucher_value quantity => updateQuantity idx voucher_value quantity p
  | DeleteProduct id voucher_value => deleteProduct id voucher_value p
  end.

Definition session (actions : list action) (p : page) : page := fold_left act actions p.

Lemma products_refresh (p : page) : products (refresh p) = products p.
Proof. unfold refresh, updateSubtotal. destruct (orderProducts _); reflexivity. Qed.

Lemma selectedProduct_refresh (p : page) : selectedProduct (refresh p) = selectedProduct p.
Proof. unfold refresh, updateSubtotal. destruct (orderProducts _); reflexivity. Qed.

Lemma selectedProductQuantity_refresh (p : page) :
  selectedProductQuantity (refresh p) = selectedProductQuantity p.
Proof. unfold refresh, updateSubtotal. destruct (orderProducts _); reflexivity. Qed.

(** What the actions leave alone. *)
Lemma act_products (p : page) (a : action) : products (act p a) = products p.
Proof.
  destruct a as [value | | idx v q | id v]; simpl.
  - unfold products_change. destruct (products p) eqn:H; [simpl | simpl]; exact H.
  - unfold addProduct. destruct (selectedProduct p); [| reflexivity].
    destruct (List.find _ _); [reflexivity | rewrite products_refresh; reflexivity].
  - unfold updateQuantity. rewrite products_refresh.
    destruct (List.find _ _); [| reflexivity]. destruct (js_gt _ _); reflexivity.
  - unfold deleteProduct. rewrite products_refresh. reflexivity.
Qed.

Lemma act_selectedProductQuantity (p : page) (a : action) :
  selectedProductQuantity (act p a) = selectedProductQuantity p.
Proof.
  destruct a as [value | | idx v q | id v]; simpl.
  - unfold products_change. destruct (products p); reflexivity.
  - unfold addProduct. destruct (selectedProduct p); [| reflexivity].
    destruct (List.find _ _); [reflexivity | rewrite selectedProductQuantity_refresh; reflexivity].
  - unfold updateQuantity. rewrite selectedProductQuantity_refresh.
    destruct (List.find _ _); [| reflexivity]. destruct (js_gt _ _); reflexivity.
  - unfold deleteProduct. rewrite selectedProductQuantity_refresh. reflexivity.
Qed.

Lemma act_selectedProduct (p : page) (a : action) (prods : list obj) (selected : obj) :
  products p = Some prods →
  selectedProduct (act p a) = Some selected →
  selectedProduct p = Some selected ∨ selected ∈ prods.
Proof.
  intros Hprods. destruct a as [value | | idx v q | id v]; simpl.
  - unfold products_change. rewrite Hprods. simpl. intros Hfind. right.
    apply list_elem_of_In. exact (proj1 (List.find_some _ _ Hfind)).
  - unfold addProduct. destruct (selectedProduct p) eqn:Hsel.
    + destruct (List.find _ _); [| rewrite selectedProduct_refresh; simpl]; rewrite Hsel;
        intros H; left; exact H.
    + rewrite Hsel. discriminate.
  - unfold updateQuantity. rewrite selectedProduct_refresh.
    destruct (List.find _ _); [| intros H; left; exact H].
    destruct (js_gt _ _); intros H; left; exact H.
  - unfold deleteProduct. rewrite selectedProduct_refresh. intros H; left; exact H.
Qed.

Lemma distinct_keys_cons (x : obj) (l : list obj) :
  distinct_keys (x :: l)
  ↔ Forall (fun y => same_line_key x y = false) l ∧ distinct_keys l.
Proof.
  split.
  - intros H. split.
    + apply Forall_forall. intros y Hy. apply list_elem_of_lookup in Hy as [j Hj].
      apply (H 0%nat (S j) x y); [lia | reflexivity | exact Hj].
    + intros i j a b Hij Hi Hj. apply (H (S i) (S j) a b); [lia | exact Hi | exact Hj].
  - intros [Hx Hl] i j a b Hij Hi Hj.
    destruct j as [| j]; [lia |]. simpl in Hj.
    destruct i as [| i].
    + simpl in Hi. injection Hi as <-. rewrite Forall_forall in Hx. apply Hx.
      apply list_elem_of_lookup. eauto.
    + simpl in Hi. apply (Hl i j a b); [lia | exact Hi | exact Hj].
Qed.

Lemma distinct_keys_filter (f : obj → bool) (l : list obj) :
  distinct_keys l → distinct_keys (List.filter f l).
Proof.
  induction l as [| x l IH]; intros Hl; [exact Hl |].
  apply distinct_keys_cons in Hl as [Hx Hl]. simpl.
  destruct (f x); [| exact (IH Hl)].
  apply distinct_keys_cons. split; [| exact (IH Hl)].
  rewrite Forall_forall in *. intros y Hy. apply Hx.
  apply list_elem_of_In in Hy. apply List.filter_In in Hy as [Hy _].
  apply list_elem_of_In. exact Hy.
Qed.

(** Changing the quantity of lines changes no key. *)
Lemma distinct_keys_requantified (l l' : list obj) :
  Forall2 (fun x x' => get x' "sku" = get x "sku"
                       ∧ get x' "voucher_value" = get x "voucher_value") l l' →
  distinct_keys l → distinct_keys l'.
Proof.
  intros Hll Hl i j a' b' Hij Hi Hj.
  destruct (Forall2_lookup_r _ _ _ _ _ Hll Hi) as (a & Ha & Ha1 & Ha2).
  destruct (Forall2_lookup_r _ _ _ _ _ Hll Hj) as (b & Hb & Hb1 & Hb2).
  unfold same_line_key. rewrite Ha1, Ha2, Hb1, Hb2.
  exact (Hl i j a b Hij Ha Hb).
Qed.

Lemma update_first_Forall2 {A : Type} (R : A → A → Prop) (test : A → bool) (f : A → A)
    (l : list A) :
  (∀ x, R x x) → (∀ x, test x = true → R x (f x)) →
  Forall2 R l (update_first test f l).
Proof.
  intros Hrefl Hf. induction l as [| x l IH]; simpl; [constructor |].
  destruct (test x) eqn:Hx.
  - constructor; [apply Hf, Hx |]. apply Forall2_same_length_lookup_2; [reflexivity |].
    intros i a b Ha Hb. rewrite Ha in Hb. injection Hb as <-. apply Hrefl.
  - constructor; [apply Hrefl | exact IH].
Qed.

Lemma updateQuantity_distinct_keys (idx voucher_value quantity : jsval) (p : page) :
  distinct_keys (orderProducts p) →
  distinct_keys (orderProducts (updateQuantity idx voucher_value quantity p)).
Proof.
  intros Hp. rewrite updateQuantity_lines.
  destruct (List.find _ _) as [l |]; [| exact Hp].
  destruct (js_gt _ _); [| exact Hp].
  eapply distinct_keys_requantified; [| exact Hp].
  apply update_first_Forall2.
  - intros x. split; reflexivity.
  - intros x _. split; apply get_assign_ne; discriminate.
Qed.

Lemma deleteProduct_distinct_keys (id voucher_value : jsval) (p : page) :
  distinct_keys (orderProducts p) →
  distinct_keys (orderProducts (deleteProduct id voucher_value p)).
Proof.
  intros Hp. unfold deleteProduct. rewrite orderProducts_refresh. simpl.
  apply distinct_keys_filter, Hp.
Qed.

(** X9.  With the products of the supplier loaded, and each of them
    either not a MONEY product or of a voucher value that prints the same
    with one decimal before and after it is rounded to two, no sequence of
    picking a product, adding it, changing quantities and deleting lines
    gives the order two lines of the same sku and one-decimal voucher
    value, if it had none. *)
Theorem session_keeps_keys_distinct (actions : list action) (prods : list obj) (p : page) :
  products p = Some prods → Forall print_stable prods →
  (∀ selected, selectedProduct p = Some selected → print_stable selected) →
  distinct_keys (orderProducts p) →
  distinct_keys (orderProducts (session actions p)).
Proof.
  unfold session. revert p.
  induction actions as [| a actions IH]; intros p Hprods Hstable Hsel Hp; [exact Hp |].
  simpl. apply IH.
  - rewrite act_products. exact Hprods.
  - exact Hstable.
  - intros selected Hselected.
    destruct (act_selectedProduct p a prods selected Hprods Hselected) as [H | H].
    + exact (Hsel selected H).
    + rewrite Forall_forall in Hstable. exact (Hstable selected H).
  - destruct a as [value | | idx v q | id v]; simpl.
    + unfold products_change. destruct (products p); exact Hp.
    + apply addProduct_distinct_keys; assumption.
    + apply updateQuantity_distinct_keys, Hp.
    + apply deleteProduct_distinct_keys, Hp.
Qed.

(** A shop of mugs and gift cards, and a session on it. *)
Definition shop : page :=
  with_products (Some [mug; money_product "GIFT" 50]) (refresh blank).

Definition some_session : list action :=
  [ PickProduct "7"; AddProduct; AddProduct; PickProduct "3"; AddProduct;
    UpdateQuantity (JZ 7) (JStr "undefined") (JZ 2);
    UpdateQuantity (JZ 3) (JStr "50") (JZ (-1)) ].

Lemma session_keeps_keys_distinct_witness :
  List.map sku_quantity (orderProducts (session some_session shop))
    = [(JStr "MUG", JZ 3); (JStr "GIFT", JZ 1)]
  ∧ distinct_keys (orderProducts (session some_session shop)).
Proof.
  split; [vm_compute; reflexivity |].
  apply (session_keeps_keys_distinct some_session [mug; money_product "GIFT" 50] shop
           eq_refl).
  - repeat constructor; intros H; (discriminate H || (vm_compute; reflexivity)).
  - intros selected H. discriminate H.
  - intros i j l l' _ H. destruct i; discriminate H.
Defined.

(** A line ordered at least once. *)
Definition positive (l : obj) : Prop := js_gt (get l "quantity") (JZ 0) = true.

Lemma newProduct_quantity (p : page) (selected : obj) :
  get (newProduct p selected) "quantity" = selectedProductQuantity p.
Proof.
  unfold newProduct. destruct (loose_eq _ _).
  - rewrite !get_assign_ne by discriminate. reflexivity.
  - reflexivity.
Qed.

Lemma update_first_Forall {A : Type} (P : A → Prop) (test : A → bool) (f : A → A)
    (l : list A) :
  (∀ x, test x = true → P (f x)) → Forall P l → Forall P (update_first test f l).
Proof.
  intros Hf Hl. induction Hl as [| x l Hx Hl IH]; simpl; [constructor |].
  destruct (test x) eqn:Htest; constructor; auto.
Qed.

Lemma Forall_List_filter {A : Type} (P : A → Prop) (f : A → bool) (l : list A) :
  Forall P l → Forall P (List.filter f l).
Proof.
  intros Hl. induction Hl as [| x l Hx Hl IH]; simpl; [constructor |].
  destruct (f x); [constructor |]; assumption.
Qed.

(** X10.  No sequence of picking, adding, changing quantities and
    deleting brings the quantity of a line to zero or below: if the
    quantity for new lines ([selectedProductQuantity]) is above zero and
    every line's quantity is, every line's quantity still is afterwards. *)
Theorem session_keeps_quantities_positive (actions : list action) (p : page) :
  js_gt (selectedProductQuantity p) (JZ 0) = true →
  Forall positive (orderProducts p) →
  Forall positive (orderProducts (session actions p)).
Proof.
  unfold session. revert p.
  induction actions as [| a actions IH]; intros p Hq Hp; [exact Hp |].
  simpl. apply IH; [rewrite act_selectedProductQuantity; exact Hq |].
  destruct a as [value | | idx v q | id v]; simpl.
  - unfold products_change. destruct (products p); exact Hp.
  - destruct (addProduct_appends_unmatched p) as [-> | (selected & _ & _ & ->)]; [exact Hp |].
    apply Forall_app. split; [exact Hp |]. constructor; [| constructor].
    unfold positive. rewrite newProduct_quantity. exact Hq.
  - rewrite updateQuantity_lines.
    destruct (List.find _ _) as [l |]; [| exact Hp].
    destruct (js_gt (js_add _ _) _) eqn:Hgt; [| exact Hp].
    apply update_first_Forall; [| exact Hp].
    intros x _. unfold positive. rewrite get_assign_eq. exact Hgt.
  - unfold deleteProduct. rewrite orderProducts_refresh. simpl.
    apply Forall_List_filter, Hp.
Qed.

Lemma session_keeps_quantities_positive_witness :
  Forall positive (orderProducts (session some_session shop)).
Proof.
  apply (session_keeps_quantities_positive some_session shop); [reflexivity | constructor].
Defined.

(** *** deleteProduct and addProduct together *)

Lemma filter_filter_same {A : Type} (f : A → bool) (l : list A) :
  List.filter f (List.filter f l) = List.filter f l.
Proof.
  induction l as [| x l IH]; simpl; [reflexivity |].
  destruct (f x) eqn:Hx; simpl; [rewrite Hx, IH |]; auto.
Qed.

Lemma filter_filter_swap {A : Type} (f g : A → bool) (l : list A) :
  List.filter f (List.filter g l) = List.filter g (List.filter f l).
Proof.
  induction l as [| x l IH]; simpl; [reflexivity |].
  destruct (f x) eqn:Hf, (g x) eqn:Hg; simpl; rewrite ?Hf, ?Hg, IH; reflexivity.
Qed.

(** X11.  Deleting twice with the same arguments is deleting once, and
    two deletions give the same page in either order: lines, sub-total and
    everything else. *)
Theorem deleteProduct_twice_and_swap (id voucher_value id' voucher_value' : jsval) (p : page) :
  deleteProduct id voucher_value (deleteProduct id voucher_value p)
  = deleteProduct id voucher_value p
  ∧ deleteProduct id voucher_value (deleteProduct id' voucher_value' p)
    = deleteProduct id' voucher_value' (deleteProduct id voucher_value p).
Proof.
  unfold deleteProduct. rewrite !orderProducts_refresh. simpl orderProducts.
  rewrite !refresh_twice. split.
  - rewrite filter_filter_same. reflexivity.
  - rewrite filter_filter_swap. reflexivity.
Qed.

(** X12.  Adding and then deleting the new line gives the page back.
    When the display follows the lines, a product is selected that matches
    no line, and no line has the id and voucher value of the new line in
    its key, [deleteProduct] called with the key of the new line after
    [addProduct] leaves the page exactly as it was before the two. *)
Theorem add_then_delete_restores (id voucher_value : jsval) (p : page) (selected : obj) :
  in_step p → selectedProduct p = Some selected →
  List.find (same_sku_voucher selected) (orderProducts p) = None →
  let line := newProduct p selected in
  line_key id voucher_value = line_key (get line "id") (get line "voucher_value") →
  Forall (fun l => String.eqb (line_key (get l "id") (get l "voucher_value"))
                     (line_key id voucher_value) = false)
    (orderProducts p) →
  deleteProduct id voucher_value (addProduct p) = p.
Proof.
  intros Hp Hsel Hfind line Hkey Hothers.
  unfold addProduct. rewrite Hsel, Hfind. fold line.
  unfold deleteProduct. rewrite orderProducts_refresh. simpl orderProducts.
  rewrite refresh_twice.
  assert (Hkept :
    List.filter
      (fun _product =>
         negb (strict_eq (delete_key (get _product "id") (get _product "voucher_value"))
                 (delete_key id voucher_value)))
      (orderProducts p ++ [line]) = orderProducts p).
  { rewrite (List.filter_ext _
               (fun l => negb (String.eqb (line_key (get l "id") (get l "voucher_value"))
                                 (line_key id voucher_value))))
      by (intros l; rewrite !delete_key_string; reflexivity).
    rewrite List.filter_app. cbn [List.filter].
    rewrite Hkey in Hothers |- *. rewrite String.eqb_refl. cbn [negb]. rewrite app_nil_r.
    clear Hfind Hp Hsel. induction Hothers as [| l ops Hl _ IH]; [reflexivity |].
    cbn [List.filter]. rewrite Hl. cbn [negb]. f_equal. exact IH. }
  rewrite Hkept.
  transitivity (refresh p); [| apply refresh_in_step_id, Hp].
  clear. destruct p; reflexivity.
Qed.

Lemma add_then_delete_restores_witness :
  deleteProduct (JStr "7") (JStr "undefined") (addProduct (select mug (refresh blank)))
  = select mug (refresh blank).
Proof.
  apply (add_then_delete_restores (JStr "7") (JStr "undefined") (select mug (refresh blank)) mug).
  - split; reflexivity.
  - reflexivity.
  - reflexivity.
  - reflexivity.
  - constructor.
Defined.

(** X13.  Pressing Add twice adds one line.  When the selected product
    has a sku that equals itself under [===] and keeps its one-decimal
    print when stored, the second [addProduct] changes nothing. *)
Theorem addProduct_twice (p : page) :
  (∀ selected, selectedProduct p = Some selected →
     print_stable selected ∧ strict_eq (get selected "sku") (get selected "sku") = true) →
  addProduct (addProduct p) = addProduct p.
Proof.
  intros Hsel.
  destruct (selectedProduct p) as [selected |] eqn:Hselected.
  2: { assert (Hadd : addProduct p = p)
         by (unfold addProduct; rewrite Hselected; reflexivity).
       rewrite !Hadd. reflexivity. }
  destruct (Hsel selected eq_refl) as [Hstable Hsku].
  destruct (List.find (same_sku_voucher selected) (orderProducts p)) eqn:Hfind.
  { assert (Hadd : addProduct p = p)
      by (unfold addProduct; rewrite Hselected, Hfind; reflexivity).
    rewrite !Hadd. reflexivity. }
  set (q := refresh (with_orderProducts (orderProducts p ++ [newProduct p selected]) p)).
  assert (Hadd : addProduct p = q)
    by (unfold addProduct; rewrite Hselected, Hfind; reflexivity).
  rewrite Hadd. unfold addProduct.
  assert (Hq1 : selectedProduct q = Some selected).
  { unfold q. rewrite selectedProduct_refresh. exact Hselected. }
  assert (Hq2 : orderProducts q = (orderProducts p ++ [newProduct p selected])%list).
  { unfold q. rewrite orderProducts_refresh. reflexivity. }
  rewrite Hq1, Hq2.
  rewrite (find_first_app (same_sku_voucher selected) _ [] (newProduct p selected)).
  - reflexivity.
  - apply Forall_forall. intros l Hl. apply list_elem_of_In in Hl.
    exact (List.find_none _ _ Hfind l Hl).
  - unfold same_sku_voucher. rewrite newProduct_sku, newProduct_voucher, Hsku. simpl.
    unfold print_stable in Hstable.
    destruct (loose_eq _ _); [rewrite Hstable by reflexivity |]; apply String.eqb_refl.
Qed.

Lemma addProduct_twice_witness :
  addProduct (addProduct (select mug (refresh blank))) = addProduct (select mug (refresh blank)).
Proof.
  apply (addProduct_twice (select mug (refresh blank))).
  intros selected H. injection H as <-. split; [| reflexivity].
  intros Hmoney. discriminate Hmoney.
Defined.

End PageProofs.

(* ===================================================================== *)
(** ** Properties of savePO and sendPO *)
(* ===================================================================== *)

Module SaveProofs.
Import JS PoRequests PoPopulate RequestProofs OrderProofs PageProofs.

Lemma requests_sendProductsOrder_length net (csrftoken order id : jsval) :
  length (requests net (sendProductsOrder csrftoken order id)) = 1%nat.
Proof. destruct (sendProductsOrder_requests net csrftoken order id) as [[_ ->] | [_ ->]]; reflexivity. Qed.

Lemma requests_sendApprovedPO net (csrftoken id : jsval) :
  requests net (sendApprovedPO csrftoken id)
  = [("PATCH", "/logistics/order-products-status/" +:+ ToString id)].
Proof. apply requests_callAPI. Qed.

(** X3.  [savePO] issues at most one request.  When the call is not the
    approval of an existing order, an order with no line is not sent and
    the user is told to add a product; an order with lines but no supplier
    is not sent and the user is told to select a supplier.  A call with
    status [APPROVED] and no id that cannot be sent does nothing, without a
    word. *)
Theorem savePO_sends_at_most_once net (csrftoken changelistFilters status id keepEdit : jsval)
    (p : page) :
  let call := savePO csrftoken changelistFilters status id keepEdit p in
  (length (requests net call) ≤ 1)%nat
  ∧ (strict_eq status (JStr "APPROVED") && truthy id = false →
     (orderProducts p = [] →
      requests net call = []
      ∧ run net call
        = if strict_eq status (JStr "APPROVED") then p
          else alert "Please add at least one product to the order." p)
     ∧ (orderProducts p ≠ [] → truthy (selectedSupplier p) = false →
        requests net call = []
        ∧ run net call
          = if strict_eq status (JStr "APPROVED") then p
            else alert "Please select a supplier for the order." p)).
Proof.
  intros call. unfold call, savePO. split.
  - destruct (strict_eq status (JStr "APPROVED") && truthy id).
    { rewrite requests_bind, requests_sendApprovedPO. simpl. lia. }
    destruct (negb (length (orderProducts p) =? 0)%nat && truthy (selectedSupplier p)).
    { rewrite requests_bind, length_app, requests_sendProductsOrder_length. simpl. lia. }
    destruct (_ && _); [simpl; lia |]. destruct (_ && _); simpl; lia.
  - intros ->. split.
    + intros ->. simpl.
      destruct (strict_eq status (JStr "APPROVED")), (truthy (selectedSupplier p));
        split; reflexivity.
    + intros Hlines Hsupplier. rewrite Hsupplier.
      destruct (orderProducts p) as [| l ops]; [congruence |]. simpl.
      destruct (strict_eq status (JStr "APPROVED")); split; reflexivity.
Qed.

Lemma savePO_sends_at_most_once_witness :
  requests net_done (savePO (JStr "token") JNull (JStr "PENDING") (JStr "") (JBool false) blank)
    = []
  ∧ run net_done (savePO (JStr "token") JNull (JStr "PENDING") (JStr "") (JBool false) blank)
    = alert "Please add at least one product to the order." blank.
Proof.
  apply (proj1 (proj2 (savePO_sends_at_most_once net_done (JStr "token") JNull (JStr "PENDING")
                         (JStr "") (JBool false) blank) eq_refl) eq_refl).
Defined.

(** X4.  When the request fails, whatever the failure (no answer, an
    answer that is not JSON, a status that is not ok), [savePO] keeps the
    lines and the sub-total, does not leave the page, enables the save
    buttons again and shows one alert. *)
Theorem savePO_keeps_order_on_failure net
    (csrftoken changelistFilters status id keepEdit : jsval) (p : page) :
  (∀ url cfg, ∃ e, settle (net url cfg) = Rejected e) →
  let call := savePO csrftoken changelistFilters status id keepEdit p in
  orderProducts (run net call) = orderProducts p
  ∧ subTotal (run net call) = subTotal p
  ∧ location (run net call) = location p
  ∧ (requests net call ≠ [] →
     saveDisabled (run net call) = false
     ∧ ∃ msg, alerts (run net call) = (alerts p ++ [msg])%list).
Proof.
  intros Hnet call. unfold call, savePO.
  destruct (strict_eq status (JStr "APPROVED") && truthy id).
  { rewrite run_bind.
    assert (Hrej : ∃ e, run net (sendApprovedPO csrftoken id) = Rejected e)
      by (unfold sendApprovedPO, _callAPI; cbn [run]; apply Hnet).
    destruct Hrej as [e ->]. cbn [run].
    destruct (truthy (error_message e)); repeat split; eexists; reflexivity. }
  destruct (negb (length (orderProducts p) =? 0)%nat && truthy (selectedSupplier p)).
  { rewrite run_bind.
    assert (Hrej : ∀ order, ∃ e, run net (sendProductsOrder csrftoken order id) = Rejected e).
    { intros order. unfold sendProductsOrder, _callAPI.
      destruct (negb _); cbn [run]; apply Hnet. }
    match goal with
    | |- context [run net (sendProductsOrder _ ?order _)] => destruct (Hrej order) as [e ->]
    end.
    cbn [run].
    destruct (_ && _); repeat split; eexists; reflexivity. }
  assert (Hnone : ∀ q : page,
             orderProducts q = orderProducts p → subTotal q = subTotal p →
             location q = location p →
             orderProducts (run net (Return q)) = orderProducts p
             ∧ subTotal (run net (Return q)) = subTotal p
             ∧ location (run net (Return q)) = location p
             ∧ (requests net (Return q) ≠ [] →
                saveDisabled (run net (Return q)) = false
                ∧ ∃ msg, alerts (run net (Return q)) = (alerts p ++ [msg])%list)).
  { intros q H1 H2 H3. repeat (split; [assumption |]).
    intros H. exfalso. apply H. reflexivity. }
  destruct (_ && _); [apply Hnone; reflexivity |].
  destruct (_ && _); apply Hnone; reflexivity.
Qed.

Lemma savePO_keeps_order_on_failure_witness :
  orderProducts
    (run net_down (savePO (JStr "token") JNull (JStr "PENDING") (JStr "41") (JBool false) one_mug))
    = [red_mug]
  ∧ location
      (run net_down (savePO (JStr "token") JNull (JStr "PENDING") (JStr "41") (JBool false) one_mug))
    = None.
Proof.
  destruct (savePO_keeps_order_on_failure net_down (JStr "token") JNull (JStr "PENDING")
              (JStr "41") (JBool false) one_mug) as (Hlines & _ & Hlocation & _).
  - intros url cfg. eexists. reflexivity.
  - split; [exact Hlines | exact Hlocation].
Defined.

(** What a computation puts on the wire: the URL and the configuration
    of each request, in order. *)
Fixpoint wire {A : Type} (net : string → config → promise response) (m : api A)
  : list (string * config) :=
  match m with
  | Return _ => []
  | Fetch url cfg k => (url, cfg) :: wire net (k (net url cfg))
  end.

Lemma wire_bind {A B : Type} net (m : api A) (f : A → api B) :
  wire net (api_bind m f) = (wire net m ++ wire net (f (run net m)))%list.
Proof.
  induction m as [a | url cfg k IH]; simpl; [reflexivity |].
  f_equal. apply IH.
Qed.

(** X5.  Approving an existing order sends the change of status and
    nothing else: one [PATCH] to [logistics/order-products-status/{id}]
    whose body is the empty object, whether or not the page has lines or a
    supplier.  The lines on the page are neither sent nor changed.  When
    the request is answered well the window goes to the list of orders, or
    to the order's own page when [keepEdit] holds. *)
Theorem approval_sends_status_only net (csrftoken changelistFilters id keepEdit : jsval)
    (p : page) :
  truthy id = true →
  let call := savePO csrftoken changelistFilters (JStr "APPROVED") id keepEdit p in
  wire net call
  = [("/logistics/order-products-status/" +:+ ToString id,
      Config "PATCH"
        (<[ "Content-Type" := JStr "application/json" ]> {[ "X-CSRFToken" := csrftoken ]})
        (Some (JObj ∅)))]
  ∧ orderProducts (run net call) = orderProducts p
  ∧ (∀ answer, run net (sendApprovedPO csrftoken id) = Fulfilled answer →
       run net call
       = navigate (if truthy keepEdit then po_list +:+ ToString id +:+ "/change/" else po_list)
           (with_saveDisabled true p)).
Proof.
  intros Hid call. unfold call, savePO.
  assert (Happroval : strict_eq (JStr "APPROVED") (JStr "APPROVED") && truthy id = true)
    by (rewrite Hid; reflexivity).
  rewrite Happroval.
  split; [| split].
  - rewrite wire_bind. reflexivity.
  - rewrite run_bind. destruct (run net (sendApprovedPO csrftoken id)) as [answer | ex];
      cbn [run].
    + destruct (negb (truthy keepEdit)); reflexivity.
    + destruct (truthy (error_message ex)); reflexivity.
  - intros answer Hanswer. rewrite run_bind, Hanswer. cbn [run].
    destruct (truthy keepEdit); reflexivity.
Qed.

Lemma approval_sends_status_only_witness :
  wire net_done (savePO (JStr "token") JNull (JStr "APPROVED") (JStr "41") (JBool false) one_mug)
  = [("/logistics/order-products-status/41",
      Config "PATCH"
        (<[ "Content-Type" := JStr "application/json" ]> {[ "X-CSRFToken" := JStr "token" ]})
        (Some (JObj ∅)))].
Proof.
  apply (proj1 (approval_sends_status_only net_done (JStr "token") JNull (JStr "41")
                  (JBool false) one_mug eq_refl)).
Defined.

Lemma truthy_optprop (v : jsval) (k : string) : truthy (optprop v k) = true → truthy v = true.
Proof. destruct v as [| | b | n | s | l | o]; try discriminate; reflexivity. Qed.

(** X6.  [sendPO] sends nothing to a supplier that has no e-mail address
    (or when no supplier is selected): it alerts and leaves the page as it
    is.  With an address but no line it asks for a product.  With an
    address and lines it issues one request, and once that is answered
    well the order is cleared: no line, a sub-total of [0], the voucher
    columns hidden, and the window sent to the list of orders. *)
Theorem sendPO_needs_email_and_lines net (csrftoken changelistFilters id : jsval) (p : page) :
  let call := sendPO csrftoken changelistFilters id p in
  let email := optprop (selectedSupplier p) "email" in
  (truthy email = false →
   requests net call = []
   ∧ run net call
     = alert "PO cannot be sent since the supplier does not have an email address set" p)
  ∧ (truthy email = true → orderProducts p = [] →
     requests net call = []
     ∧ run net call = alert "Please add at least one product to the order." p)
  ∧ (truthy email = true → orderProducts p ≠ [] →
     length (requests net call) = 1%nat
     ∧ ∀ answer,
         run net (sendProductsOrder csrftoken
                    (order_payload changelistFilters (JStr "SENT_TO_SUPPLIER")
                       (with_saveDisabled true p)) id)
         = Fulfilled answer →
         orderProducts (run net call) = []
         ∧ subTotal (run net call) = "0" +:+ shekel
         ∧ voucherHeaders (run net call) = false
         ∧ location (run net call) = Some po_list).
Proof.
  intros call email. unfold call, sendPO. fold email.
  split; [| split].
  - intros ->. split; reflexivity.
  - intros Hemail Hlines. rewrite Hemail. cbn [negb]. unfold savePO.
    rewrite Hlines. split; reflexivity.
  - intros Hemail Hlines. rewrite Hemail. cbn [negb]. unfold savePO.
    pose proof (truthy_optprop _ _ Hemail) as Hsupplier. rewrite Hsupplier.
    assert (Hlen : negb (length (orderProducts p) =? 0)%nat = true)
      by (destruct (orderProducts p); [congruence | reflexivity]).
    assert (Hnot : strict_eq (JStr "SENT_TO_SUPPLIER") (JStr "APPROVED") && truthy id = false)
      by reflexivity.
    rewrite Hnot, Hlen. cbn [andb]. split.
    + rewrite requests_bind, length_app, requests_sendProductsOrder_length. reflexivity.
    + intros answer Hanswer. rewrite run_bind, Hanswer. cbn [run].
      repeat split; reflexivity.
Qed.

(** The supplier of the page gets an address. *)
Definition with_email (p : page) : page :=
  with_selectedSupplier (JObj (<[ "email" := JStr "orders@acme.example" ]> acme)) p.

Lemma sendPO_needs_email_and_lines_witness :
  (requests net_done (sendPO (JStr "token") JNull (JStr "41") one_mug) = []
   ∧ run net_done (sendPO (JStr "token") JNull (JStr "41") one_mug)
     = alert "PO cannot be sent since the supplier does not have an email address set" one_mug)
  ∧ length (requests net_done (sendPO (JStr "token") JNull (JStr "41") (with_email one_mug)))
    = 1%nat.
Proof.
  split.
  - apply (proj1 (sendPO_needs_email_and_lines net_done (JStr "token") JNull (JStr "41")
                    one_mug) eq_refl).
  - destruct (proj2 (proj2 (sendPO_needs_email_and_lines net_done (JStr "token") JNull
                              (JStr "41") (with_email one_mug))) eq_refl) as [Hsent _].
    + discriminate.
    + exact Hsent.
Defined.

End SaveProofs.

(* ===================================================================== *)
(** ** Properties of the import *)
(* ===================================================================== *)

Module ImportProofs.
Import JS PoRequests PoPopulate RequestProofs OrderProofs.

Lemma requantify_app (rows rows' : list obj) (l : obj) :
  requantify (rows ++ rows') l = requantify rows' (requantify rows l).
Proof. unfold requantify. apply fold_left_app. Qed.

Lemma requantify_sku (rows : list obj) (l : obj) :
  get (requantify rows l) "sku" = get l "sku".
Proof. unfold get. rewrite requantify_other_fields by discriminate. reflexivity. Qed.

(** X14.  When no two lines of the order share a sku, the import leaves
    every line in its place and changes nothing of it but the quantity: the
    line is as it was when no row of the file (among the rows whose sku the
    supplier sells) bears its sku, and otherwise takes the quantity of the
    last such row. *)
Theorem import_requantifies_in_place (prods ops data : list obj) (i : nat) (l : obj) :
  no_shared_sku ops → ops !! i = Some l →
  let rows := List.filter (in_skus prods) data in
  ∃ l', import_merge prods ops data !! i = Some l'
        ∧ (∀ k, k ≠ "quantity" → l' !! k = l !! k)
        ∧ (Forall (fun r => same_value_zero (get l "sku") (get r "sku") = false) rows → l' = l)
        ∧ (∀ before r after,
              rows = (before ++ r :: after)%list →
              same_value_zero (get l "sku") (get r "sku") = true →
              Forall (fun r' => same_value_zero (get l "sku") (get r' "sku") = false) after →
              get l' "quantity" = get r "quantity").
Proof.
  intros Hops Hi rows. exists (requantify rows l).
  split; [exact (import_merge_no_shared_sku prods ops data i l Hops Hi) |].
  split; [intros k Hk; apply requantify_other_fields, Hk |].
  split; [apply requantify_unnamed |].
  intros before r after -> Hr Hafter.
  change (before ++ r :: after)%list with (before ++ [r] ++ after)%list.
  rewrite app_assoc, requantify_app, requantify_unnamed.
  - apply requantify_last, Hr.
  - rewrite requantify_sku. exact Hafter.
Qed.

(** A file row that orders nine blue mugs. *)
Definition blue_row : obj := list_to_map [("sku", JStr "MUG-blue"); ("quantity", JZ 9)].

Lemma import_requantifies_in_place_witness :
  ∃ l', import_merge [red_mug; blue_mug] [red_mug; blue_mug] [blue_row] !! 1%nat = Some l'
        ∧ get l' "quantity" = JZ 9 ∧ get l' "cost_price" = JZ 10.
Proof.
  destruct (import_requantifies_in_place [red_mug; blue_mug] [red_mug; blue_mug] [blue_row]
              1%nat blue_mug) as (l' & Hl' & Hsame & _ & Hlast).
  - intros [| [| i]] [| [| j]] l l' Hij Hi Hj; try lia; try discriminate Hj.
    injection Hi as <-. injection Hj as <-. reflexivity.
  - reflexivity.
  - exists l'. split; [exact Hl' |]. split.
    + apply (Hlast [] blue_row []); [reflexivity | reflexivity | constructor].
    + unfold get. rewrite (Hsame "cost_price") by discriminate. reflexivity.
Defined.

(** *** The lines after an import never share a sku *)

Lemma same_value_zero_sym (a b : jsval) :
  same_value_zero a b = true → same_value_zero b a = true.
Proof.
  intros Hab. apply (same_value_zero_cancel b a b); [| exact Hab].
  destruct a as [| | x | x | x | x | x], b as [| | y | y | y | y | y];
    try discriminate; try reflexivity;
    try (destruct x; discriminate).
  - destruct y; reflexivity.
  - destruct x as [| xa | xq], y as [| ya | yq]; try discriminate; try reflexivity; simpl.
    + destruct ya; reflexivity.
    + apply Qeq_bool_iff. reflexivity.
  - simpl. apply String.eqb_refl.
Qed.

Lemma same_value_zero_trans (a b c : jsval) :
  same_value_zero a b = true → same_value_zero b c = true → same_value_zero a c = true.
Proof.
  intros Hab Hbc. apply (same_value_zero_cancel a c b); [exact Hab |].
  apply same_value_zero_sym, Hbc.
Qed.

(** A key files a line: it is the line's sku, or equal to it as [Map]
    keys are. *)
Definition files (k : jsval) (l : obj) : Prop :=
  k = get l "sku" ∨ same_value_zero k (get l "sku") = true.

Definition filed (m : list (jsval * obj)) : Prop :=
  Forall (fun e => files (fst e) (snd e)) m.

Lemma files_apart (k k' : jsval) (l l' : obj) :
  same_value_zero k k' = false → files k l → files k' l' →
  same_value_zero (get l "sku") (get l' "sku") = false.
Proof.
  intros Hkk Hl Hl'.
  destruct (same_value_zero (get l "sku") (get l' "sku")) eqn:Hll; [exfalso | reflexivity].
  destruct Hl as [-> | Hl], Hl' as [-> | Hl'].
  - congruence.
  - rewrite (same_value_zero_cancel _ _ _ Hll Hl') in Hkk. discriminate Hkk.
  - rewrite (same_value_zero_trans _ _ _ Hl Hll) in Hkk. discriminate Hkk.
  - pose proof (same_value_zero_trans _ _ _ Hl Hll) as H.
    rewrite (same_value_zero_cancel _ _ _ H Hl') in Hkk. discriminate Hkk.
Qed.

Lemma keys_distinct_cons (e : jsval * obj) (m : list (jsval * obj)) :
  Forall (fun e' => same_value_zero (fst e) (fst e') = false) m → keys_distinct m →
  keys_distinct (e :: m).
Proof.
  intros He Hm i j a b Hij Hi Hj.
  destruct j as [| j]; [lia |]. simpl in Hj.
  destruct i as [| i]; simpl in Hi.
  - injection Hi as <-. rewrite Forall_forall in He. apply He.
    apply list_elem_of_lookup. eauto.
  - apply (Hm i j a b); [lia | exact Hi | exact Hj].
Qed.

Lemma map_set_Forall (P : jsval * obj → Prop) (k : jsval) (v : obj)
    (m : list (jsval * obj)) :
  Forall P m → (∀ k' v', P (k', v') → same_value_zero k' k = true → P (k', v)) → P (k, v) →
  Forall P (map_set k v m).
Proof.
  intros Hm Hreplace Hnew. induction Hm as [| [k' v'] m He Hm IH]; simpl.
  - constructor; [exact Hnew | constructor].
  - destruct (same_value_zero k' k) eqn:Hk; constructor; eauto.
Qed.

Lemma map_set_keys_distinct (k : jsval) (v : obj) (m : list (jsval * obj)) :
  keys_distinct m → keys_distinct (map_set k v m).
Proof.
  induction m as [| [k' v'] m IH]; intros Hm; simpl.
  - intros i j a b Hij Hi Hj. destruct j as [| j]; [lia |]. discriminate Hj.
  - pose proof (keys_distinct_head _ _ Hm) as Hhead.
    pose proof (keys_distinct_tail _ _ Hm) as Htail.
    destruct (same_value_zero k' k) eqn:Hk.
    + apply keys_distinct_cons; assumption.
    + apply keys_distinct_cons; [| exact (IH Htail)].
      apply (map_set_Forall (fun e' => same_value_zero k' (fst e') = false)); auto.
Qed.

Lemma map_set_filed (v : obj) (m : list (jsval * obj)) :
  filed m → filed (map_set (get v "sku") v m).
Proof.
  intros Hm. apply map_set_Forall; [exact Hm | |].
  - intros k' v' _ Hk. right. exact Hk.
  - left. reflexivity.
Qed.

Lemma merge_row_filed (m : list (jsval * obj)) (newProd : obj) :
  keys_distinct m → filed m → filed (merge_row m newProd).
Proof.
  intros Hm Hfiled. rewrite merge_row_spec by exact Hm. unfold filed.
  destruct (existsb _ m).
  - apply Forall_fmap. eapply Forall_impl; [exact Hfiled |].
    intros [k v] He. unfold update_entry. simpl in *.
    destruct (same_value_zero _ _); simpl; [| exact He].
    unfold files in *. simpl. rewrite get_assign_ne by discriminate. exact He.
  - apply Forall_app. split; [exact Hfiled |].
    constructor; [left; reflexivity | constructor].
Qed.

Lemma filed_no_shared_sku (m : list (jsval * obj)) :
  keys_distinct m → filed m → no_shared_sku (List.map snd m).
Proof.
  intros Hm Hfiled i j l l' Hij Hi Hj.
  change (List.map snd m) with (snd <$> m) in Hi, Hj.
  rewrite list_lookup_fmap in Hi, Hj.
  destruct (m !! i) as [e |] eqn:He; [| discriminate].
  destruct (m !! j) as [e' |] eqn:He'; [| discriminate].
  injection Hi as <-. injection Hj as <-.
  unfold filed in Hfiled. rewrite Forall_forall in Hfiled.
  apply (files_apart (fst e) (fst e')).
  - exact (Hm i j e e' Hij He He').
  - apply Hfiled, list_elem_of_lookup. eauto.
  - apply Hfiled, list_elem_of_lookup. eauto.
Qed.

Lemma import_merge_no_two_share (prods ops data : list obj) :
  no_shared_sku (import_merge prods ops data).
Proof.
  unfold import_merge.
  set (rows := List.filter (in_skus prods) data). clearbody rows.
  assert (Hfill : ∀ acc,
            keys_distinct acc → filed acc →
            keys_distinct (fold_left (fun m prod => map_set (get prod "sku") prod m) ops acc)
            ∧ filed (fold_left (fun m prod => map_set (get prod "sku") prod m) ops acc)).
  { induction ops as [| l ops IH]; intros acc H1 H2; [split; assumption |].
    simpl. apply IH; [apply map_set_keys_distinct, H1 | apply map_set_filed, H2]. }
  destruct (Hfill []) as [H1 H2].
  { intros i j a b _ Hi. discriminate Hi. }
  { constructor. }
  set (m := fold_left _ ops []) in *. clearbody m. clear Hfill.
  revert m H1 H2. induction rows as [| r rows IH]; intros m H1 H2.
  - apply filed_no_shared_sku; assumption.
  - simpl. apply IH; [apply merge_row_keys_distinct, H1 | apply merge_row_filed; assumption].
Qed.

(** X15.  Whenever [importOrderProducts] changes the lines of the order,
    the lines it leaves never hold the same sku twice (as [Map] keys
    compare), whatever the lines were and whatever the file holds. *)
Theorem import_leaves_no_shared_sku (sheet : list row) (fetched : option (list obj))
    (p : page) :
  let after := importOrderProducts sheet fetched p in
  orderProducts after = orderProducts p ∨ no_shared_sku (orderProducts after).
Proof.
  intros after. unfold after, importOrderProducts.
  destruct (last (row_object <$> sheet)) as [lastRow |]; [| left; reflexivity].
  set (q := if truthy (get lastRow "id") then with_note (get lastRow "id") p else p).
  assert (Hq : orderProducts q = orderProducts p) by (unfold q; destruct (truthy _); reflexivity).
  rewrite <- Hq. clearbody q.
  destruct (scan_suppliers JNull (row_object <$> sheet)) as [supplier_name dup].
  destruct dup; [left; reflexivity |].
  destruct (suppliers q) as [sups |]; [| left; reflexivity].
  destruct (List.find _ sups) as [s |]; [| left; reflexivity].
  set (r := populateProducts (JObj s) fetched (with_selectedSupplier (JObj s) q)).
  assert (Hr : orderProducts r = orderProducts q)
    by (unfold r, populateProducts; simpl; destruct fetched; reflexivity).
  rewrite <- Hr. clearbody r.
  destruct (products r) as [prods |]; [| left; reflexivity].
  right. rewrite orderProducts_refresh. simpl. apply import_merge_no_two_share.
Qed.

(** *** Where the lines of an import come from *)

Lemma map_get_In (k : jsval) (m : list (jsval * obj)) (v : obj) :
  map_get k m = Some v → ∃ e, e ∈ m ∧ snd e = v.
Proof.
  unfold map_get. destruct (List.find _ m) as [e |] eqn:Hfind; [| discriminate].
  intros [= <-]. exists e. split; [| reflexivity].
  apply list_elem_of_In. exact (proj1 (List.find_some _ _ Hfind)).
Qed.

(** X16.  The import never invents a line: every line it leaves agrees,
    on every property but the quantity, with a line the order had or with
    a row of the file whose sku is one of the supplier's products. *)
Theorem import_lines_come_from_order_or_file (prods ops data : list obj) (l' : obj) :
  l' ∈ import_merge prods ops data →
  ∃ src, (src ∈ ops ∨ (src ∈ data ∧ in_skus prods src = true))
         ∧ ∀ k, k ≠ "quantity" → l' !! k = src !! k.
Proof.
  set (P := fun e : jsval * obj =>
              ∃ src, (src ∈ ops ∨ (src ∈ data ∧ in_skus prods src = true))
                     ∧ ∀ k, k ≠ "quantity" → snd e !! k = src !! k).
  unfold import_merge.
  assert (Hfill : ∀ (lines : list obj) acc,
            Forall P acc → (∀ l, l ∈ lines → l ∈ ops) →
            Forall P (fold_left (fun m prod => map_set (get prod "sku") prod m) lines acc)).
  { induction lines as [| l lines IH]; intros acc Hacc Hsub; [exact Hacc |].
    simpl. apply IH; [| intros x Hx; apply Hsub; right; exact Hx].
    assert (Hl : ∀ k, P (k, l)).
    { intros k. exists l. split; [left; apply Hsub; left | reflexivity]. }
    apply map_set_Forall; auto. }
  assert (Hmerge : ∀ (rows : list obj) m,
            Forall P m → (∀ r, r ∈ rows → r ∈ data ∧ in_skus prods r = true) →
            Forall P (fold_left merge_row rows m)).
  { induction rows as [| r rows IH]; intros m Hm Hsub; [exact Hm |].
    simpl. apply IH; [| intros x Hx; apply Hsub; right; exact Hx].
    unfold merge_row. destruct (map_get (get r "sku") m) as [existing |] eqn:Hget.
    - destruct (map_get_In _ _ _ Hget) as (e & He & <-).
      rewrite Forall_forall in Hm. destruct (Hm e He) as (src & Hsrc & Hsame).
      assert (Hnew : ∀ k, P (k, assign (snd e) "quantity" (get r "quantity"))).
      { intros k. exists src. split; [exact Hsrc |]. intros f Hf. simpl.
        rewrite lookup_assign_ne by congruence. apply Hsame, Hf. }
      apply map_set_Forall; [apply Forall_forall, Hm | auto | auto].
    - assert (Hnew : ∀ k, P (k, r)).
      { intros k. exists r. split; [right; apply Hsub; left | reflexivity]. }
      apply map_set_Forall; auto. }
  intros Hin. apply list_elem_of_In, List.in_map_iff in Hin as ([k v] & <- & Hin).
  apply list_elem_of_In in Hin.
  assert (Hall : Forall P
            (fold_left merge_row (List.filter (in_skus prods) data)
               (fold_left (fun m prod => map_set (get prod "sku") prod m) ops []))).
  { apply Hmerge.
    - apply Hfill; [constructor | auto].
    - intros r Hr. apply list_elem_of_In, List.filter_In in Hr as [Hr1 Hr2].
      split; [apply list_elem_of_In, Hr1 | exact Hr2]. }
  rewrite Forall_forall in Hall. exact (Hall (k, v) Hin).
Qed.

Lemma import_lines_come_from_order_or_file_witness :
  ∃ src, (src ∈ [red_mug; blue_mug]
          ∨ (src ∈ [blue_row] ∧ in_skus [red_mug; blue_mug] src = true))
         ∧ ∀ k, k ≠ "quantity" → assign blue_mug "quantity" (JZ 9) !! k = src !! k.
Proof.
  apply (import_lines_come_from_order_or_file [red_mug; blue_mug] [red_mug; blue_mug]
           [blue_row]).
  apply list_elem_of_lookup. exists 1%nat. reflexivity.
Defined.

End ImportProofs.

(* ===================================================================== *)
(** ** Properties of the loader *)
(* ===================================================================== *)

Module LoadProofs.
Import JS PoRequests PoPopulate RequestProofs OrderProofs.

(** *** Quantities of the lines loaded from the template *)

(** A quantity that is not below 1. *)
Definition at_least_one (l : obj) : Prop := js_lt (get l "quantity") (JZ 1) = false.

Lemma Math_max_at_least_one (x : jsval) : js_lt (Math_max (JZ 1) x) (JZ 1) = false.
Proof.
  unfold Math_max, js_lt, JZ, num_of_Z. cbn [ToPrimitive is_primitive ToNumber].
  destruct (ToNumber x) as [| b | q].
  - reflexivity.
  - destruct b; reflexivity.
  - unfold num_max, num_ltb at 2.
    destruct (1 # 1 ?= q)%Q eqn:Hq; try reflexivity.
    unfold num_ltb. rewrite <- Qcompare_antisym, Hq. reflexivity.
Qed.

(** Every entry of [sku_variations] holds a quantity made by
    [Math.max(1, ...)]. *)
Definition bounded (acc : init_data) : Prop :=
  ∀ key entries, sku_variations acc !! key = Some entries →
    Forall (fun e => ∃ x, get e "quantity" = Math_max (JZ 1) x) entries.

Lemma init_step_bounded (acc : init_data) (initProduct : obj) :
  bounded acc → bounded (init_step acc initProduct).
Proof.
  intros Hacc key entries. unfold init_step. cbn [sku_variations].
  set (pk := get initProduct "pk").
  set (included := match pk with JStr name => _ | _ => false end).
  set (variations := if included then sku_variations acc else _).
  assert (Hvar : ∀ k es, variations !! k = Some es →
            Forall (fun e => ∃ x, get e "quantity" = Math_max (JZ 1) x) es).
  { intros k es. unfold variations. destruct included; [apply Hacc |].
    destruct (decide (k = ToString pk)) as [-> | Hne].
    - rewrite lookup_insert_eq. intros [= <-]. constructor.
    - rewrite lookup_insert_ne by congruence. apply Hacc. }
  destruct (decide (key = ToString pk)) as [-> | Hne].
  - rewrite lookup_insert_eq. intros [= <-]. apply Forall_app. split.
    + destruct (variations !! ToString pk) as [es |] eqn:Hes; simpl; [| constructor].
      exact (Hvar _ _ Hes).
    + constructor; [| constructor]. eexists. reflexivity.
  - rewrite lookup_insert_ne by congruence. apply Hvar.
Qed.

Lemma read_init_bounded (initialPOData : list obj) : bounded (read_init initialPOData).
Proof.
  unfold read_init.
  assert (H : ∀ acc, bounded acc → bounded (fold_left init_step initialPOData acc)).
  { induction initialPOData as [| x l IH]; intros acc Hacc; [exact Hacc |].
    simpl. apply IH, init_step_bounded, Hacc. }
  apply H. intros key entries Hlookup. cbn [sku_variations] in Hlookup.
  rewrite lookup_empty in Hlookup. discriminate Hlookup.
Qed.

Lemma with_variation_at_least_one (acc : init_data) (product line : obj) :
  bounded acc → with_variation acc product = Some line → at_least_one line.
Proof.
  intros Hacc. unfold with_variation.
  destruct (sku_variations acc !! ToString (get product "pk")) as [variations |] eqn:Hv;
    simpl default.
  2: { simpl. discriminate. }
  pose proof (Hacc _ _ Hv) as Hall. rewrite Forall_forall in Hall.
  assert (Hline : ∀ variation, variation ∈ variations →
            at_least_one
              (assign (assign (assign product "quantity" (get variation "quantity"))
                         "sku" (get variation "variation"))
                 "order" (get variation "order"))).
  { intros variation Hin. destruct (Hall variation Hin) as [x Hx].
    unfold at_least_one. rewrite !get_assign_ne by discriminate.
    rewrite get_assign_eq, Hx. apply Math_max_at_least_one. }
  destruct (List.find _ variations) as [variation |] eqn:Hfind.
  - intros [= <-]. apply Hline, list_elem_of_In.
    exact (proj1 (List.find_some _ _ Hfind)).
  - destruct variations as [| variation rest]; [discriminate |].
    intros [= <-]. apply Hline. left.
Qed.

(** X17.  The lines [loadOrderFromInitData] builds never carry a
    quantity below 1: when the function runs to its end it has either left
    the page as it was, or every line of the order has a quantity that is
    not less than 1 (a quantity of 0 or below in the template's data is
    raised to 1). *)
Theorem loaded_quantities_at_least_one (urlSupplierName : jsval) (initialPOData : list obj)
    (fetched : option (list obj)) (p p' : page) :
  loadOrderFromInitData urlSupplierName initialPOData fetched p = Done p' →
  p' = p ∨ Forall at_least_one (orderProducts p').
Proof.
  unfold loadOrderFromInitData.
  pose proof (read_init_bounded initialPOData) as Hacc.
  set (acc := read_init initialPOData) in *.
  destruct (_ && _); [| intros [= <-]; left; reflexivity].
  destruct (suppliers p); [| discriminate].
  match goal with |- context [prop ?c "name"] => destruct (prop c "name") end; [| discriminate].
  destruct (negb (existsb _ _)); [discriminate |].
  match goal with |- context [products ?q] => destruct (products q) end; [| discriminate].
  match goal with |- context [push_lines ?a ?b ?c ?d ?e] =>
    destruct (push_lines a b c d e) as [lines threw] end.
  destruct threw; [discriminate |].
  destruct (mapM (with_variation acc) lines) as [lines' |] eqn:Hmap; [| discriminate].
  intros [= <-]. right. rewrite orderProducts_refresh. simpl orderProducts.
  apply sort_by_sku_Forall.
  apply mapM_Some in Hmap. clear -Hmap Hacc.
  induction Hmap as [| x y l k Hxy _ IH]; [constructor |].
  constructor; [| exact IH].
  exact (with_variation_at_least_one acc x y Hacc Hxy).
Qed.

(** The template's data for one line of gift cards, none ordered yet,
    and the order loaded from it. *)
Definition unset_line : obj := <[ "quantity" := JZ 0 ]> gift_line.

Definition loaded : page :=
  page_of (loadOrderFromInitData (JStr "Acme") [unset_line] (Some [gift_card]) acme_page).

Definition is_done (c : completion) : bool :=
  match c with Done _ => true | Threw _ => false end.

Lemma Done_page_of (c : completion) : is_done c = true → c = Done (page_of c).
Proof. destruct c; [reflexivity | discriminate]. Qed.

Lemma loaded_quantities_at_least_one_witness :
  List.map sku_quantity (orderProducts loaded) = [(JStr "GIFT", JZ 1)]
  ∧ (loaded = acme_page ∨ Forall at_least_one (orderProducts loaded)).
Proof.
  split; [vm_compute; reflexivity |].
  apply (loaded_quantities_at_least_one (JStr "Acme") [unset_line] (Some [gift_card])
           acme_page loaded).
  apply Done_page_of. vm_compute. reflexivity.
Defined.

(** *** One line for each pk *)

Lemma obj_put_names {A : Type} (k : string) (v : A) (o : list (string * A)) :
  List.map fst (obj_put k v o)
  = if existsb (String.eqb k) (List.map fst o) then List.map fst o
    else (List.map fst o ++ [k])%list.
Proof.
  unfold obj_put.
  assert (Hex : existsb (fun e => String.eqb (fst e) k) o
                = existsb (String.eqb k) (List.map fst o)).
  { induction o as [| e o IH]; simpl; [reflexivity |].
    rewrite IH, (String.eqb_sym k). reflexivity. }
  rewrite Hex. clear Hex. destruct (existsb _ _).
  - rewrite List.map_map. apply List.map_ext_in. intros e _.
    destruct (String.eqb (fst e) k) eqn:He; [| reflexivity].
    apply String.eqb_eq in He. symmetry. exact He.
  - rewrite List.map_app. reflexivity.
Qed.

(** The names of an object filled key by key: each key once, in the
    order of its first appearance. *)
Fixpoint first_seen (seen keys : list string) : list string :=
  match keys with
  | [] => seen
  | k :: rest =>
      first_seen (if existsb (String.eqb k) seen then seen else (seen ++ [k])%list) rest
  end.

Lemma initProducts_names (initialPOData : list obj) :
  List.map fst (initProducts (read_init initialPOData))
  = first_seen [] (List.map (fun x => ToString (get x "pk")) initialPOData).
Proof.
  unfold read_init.
  assert (H : ∀ acc,
            List.map fst (initProducts (fold_left init_step initialPOData acc))
            = first_seen (List.map fst (initProducts acc))
                (List.map (fun x => ToString (get x "pk")) initialPOData)).
  { induction initialPOData as [| x l IH]; intros acc; [reflexivity |].
    simpl fold_left. rewrite IH. simpl List.map. cbn [first_seen]. f_equal.
    unfold init_step. cbn [initProducts]. apply obj_put_names. }
  apply H.
Qed.

Lemma insert_index_length (e : Z * string) (l : list (Z * string)) :
  length (insert_index e l) = S (length l).
Proof.
  induction l as [| x l IH]; simpl; [reflexivity |].
  destruct (fst e <? fst x); simpl; [reflexivity | rewrite IH; reflexivity].
Qed.

Lemma Object_keys_length {A : Type} (o : list (string * A)) :
  length (Object_keys o) = length o.
Proof.
  unfold Object_keys. rewrite length_app, length_map.
  rewrite <- (length_map fst o).
  induction (List.map fst o) as [| k names IH]; [reflexivity |].
  cbn [omap list_omap List.filter].
  destruct (array_index k); cbn [foldr length].
  - rewrite insert_index_length. simpl. f_equal. exact IH.
  - rewrite Nat.add_succ_r. f_equal. exact IH.
Qed.








End LoadProofs.

(* ===================================================================== *)
(** ** Properties of suppliersOrder *)
(* ===================================================================== *)

Module StartProofs.
Import JS PoRequests PoPopulate RequestProofs OrderProofs LoadProofs.

(** *** suppliersOrder *)

(** X19.  A product ordered that the supplier's list does not hold
    still gives a line.  When no product matches an entry of
    [selected_product_ids], the entry is added as a line with no id, no
    name and a cost price that is not a number, in the quantity of the
    entry; its sku is [undefined], or the text [undefined] followed by the
    variation's suffix when the entry has one.  (The line is not added when
    the order already has a line of that sku.) *)
Theorem unknown_product_adds_blank_line (variations_mapping : obj) (prods : list obj)
    (p : page) (_prod_data : list jsval) :
  let suffix := get variations_mapping (ToString (index _prod_data 2)) in
  let sku := if truthy suffix then JStr ("undefined" +:+ ToString suffix) else JUndefined in
  List.find (ordered_product _prod_data) prods = None →
  Forall (fun l => strict_eq (get l "sku") sku = false) (orderProducts p) →
  ∃ line,
    orderProducts (add_ordered variations_mapping prods p _prod_data)
    = (orderProducts p ++ [line])%list
    ∧ get line "sku" = sku ∧ get line "quantity" = index _prod_data 1
    ∧ get line "id" = JUndefined ∧ get line "name" = JUndefined
    ∧ get line "cost_price" = JNum NaN.
Proof.
  intros suffix sku Hfind Hlines. unfold add_ordered. rewrite Hfind. fold suffix.
  cbn [default].
  assert (Hsku : (if truthy suffix
                  then JStr (ToString (get (∅ : obj) "sku") +:+ ToString suffix)
                  else get (∅ : obj) "sku") = sku) by reflexivity.
  rewrite Hsku. clear Hsku.
  set (selected := assign ∅ "sku" sku).
  set (q := with_selectedProductQuantity (index _prod_data 1)
              (with_selectedProduct (Some selected) p)).
  assert (Hnone : List.find (same_sku_voucher selected) (orderProducts q) = None).
  { apply find_first_none. simpl orderProducts.
    eapply Forall_impl; [exact Hlines |]. intros l Hl.
    unfold same_sku_voucher, selected. rewrite get_assign_eq, Hl. reflexivity. }
  exists (newProduct q selected). split.
  { change (orderProducts (with_selectedProductQuantity (JZ 1) (addProduct q)))
      with (orderProducts (addProduct q)).
    rewrite (addProduct_appends q selected eq_refl Hnone). reflexivity. }
  assert (Hother : ∀ k, k ≠ "sku" → get selected k = JUndefined).
  { intros k Hk. unfold selected. rewrite get_assign_ne by congruence. reflexivity. }
  unfold newProduct.
  rewrite !(Hother "product_kind"), !(Hother "id"), !(Hother "name"),
    !(Hother "cost_price"), !(Hother "tax_percent") by discriminate.
  change (loose_eq JUndefined (JStr "MONEY")) with false. cbv iota.
  repeat split; reflexivity.
Qed.

Lemma unknown_product_adds_blank_line_witness :
  ∃ line,
    orderProducts (add_ordered ∅ [gift_card] acme_page [JZ 99; JZ 2; JZ 5; JNull])
    = [line]
    ∧ get line "sku" = JUndefined ∧ get line "quantity" = JZ 2
    ∧ get line "id" = JUndefined ∧ get line "name" = JUndefined
    ∧ get line "cost_price" = JNum NaN.
Proof.
  exact (unknown_product_adds_blank_line ∅ [gift_card] acme_page [JZ 99; JZ 2; JZ 5; JNull]
           eq_refl (Forall_nil_2 _)).
Defined.

Lemma first_seen_length (seen keys : list string) :
  (length seen ≤ length (first_seen seen keys))%nat.
Proof.
  revert seen. induction keys as [| k keys IH]; intros seen; simpl; [lia |].
  destruct (existsb _ seen); [apply IH |].
  etransitivity; [| apply IH]. rewrite length_app. simpl. lia.
Qed.

Lemma no_keys_no_data (initialPOData : list obj) :
  Nat.eqb (length (Object_keys (initProducts (read_init initialPOData)))) 0
  = match initialPOData with [] => true | _ :: _ => false end.
Proof.
  rewrite Object_keys_length, <- (length_map fst), initProducts_names.
  destruct initialPOData as [| x l]; [reflexivity |].
  cbn [List.map first_seen existsb]. cbv iota.
  pose proof (first_seen_length ([] ++ [ToString (get x "pk")])
                (List.map (fun x => ToString (get x "pk")) l)) as Hlen.
  simpl length in Hlen at 1.
  destruct (length _); [lia | reflexivity].
Qed.

(** X20.  When the suppliers cannot be fetched, [suppliersOrder] shows
    one alert and selects nothing: the status and the PO number are set,
    the lines are left alone and [suppliers] stays undefined.  The loader
    that runs next then fails on the missing suppliers as soon as it has
    something to load (the URL names a supplier other than [null] and the
    template gives data), and otherwise does nothing. *)
Theorem suppliersOrder_without_suppliers (supplier_name : jsval)
    (selected_product_ids : list (list jsval)) (note_ poNumber orderStatus : jsval)
    (variations_mapping : obj) (fetched fetchedAgain : option (list obj))
    (urlSupplierName : jsval) (initialPOData : list obj) (p : page) :
  suppliers p = None →
  let shown :=
    alert "Something went wrong!"
      (with_poNumberText
         (if truthy poNumber then "PO NUMBER " +:+ ToString poNumber else "NEW PO")
         (with_selectedOrderStatus orderStatus p)) in
  suppliersOrder supplier_name selected_product_ids note_ poNumber orderStatus
    (Some variations_mapping) None fetched urlSupplierName initialPOData fetchedAgain p
  = (if negb (strict_eq urlSupplierName (JStr "null"))
        && match initialPOData with [] => false | _ :: _ => true end
     then Threw shown else Done shown)
  ∧ orderProducts shown = orderProducts p
  ∧ suppliers shown = None
  ∧ alerts shown = (alerts p ++ ["Something went wrong!"])%list.
Proof.
  intros Hsups shown. split; [| repeat split; assumption].
  unfold suppliersOrder, loadOrderFromInitData. fold shown.
  rewrite no_keys_no_data.
  assert (Hshown : suppliers shown = None) by exact Hsups.
  rewrite Hshown.
  destruct initialPOData; destruct (negb _); reflexivity.
Qed.

Lemma suppliersOrder_without_suppliers_witness :
  suppliersOrder (JStr "Acme") [[JZ 3; JZ 2; JZ 5; JNull]] (JStr "") (JStr "41")
    (JStr "PENDING") (Some ∅) None None (JStr "Acme") [gift_line] None blank
  = Threw (alert "Something went wrong!"
             (with_poNumberText "PO NUMBER 41" (with_selectedOrderStatus (JStr "PENDING") blank))).
Proof.
  apply (proj1 (suppliersOrder_without_suppliers (JStr "Acme") [[JZ 3; JZ 2; JZ 5; JNull]]
                  (JStr "") (JStr "41") (JStr "PENDING") ∅ None None (JStr "Acme")
                  [gift_line] blank eq_refl)).
Defined.




End StartProofs.

(* ===================================================================== *)
(** ** Properties of the earlier revision *)
(* ===================================================================== *)

Module OldProofs.
Import JS PoRequests PoPopulate RequestProofs OrderProofs PageProofs.

(** *** The earlier revision *)

(** X21.  In the earlier revision an approval saves the order first.
    With lines and a supplier, [savePO('APPROVED', id)] sends the order
    with the status the order already has, and asks for the approval
    ([PATCH logistics/order-products-status/{id}]) only once the order is
    saved: when saving fails, the approval is never requested. *)
Theorem old_approval_saves_first net (csrftoken id keepEdit : jsval) (p : page) :
  orderProducts p ≠ [] → truthy (selectedSupplier p) = true →
  let payload := PoPopulateOld.order_payload (JStr "APPROVED") p in
  let save := sendProductsOrder csrftoken payload id in
  optprop payload "status" = selectedOrderStatus p
  ∧ requests net (PoPopulateOld.savePO csrftoken (JStr "APPROVED") id keepEdit p)
    = (requests net save
         ++ match run net save with
            | Fulfilled _ => [("PATCH", "/logistics/order-products-status/" +:+ ToString id)]
            | Rejected _ => []
            end)%list.
Proof.
  intros Hlines Hsupplier payload save. split; [reflexivity |].
  unfold PoPopulateOld.savePO. rewrite Hsupplier.
  assert (Hlen : negb (length (orderProducts p) =? 0)%nat = true)
    by (destruct (orderProducts p); [congruence | reflexivity]).
  rewrite Hlen. cbn [andb]. rewrite requests_bind. fold payload. fold save. f_equal.
  destruct (run net save) as [answer | ex]; [| reflexivity].
  assert (Hsent : strict_eq (JStr "APPROVED") (JStr "SENT_TO_SUPPLIER") = false) by reflexivity.
  assert (Happroved : strict_eq (JStr "APPROVED") (JStr "APPROVED") = true) by reflexivity.
  rewrite Hsent, Happroved, requests_bind. simpl. reflexivity.
Qed.

Lemma old_approval_saves_first_witness :
  requests net_done (PoPopulateOld.savePO (JStr "token") (JStr "APPROVED") (JStr "41")
                       (JBool false) one_mug)
    = [("PATCH", "/logistics/order-products/41");
       ("PATCH", "/logistics/order-products-status/41")]
  ∧ requests net_down (PoPopulateOld.savePO (JStr "token") (JStr "APPROVED") (JStr "41")
                         (JBool false) one_mug)
    = [("PATCH", "/logistics/order-products/41")].
Proof.
  split.
  - apply (proj2 (old_approval_saves_first net_done (JStr "token") (JStr "41") (JBool false)
                    one_mug ltac:(discriminate) eq_refl)).
  - apply (proj2 (old_approval_saves_first net_down (JStr "token") (JStr "41") (JBool false)
                    one_mug ltac:(discriminate) eq_refl)).
Defined.

(** X22.  In the earlier revision, adding the selected product and then
    deleting its sku gives the page back: when the display follows the
    lines, no line has the sku of the selected product, that sku equals
    itself under [===] and the product has a brand, [deleteProduct] of the
    sku after [addProduct] leaves the page exactly as it was. *)
Theorem old_add_then_delete_restores (p : page) (selected line : obj) :
  in_step p → selectedProduct p = Some selected →
  List.find (PoPopulateOld.same_sku selected) (orderProducts p) = None →
  strict_eq (get selected "sku") (get selected "sku") = true →
  PoPopulateOld.newProduct p selected = Some line →
  PoPopulateOld.deleteProduct (get selected "sku") (page_of (PoPopulateOld.addProduct p)) = p.
Proof.
  intros Hp Hsel Hfind Hsku Hline.
  unfold PoPopulateOld.addProduct. rewrite Hsel, Hfind, Hline. cbn [page_of].
  unfold PoPopulateOld.deleteProduct. rewrite orderProducts_refresh. simpl orderProducts.
  rewrite refresh_twice.
  assert (Hkept :
    List.filter (fun _product => negb (strict_eq (get _product "sku") (get selected "sku")))
      (orderProducts p ++ [line]) = orderProducts p).
  { rewrite List.filter_app. cbn [List.filter].
    rewrite (newProduct_old_sku _ _ _ Hline), Hsku. cbn [negb]. rewrite app_nil_r.
    assert (Hall : Forall (fun l => PoPopulateOld.same_sku selected l = false) (orderProducts p)).
    { apply Forall_forall. intros l Hl. apply list_elem_of_In in Hl.
      exact (List.find_none _ _ Hfind l Hl). }
    clear -Hall. induction Hall as [| l ops Hl _ IH]; [reflexivity |].
    cbn [List.filter]. unfold PoPopulateOld.same_sku in Hl. rewrite Hl. cbn [negb].
    f_equal. exact IH. }
  rewrite Hkept.
  transitivity (refresh p); [| apply refresh_in_step_id, Hp].
  clear. destruct p; reflexivity.
Qed.

Lemma old_add_then_delete_restores_witness :
  PoPopulateOld.deleteProduct (JStr "MUG")
    (page_of (PoPopulateOld.addProduct (select mug (refresh blank))))
  = select mug (refresh blank).
Proof.
  destruct (PoPopulateOld.newProduct (select mug (refresh blank)) mug) as [line |] eqn:Hline;
    [| discriminate Hline].
  apply (old_add_then_delete_restores (select mug (refresh blank)) mug line);
    [split; reflexivity | reflexivity | reflexivity | reflexivity | exact Hline].
Defined.

End OldProofs.
